(** * Streaming chat session of the news-agent front end

    A shallow embedding of
      - [frontend/lib/hooks/useStreamingChat.ts]
        ([formatPreferenceMessage], [sendMessage]), and
      - [lib/hooks/useNetworkStatus] ([getRecommendedTimeout]),
    followed by the properties of the session manager.

    Conventions of the embedding.
      - JavaScript strings are [string].  The case conversions and [trim]
        act on the ASCII range and leave every other byte as it is: they
        are those of JavaScript on texts of ASCII characters ([isAscii]),
        and the properties that depend on them are stated for such texts.
      - A lookup in an object literal is a lookup among the entries of the
        literal ([lookup]); the properties that depend on it are stated
        for keys that are not inherited from [Object.prototype]
        ([isOwnKey]).
      - JavaScript numbers are rationals ([Q]): every timeout the code
        computes is an integer number of milliseconds, exactly
        representable as a double.
      - React state ([useState]) and the [useRef] cell are the fields of one
        record that every statement of [sendMessage] passes on; what the
        code does to the outside world (fetch, timers, console, callbacks)
        is appended to a trace.
      - A [throw] is the [Throw] result of a state-and-exception monad; the
        state written before the throw stays written, as in JavaScript. *)

From Stdlib Require Import String Ascii List Bool Arith Lia QArith Lqa.
From Stdlib Require Import DecimalString.
Import ListNotations.
Close Scope Q_scope.
Open Scope nat_scope.
Open Scope string_scope.

Set Implicit Arguments.

(** ** String primitives of the JavaScript runtime *)

Module JsString.

(** [s.startsWith(p)] *)
Definition startsWith (s p : string) : bool := String.prefix p s.

(** [s.slice(n)] for [0 <= n] *)
Fixpoint slice_from (n : nat) (s : string) : string :=
  match n, s with
  | O, _ => s
  | S _, EmptyString => EmptyString
  | S k, String _ t => slice_from k t
  end.

(** [s.charAt(0)]: the first character as a string, or the empty string *)
Definition charAt0 (s : string) : string :=
  match s with
  | EmptyString => EmptyString
  | String c _ => String c EmptyString
  end.

Definition is_upper (c : ascii) : bool :=
  let n := nat_of_ascii c in Nat.leb 65 n && Nat.leb n 90.

Definition is_lower (c : ascii) : bool :=
  let n := nat_of_ascii c in Nat.leb 97 n && Nat.leb n 122.

Definition upper_ascii (c : ascii) : ascii :=
  if is_lower c then ascii_of_nat (nat_of_ascii c - 32) else c.

Definition lower_ascii (c : ascii) : ascii :=
  if is_upper c then ascii_of_nat (nat_of_ascii c + 32) else c.

Fixpoint map_chars (f : ascii -> ascii) (s : string) : string :=
  match s with
  | EmptyString => EmptyString
  | String c t => String (f c) (map_chars f t)
  end.

(** [s.toUpperCase()] and [s.toLowerCase()], on a text of ASCII
    characters *)
Definition toUpperCase : string -> string := map_chars upper_ascii.
Definition toLowerCase : string -> string := map_chars lower_ascii.

(** [s.split(sep)] for a separator of one character.  The result is
    never empty: the empty string splits into one empty piece. *)
Fixpoint split (sep : ascii) (s : string) : list string :=
  match s with
  | EmptyString => [EmptyString]
  | String c t =>
      if Ascii.eqb c sep then EmptyString :: split sep t
      else match split sep t with
           | [] => [String c EmptyString]
           | piece :: pieces => String c piece :: pieces
           end
  end.

(** [pieces.join(sep)] *)
Fixpoint join (sep : string) (pieces : list string) : string :=
  match pieces with
  | [] => EmptyString
  | [p] => p
  | p :: rest => p ++ sep ++ join sep rest
  end.

(** [s.includes(c)] for one character *)
Fixpoint includes (c : ascii) (s : string) : bool :=
  match s with
  | EmptyString => false
  | String d t => Ascii.eqb c d || includes c t
  end.

(** [s.replace(pat, rep)] with a string pattern: only the first
    occurrence is replaced. *)
Fixpoint replace (pat rep s : string) : string :=
  if String.prefix pat s then rep ++ slice_from (String.length pat) s
  else match s with
       | EmptyString => EmptyString
       | String c t => String c (replace pat rep t)
       end.

Definition is_space (c : ascii) : bool :=
  let n := nat_of_ascii c in
  Nat.eqb n 32 || (Nat.leb 9 n && Nat.leb n 13).

Fixpoint trimStart (s : string) : string :=
  match s with
  | EmptyString => EmptyString
  | String c t => if is_space c then trimStart t else s
  end.

Fixpoint trimEnd (s : string) : string :=
  match s with
  | EmptyString => EmptyString
  | String c t =>
      match trimEnd t with
      | EmptyString => if is_space c then EmptyString else String c EmptyString
      | t' => String c t'
      end
  end.

(** [s.trim()], on a text of ASCII characters: the white space of
    JavaScript in that range is the space and the characters 9 to 13. *)
Definition trim (s : string) : string := trimEnd (trimStart s).

(** [String(n)] for a non-negative integer *)
Definition of_nat (n : nat) : string :=
  NilZero.string_of_uint (Nat.to_uint n).

End JsString.

(** ** The preference-message formatter *)

(** A [Record<string, string>] literal, looked up by key.  The table is
    the literal's own entries: the keys inherited from [Object.prototype]
    are outside the model. *)
Fixpoint lookup (table : list (string * string)) (key : string) : option string :=
  match table with
  | [] => None
  | (k, v) :: rest => if String.eqb k key then Some v else lookup rest key
  end.

Definition formatMap : list (string * string) :=
  [ ("tone", "Preferred Tone of Voice");
    ("news_topics", "News Topic Interest");
    ("language", "Language Preference");
    ("region", "Region Preference");
    ("depth", "Content Depth Preference");
    ("source_type", "Source Type Preference");
    ("interaction_style", "Interaction Style");
    ("format", "Format Preference") ].

Definition specialCases : list (string * string) :=
  [ ("bullet_points", "Bullet Points");
    ("numbered_list", "Numbered List");
    ("q_and_a", "Q&A");
    ("api", "API");
    ("usa", "USA");
    ("uk", "UK");
    ("eu", "EU") ].

(** [w.charAt(0).toUpperCase() + w.slice(1).toLowerCase()] *)
Definition capitalize (w : string) : string :=
  JsString.toUpperCase (JsString.charAt0 w)
  ++ JsString.toLowerCase (JsString.slice_from 1 w).

(** [s.split("_").map(capitalize).join(" ")] *)
Definition titleCase (s : string) : string :=
  JsString.join " " (map capitalize (JsString.split "_" s)).

Definition formatValue (val : string) : string :=
  if JsString.includes "," val then
    JsString.join ", "
      (map capitalize (map JsString.trim (JsString.split "," val)))
  else
    match lookup specialCases (JsString.toLowerCase val) with
    | Some special => special
    | None => titleCase val
    end.

Definition PREFIX : string := "PREFERENCE_SELECTION:".

Definition formatPreferenceMessage (message : string) : string :=
  if negb (JsString.startsWith message PREFIX) then message
  else
    match JsString.split ":" (JsString.replace PREFIX "" message) with
    | [preferenceType; value] =>
        let formattedType :=
          match lookup formatMap preferenceType with
          | Some label => label
          | None => titleCase preferenceType
          end in
        let formattedValue := formatValue value in
        formattedType ++ ": " ++ formattedValue
    | _ => message
    end.

(** ** Network status and the recommended timeout *)

Record NetworkStatus := {
  isOnline : bool;
  isSlowConnection : bool;
  connectionType : string;
  effectiveType : string
}.

Inductive Operation := api | upload | download | general.

Definition baseTimeouts (operation : Operation) : Q :=
  match operation with
  | api => 30000
  | upload => 120000
  | download => 60000
  | general => 30000
  end%Q.

Definition getRecommendedTimeout (networkStatus : NetworkStatus)
    (operation : Operation) : Q :=
  if negb (isOnline networkStatus) then 0%Q
  else
    let baseTimeout := baseTimeouts operation in
    if isSlowConnection networkStatus then (baseTimeout * 2)%Q
    else if effectiveType networkStatus =? "slow-2g" then (baseTimeout * 3)%Q
    else if effectiveType networkStatus =? "2g" then (baseTimeout * 2)%Q
    else if effectiveType networkStatus =? "3g" then (baseTimeout * (3 # 2))%Q
    else baseTimeout.

(** ** Data model ([frontend/types/index.ts]) *)

Inductive RoleType := user | assistant | system.
Inductive SelectionType := single | multiple.
Inductive ToneType := formal | casual | enthusiastic.
Inductive FormatType := bullet_points | paragraphs.
Inductive InteractionStyleType := concise | detailed.

Record UserPreferences := {
  tone : option ToneType;
  format : option FormatType;
  language : option string;
  interaction_style : option InteractionStyleType;
  topics : option (list string)
}.

Record QuickReplyOption := { label : string; value : string }.

(** An optional property [p?: T | null] has three shapes. *)
Inductive Nullable (T : Type) :=
| Undefined
| Null
| Defined (v : T).
Arguments Undefined {T}.
Arguments Null {T}.
Arguments Defined {T} v.

Record ChatMessage := {
  role : RoleType;
  content : string;
  timestamp : string;
  quick_reply_options : Nullable (list QuickReplyOption);
  is_preference_question : option bool;
  preference_type : option string;
  selection_type : option SelectionType
}.

(** The object literal [{ role, content, timestamp }] *)
Definition plainMessage (r : RoleType) (c t : string) : ChatMessage :=
  {| role := r; content := c; timestamp := t;
     quick_reply_options := Undefined;
     is_preference_question := None;
     preference_type := None;
     selection_type := None |}.

(** ** What arrives on the wire *)

(** The [message] property of a stream event.  The declared type is
    [ChatMessage], but the value comes out of [JSON.parse], so any
    property may be missing; [None] stands for a property that is
    [undefined] or [null]. *)
Record MessagePayload := {
  payload_content : option string;
  payload_timestamp : option string;
  payload_quick_reply_options : Nullable (list QuickReplyOption);
  payload_is_preference_question : option bool;
  payload_preference_type : option string;
  payload_selection_type : option SelectionType
}.

(** The object a record's payload is cast to:
    [{ type; content?; message?; preferences?; error? }]. *)
Record StreamData := {
  data_type : string;
  data_content : option string;
  data_message : option MessagePayload;
  data_preferences : option UserPreferences;
  data_error : option string
}.

(** What [JSON.parse] returns when it does not throw: [null], on which
    reading a property throws; a number, string or boolean, whose [type]
    property is [undefined]; or an object (one without a [type] behaves
    as one whose [type] names no event). *)
Inductive Parsed :=
| PNull
| PPrimitive
| PObject (data : StreamData).

(** ** Exceptions *)

(** A thrown value, as far as the [catch] clauses look at it. *)
Record Thrown := {
  instanceof_Error : bool;
  instanceof_SyntaxError : bool;
  name : string;
  message : string
}.

(** [new Error(msg)] *)
Definition new_Error (msg : string) : Thrown :=
  {| instanceof_Error := true; instanceof_SyntaxError := false;
     name := "Error"; message := msg |}.

(** The exception of [JSON.parse] *)
Definition syntaxError : Thrown :=
  {| instanceof_Error := true; instanceof_SyntaxError := true;
     name := "SyntaxError"; message := "Unexpected token in JSON" |}.

(** Reading [data.type] when [data] is [null] *)
Definition nullTypeError : Thrown :=
  {| instanceof_Error := true; instanceof_SyntaxError := false;
     name := "TypeError";
     message := "Cannot read properties of null (reading 'type')" |}.

(** What [fetch] and [reader.read] reject with once the signal is aborted *)
Definition abortError : Thrown :=
  {| instanceof_Error := true; instanceof_SyntaxError := false;
     name := "AbortError"; message := "The operation was aborted." |}.

(** [err instanceof Error && err.name === "AbortError"] *)
Definition isAbort (err : Thrown) : bool :=
  instanceof_Error err && (name err =? "AbortError").

(** ** The environment of one call *)

(** The response body as the reader delivers it: the decoded text of each
    read in order, and then either [done] or a rejected read. *)
Inductive ReadEnd :=
| Done
| ReadRejects (err : Thrown).

Record Body := {
  reads : list string;
  ending : ReadEnd
}.

Record Response := {
  ok : bool;
  status : nat;
  statusText : string;
  body : option Body
}.

Inductive FetchResult :=
| FetchRejects (err : Thrown)
| FetchResolves (response : Response).

Record Env := {
  networkStatus : NetworkStatus;
  preferences : UserPreferences;
  conversationId : string;
  (** [new Date().toISOString()] at the n-th reading of the clock *)
  now : nat -> string;
  fetch : FetchResult
}.

(** ** The session state *)

Record ChatRequest := {
  request_message : string;
  request_conversation_id : string;
  request_preferences : UserPreferences
}.

(** What a call does to the outside world, in order. *)
Inductive Effect :=
| Abort (controller : nat)
| SetTimeout (ms : Q)
| ClearTimeout
| Fetch (request : ChatRequest)
| ConsoleError (err : Thrown)
| OnPreferencesUpdate (prefs : UserPreferences).

Record Session := {
  messages : list ChatMessage;
  streamingMessage : option string;
  isStreaming : bool;
  error : option string;
  (** [abortControllerRef.current]: the controller's identity, or [null] *)
  abortControllerRef : option nat;
  (** how many times the clock has been read *)
  clock : nat;
  (** how many controllers have been created *)
  controllers : nat;
  trace : list Effect
}.

Definition isFetch (e : Effect) : bool :=
  match e with Fetch _ => true | _ => false end.

(** ** A monad for state and exceptions *)

Inductive Result (A : Type) :=
| Ok (a : A)
| Throw (err : Thrown).
Arguments Ok {A} a.
Arguments Throw {A} err.

Definition M (A : Type) : Type := Session -> Result A * Session.

Definition ret {A} (a : A) : M A := fun s => (Ok a, s).

Definition bind {A B} (m : M A) (k : A -> M B) : M B :=
  fun s =>
    match m s with
    | (Ok a, s') => k a s'
    | (Throw err, s') => (Throw err, s')
    end.

Definition throw {A} (err : Thrown) : M A := fun s => (Throw err, s).

(** [try { body } catch (e) { handler(e) }] *)
Definition try_catch {A} (body : M A) (handler : Thrown -> M A) : M A :=
  fun s =>
    match body s with
    | (Ok a, s') => (Ok a, s')
    | (Throw err, s') => handler err s'
    end.

(** [try { body } finally { cleanup }], for a cleanup that does not throw *)
Definition try_finally {A} (body : M A) (cleanup : Session -> Session) : M A :=
  fun s => let (r, s') := body s in (r, cleanup s').

Definition modify (f : Session -> Session) : M unit := fun s => (Ok tt, f s).

Definition gets {A} (f : Session -> A) : M A := fun s => (Ok (f s), s).

Declare Scope monad_scope.
Delimit Scope monad_scope with monad.
Notation "x <- m ;; k" := (bind m (fun x => k))
  (at level 61, m at next level, right associativity) : monad_scope.
Notation "m ;; k" := (bind m (fun _ => k))
  (at level 61, right associativity) : monad_scope.
Open Scope monad_scope.

(** ** State setters and primitive effects *)

Definition with_messages (f : list ChatMessage -> list ChatMessage)
    (s : Session) : Session :=
  {| messages := f (messages s);
     streamingMessage := streamingMessage s;
     isStreaming := isStreaming s;
     error := error s;
     abortControllerRef := abortControllerRef s;
     clock := clock s;
     controllers := controllers s;
     trace := trace s |}.

Definition with_streamingMessage (v : option string) (s : Session) : Session :=
  {| messages := messages s;
     streamingMessage := v;
     isStreaming := isStreaming s;
     error := error s;
     abortControllerRef := abortControllerRef s;
     clock := clock s;
     controllers := controllers s;
     trace := trace s |}.

Definition with_isStreaming (v : bool) (s : Session) : Session :=
  {| messages := messages s;
     streamingMessage := streamingMessage s;
     isStreaming := v;
     error := error s;
     abortControllerRef := abortControllerRef s;
     clock := clock s;
     controllers := controllers s;
     trace := trace s |}.

Definition with_error (v : option string) (s : Session) : Session :=
  {| messages := messages s;
     streamingMessage := streamingMessage s;
     isStreaming := isStreaming s;
     error := v;
     abortControllerRef := abortControllerRef s;
     clock := clock s;
     controllers := controllers s;
     trace := trace s |}.

Definition with_abortControllerRef (v : option nat) (s : Session) : Session :=
  {| messages := messages s;
     streamingMessage := streamingMessage s;
     isStreaming := isStreaming s;
     error := error s;
     abortControllerRef := v;
     clock := clock s;
     controllers := controllers s;
     trace := trace s |}.

Definition with_effect (e : Effect) (s : Session) : Session :=
  {| messages := messages s;
     streamingMessage := streamingMessage s;
     isStreaming := isStreaming s;
     error := error s;
     abortControllerRef := abortControllerRef s;
     clock := clock s;
     controllers := controllers s;
     trace := (trace s ++ [e])%list |}.

Definition tick (s : Session) : Session :=
  {| messages := messages s;
     streamingMessage := streamingMessage s;
     isStreaming := isStreaming s;
     error := error s;
     abortControllerRef := abortControllerRef s;
     clock := S (clock s);
     controllers := controllers s;
     trace := trace s |}.

(** [abortControllerRef.current = new AbortController()] *)
Definition install_controller (s : Session) : Session :=
  {| messages := messages s;
     streamingMessage := streamingMessage s;
     isStreaming := isStreaming s;
     error := error s;
     abortControllerRef := Some (controllers s);
     clock := clock s;
     controllers := S (controllers s);
     trace := trace s |}.

Definition setMessages f : M unit := modify (with_messages f).
Definition setStreamingMessage v : M unit := modify (with_streamingMessage v).
Definition setIsStreaming v : M unit := modify (with_isStreaming v).
Definition setError v : M unit := modify (with_error v).
Definition emit e : M unit := modify (with_effect e).

(** [new Date().toISOString()] *)
Definition newDate (env : Env) : M string :=
  fun s => (Ok (now env (clock s)), tick s).

(** [if (data.preferences) { onPreferencesUpdate(data.preferences); }] *)
Definition updatePreferences (prefs : option UserPreferences) : M unit :=
  match prefs with
  | Some p => emit (OnPreferencesUpdate p)
  | None => ret tt
  end.

(** [a ?? b] *)
Definition nullish {A} (a : option A) (b : A) : A :=
  match a with Some v => v | None => b end.

(** [data.message?.p] for a property that is [undefined] or [null] the same *)
Definition optional_chain {A} (m : option MessagePayload)
    (p : MessagePayload -> option A) : option A :=
  match m with Some payload => p payload | None => None end.

(** [data.message?.quick_reply_options] *)
Definition optional_chain_nullable {A} (m : option MessagePayload)
    (p : MessagePayload -> Nullable A) : Nullable A :=
  match m with Some payload => p payload | None => Undefined end.

(** String concatenation with a value that may be [undefined] *)
Definition concat_value (acc : string) (v : option string) : string :=
  acc ++ nullish v "undefined".

(** The result of one call; the source returns nothing, this names the
    arm of the [try] statement that ran. *)
Inductive Outcome :=
| Completed
| Cancelled
| Failed (errorMessage : string).

Definition INIT_CONVERSATION : string := "__INIT_CONVERSATION__".

Definition offlineMessage : string :=
  "You're offline. Please check your connection and try again.".

(** ** sendMessage *)

Section SendMessage.

(** [JSON.parse]: [None] when it throws its [SyntaxError]. *)
Variable JSON_parse : string -> option Parsed.

Variable env : Env.

(** The body of [if (line.startsWith("data: "))]: returns the value of
    the local [accumulatedMessage] after the record.  (The local is
    assigned only in the [chunk] arm, after which nothing throws, so the
    [catch] clause sees the value the record started with.) *)
Definition handleRecord (line : string) (accumulatedMessage : string)
    : M string :=
  try_catch
    (data <- match JSON_parse (JsString.slice_from 6 line) with
             | Some v => ret v
             | None => throw syntaxError
             end;;
     match data with
     | PNull => throw nullTypeError
     | PPrimitive => ret accumulatedMessage
     | PObject data =>
         if data_type data =? "chunk" then
           let accumulatedMessage :=
             concat_value accumulatedMessage (data_content data) in
           setStreamingMessage (Some accumulatedMessage);;
           ret accumulatedMessage
         else if data_type data =? "complete_message" then
           let m := data_message data in
           timestamp <- match optional_chain m payload_timestamp with
                        | Some t => ret t
                        | None => newDate env
                        end;;
           let assistantMessage :=
             {| role := assistant;
                content := nullish (optional_chain m payload_content) "";
                timestamp := timestamp;
                quick_reply_options :=
                  optional_chain_nullable m payload_quick_reply_options;
                is_preference_question :=
                  optional_chain m payload_is_preference_question;
                preference_type := optional_chain m payload_preference_type;
                selection_type := optional_chain m payload_selection_type |} in
           setMessages (fun prev => (prev ++ [assistantMessage])%list);;
           setStreamingMessage None;;
           updatePreferences (data_preferences data);;
           ret accumulatedMessage
         else if data_type data =? "complete" then
           timestamp <- newDate env;;
           let assistantMessage :=
             plainMessage assistant accumulatedMessage timestamp in
           setMessages (fun prev => (prev ++ [assistantMessage])%list);;
           setStreamingMessage None;;
           updatePreferences (data_preferences data);;
           ret accumulatedMessage
         else if data_type data =? "error" then
           throw (new_Error (nullish (data_error data) "Unknown error"))
         else ret accumulatedMessage
     end)
    (fun e =>
       if instanceof_SyntaxError e then ret accumulatedMessage
       else throw e).

(** One turn of the [for] loop: only a line that starts with the event
    marker is handled. *)
Definition forLine (line : string) (accumulatedMessage : string) : M string :=
  if JsString.startsWith line "data: "
  then handleRecord line accumulatedMessage
  else ret accumulatedMessage.

(** [for (const line of lines) { ... }] *)
Fixpoint forLines (lines : list string) (accumulatedMessage : string)
    : M string :=
  match lines with
  | [] => ret accumulatedMessage
  | line :: rest =>
      accumulatedMessage <- forLine line accumulatedMessage;;
      forLines rest accumulatedMessage
  end.

(** [while (true) { const { done, value } = await reader.read(); ... }] *)
Fixpoint readLoop (pending : list string) (fin : ReadEnd)
    (accumulatedMessage : string) : M unit :=
  match pending with
  | [] =>
      match fin with
      | Done => ret tt
      | ReadRejects err => throw err
      end
  | chunk :: rest =>
      accumulatedMessage <-
        forLines (JsString.split "010" chunk) accumulatedMessage;;
      readLoop rest fin accumulatedMessage
  end.

(** The statements before the user message is added *)
Definition resetForSend : M unit :=
  current <- gets abortControllerRef;;
  match current with
  | Some controller => emit (Abort controller)
  | None => ret tt
  end;;
  setIsStreaming true;;
  setError None;;
  setStreamingMessage (Some "").

Definition addUserMessage (content : string) : M unit :=
  if negb (content =? INIT_CONVERSATION) then
    timestamp <- newDate env;;
    let userMessage :=
      plainMessage user (formatPreferenceMessage content) timestamp in
    setMessages (fun prev => (prev ++ [userMessage])%list)
  else ret tt.

(** The [try] block *)
Definition request (content : string) : M unit :=
  if negb (isOnline (networkStatus env)) then throw (new_Error offlineMessage)
  else
    modify install_controller;;
    let timeout := getRecommendedTimeout (networkStatus env) api in
    emit (SetTimeout timeout);;
    emit (Fetch {| request_message := content;
                   request_conversation_id := conversationId env;
                   request_preferences := preferences env |});;
    response <- match fetch env with
                | FetchRejects err => throw err
                | FetchResolves response => ret response
                end;;
    emit ClearTimeout;;
    if negb (ok response) then
      throw (new_Error ("Failed to send message: "
                        ++ JsString.of_nat (status response) ++ " "
                        ++ statusText response))
    else
      match body response with
      | None => throw (new_Error "No response body")
      | Some reader => readLoop (reads reader) (ending reader) ""
      end.

(** The [catch] clause *)
Definition recover (err : Thrown) : M Outcome :=
  if isAbort err then
    setStreamingMessage None;;
    ret Cancelled
  else
    emit (ConsoleError err);;
    let errorMessage :=
      if instanceof_Error err then message err
      else "Failed to stream message" in
    setError (Some errorMessage);;
    setMessages (@removelast ChatMessage);;
    setStreamingMessage None;;
    ret (Failed errorMessage).

(** The [finally] clause *)
Definition cleanup (s : Session) : Session :=
  with_abortControllerRef None (with_isStreaming false s).

Definition sendMessage (content : string) : M Outcome :=
  resetForSend;;
  addUserMessage content;;
  try_finally
    (try_catch (request content;; ret Completed) recover)
    cleanup.

End SendMessage.

(** [clearMessages] *)
Definition clearMessages : M unit :=
  setMessages (fun _ => []);;
  setStreamingMessage None;;
  setError None.

(** A session as [useStreamingChat] creates it. *)
Definition initialSession (initialMessages : list ChatMessage) : Session :=
  {| messages := initialMessages;
     streamingMessage := None;
     isStreaming := false;
     error := None;
     abortControllerRef := None;
     clock := 0;
     controllers := 0;
     trace := [] |}.

(** ** A call that starts while another one waits *)

(** [sendMessage] is an [async] function: at [await fetch(...)] and at
    every [await reader.read()] it is suspended, and a second call may
    start.  The second call runs without interruption from its first
    statement to its own first [await]; its first statement aborts the
    controller of the waiting call, whose pending [await] is then
    rejected with an [AbortError], and that rejection is delivered (a
    microtask) when the second call in its turn waits or is over. *)

Section Overlap.

Variable JSON_parse : string -> option Parsed.
Variable env : Env.

(** The [try] block up to its first [await]: the connectivity check, the
    new controller, the timer and the call of [fetch]. *)
Definition issue (content : string) : M unit :=
  if negb (isOnline (networkStatus env)) then throw (new_Error offlineMessage)
  else
    modify install_controller;;
    let timeout := getRecommendedTimeout (networkStatus env) api in
    emit (SetTimeout timeout);;
    emit (Fetch {| request_message := content;
                   request_conversation_id := conversationId env;
                   request_preferences := preferences env |}).

(** A call from its first statement to its first [await].  Online it is
    then waiting for its request ([None]).  Offline the [try] block
    throws before any [await], so the [catch] and [finally] clauses run
    at once and the call is over ([Some] of its outcome). *)
Definition begin (content : string) : M (option Outcome) :=
  if isOnline (networkStatus env) then
    resetForSend;;
    addUserMessage env content;;
    issue content;;
    ret None
  else
    outcome <- sendMessage JSON_parse env content;;
    ret (Some outcome).

End Overlap.

(** The call with content [content], when the rejection that ends its
    [try] block is the abort by the call with content [next]: the part of
    the next call up to its first [await] runs while this call waits, so
    before this call's [catch] clause.  (A [try] block that ends in
    another way is not touched: the next call has not started.) *)
Definition preemptedSend (JSON_parse : string -> option Parsed)
    (env next_env : Env) (content next : string) : M Outcome :=
  resetForSend;;
  addUserMessage env content;;
  try_finally
    (try_catch (request JSON_parse env content;; ret Completed)
       (fun err =>
          (if isAbort err then begin JSON_parse next_env next;; ret tt
           else ret tt);;
          recover err))
    cleanup.

(** ** The rest of the network hook *)

(** [navigator.connection], as far as the hook reads it; a property the
    browser does not report is [None]. *)
Record Connection := {
  connection_type : option string;
  connection_effectiveType : option string
}.

(** [v || "unknown"]: a missing value and the empty string give the
    default. *)
Definition orUnknown (v : option string) : string :=
  match v with
  | Some text => if text =? "" then "unknown" else text
  | None => "unknown"
  end.

(** [connection.effectiveType === kind] *)
Definition effectiveTypeIs (connection : Connection) (kind : string) : bool :=
  match connection_effectiveType connection with
  | Some text => text =? kind
  | None => false
  end.

(** The status [useNetworkStatus] computes, at the first render and on
    every online, offline and change event, from [navigator.onLine] and
    the connection object (absent in browsers without the API). *)
Definition updateNetworkStatus (onLine : bool) (connection : option Connection)
    : NetworkStatus :=
  {| isOnline := onLine;
     isSlowConnection :=
       match connection with
       | Some c => effectiveTypeIs c "slow-2g" || effectiveTypeIs c "2g"
       | None => false
       end;
     connectionType :=
       orUnknown match connection with
                 | Some c => connection_type c
                 | None => None
                 end;
     effectiveType :=
       orUnknown match connection with
                 | Some c => connection_effectiveType c
                 | None => None
                 end |}.

Definition shouldDelay (networkStatus : NetworkStatus) (operation : Operation)
    : bool :=
  if negb (isOnline networkStatus) then true
  else if isSlowConnection networkStatus then
    match operation with
    | upload | download => true
    | _ => false
    end
  else false.

(** ** The callers of sendMessage *)

(** [ChatInterface.handleQuickReply]: the content handed to [sendMessage]
    for a quick reply. *)
Definition handleQuickReply (preferenceType value : string) : string :=
  "PREFERENCE_SELECTION:" ++ preferenceType ++ ":" ++ value.

(** [MessageList]: the [onSelect] of the pills under a message *)
Definition onSelect (message : ChatMessage) (value : string) : string :=
  handleQuickReply (nullish (preference_type message) "") value.

(** [MessageInput.handleSubmit]: the text left in the input box and the
    session after the submit.  [onSend] is awaited inside a [try]; its
    [catch] restores the text. *)
Definition handleSubmit {A} (onSend : string -> M A) (isLoading : bool)
    (disabled : option bool) (input : string) (s : Session)
    : string * Session :=
  if (JsString.trim input =? "") || isLoading || nullish disabled false
  then (input, s)
  else
    let message := JsString.trim input in
    match onSend message s with
    | (Ok _, s') => ("", s')
    | (Throw _, s') => (message, s')
    end.

(** ** The quick-reply pills *)

Record Pills := {
  selectedValues : list string;
  isSubmitted : bool
}.

(** [prev.includes(value)] *)
Definition includesValue (values : list string) (value : string) : bool :=
  existsb (String.eqb value) values.

(** The selection after a click on a pill in multiple mode *)
Definition toggle (value : string) (prev : list string) : list string :=
  if includesValue prev value
  then filter (fun v => negb (v =? value)) prev
  else (prev ++ [value])%list.

(** [handlePillClick]: the pills after the click, and the value handed to
    [onSelect] if any.  A missing [selectionType] is single. *)
Definition handlePillClick (disabled : bool)
    (selectionType : option SelectionType) (value : string) (pills : Pills)
    : Pills * option string :=
  if disabled || isSubmitted pills then (pills, None)
  else
    match nullish selectionType single with
    | single =>
        ({| selectedValues := [value]; isSubmitted := true |}, Some value)
    | multiple =>
        ({| selectedValues := toggle value (selectedValues pills);
            isSubmitted := isSubmitted pills |}, None)
    end.

(** [handleDoneClick] *)
Definition handleDoneClick (pills : Pills) : Pills * option string :=
  if Nat.ltb 0 (length (selectedValues pills)) then
    ({| selectedValues := selectedValues pills; isSubmitted := true |},
     Some (JsString.join "," (selectedValues pills)))
  else (pills, None).

Definition toneText (t : ToneType) : string :=
  match t with
  | formal => "formal"
  | casual => "casual"
  | enthusiastic => "enthusiastic"
  end.

Definition formatText (f : FormatType) : string :=
  match f with
  | bullet_points => "bullet points"
  | paragraphs => "paragraphs"
  end.

Definition interactionStyleText (i : InteractionStyleType) : string :=
  match i with
  | concise => "concise"
  | detailed => "detailed"
  end.

(** The buttons of the component *)
Inductive Control :=
| PillButton (value : string)
| DoneButton.

(** Whether a button is on the page and enabled.  Submitted pills are
    rendered as plain [div]s, without any button.  Before that every
    option has its button, disabled by the [disabled] prop; multiple mode
    adds the Done button, disabled by the prop and as long as nothing is
    selected. *)
Definition enabled (disabled : bool) (selectionType : option SelectionType)
    (options : list QuickReplyOption) (pills : Pills) (control : Control)
    : bool :=
  if isSubmitted pills then false
  else
    match control with
    | PillButton v =>
        existsb (fun o => value o =? v) options && negb disabled
    | DoneButton =>
        match nullish selectionType single with
        | single => false
        | multiple =>
            negb (disabled || Nat.eqb (length (selectedValues pills)) 0)
        end
    end.

(** One click: the handler of the button runs when the button is on the
    page and enabled (a click on a disabled button is not dispatched). *)
Definition click (selectionType : option SelectionType)
    (options : list QuickReplyOption) (disabled : bool) (control : Control)
    (pills : Pills) : Pills * option string :=
  if enabled disabled selectionType options pills control then
    match control with
    | PillButton v => handlePillClick disabled selectionType v pills
    | DoneButton => handleDoneClick pills
    end
  else (pills, None).

(** A series of clicks, each with the value the [disabled] prop has at
    that time and each on the component as rendered after the click
    before: the pills at the end, and what was handed to [onSelect], in
    order. *)
Fixpoint clicks (selectionType : option SelectionType)
    (options : list QuickReplyOption) (steps : list (bool * Control))
    (pills : Pills) : Pills * list string :=
  match steps with
  | [] => (pills, [])
  | (disabled, control) :: rest =>
      let (after, sent) := click selectionType options disabled control pills in
      let (final, more) := clicks selectionType options rest after in
      (final, match sent with
              | Some v => v :: more
              | None => more
              end)
  end.

(** [preferences.topics] as the pills meet it.  The declared type is an
    array or [null]; the component provides for a comma-separated string
    as well, and treats anything else as no topics. *)
Inductive TopicsValue :=
| TopicsArray (chosen : list string)
| TopicsString (text : string)
| TopicsOther.

(** The preferences as the pills read them: [UserPreferences] with the
    run-time shapes of [topics]. *)
Record PreferencesValue := {
  value_tone : option ToneType;
  value_format : option FormatType;
  value_language : option string;
  value_interaction_style : option InteractionStyleType;
  value_topics : TopicsValue
}.

(** Preferences of the declared type, as the pills read them *)
Definition preferencesValue (prefs : UserPreferences) : PreferencesValue :=
  {| value_tone := tone prefs;
     value_format := format prefs;
     value_language := language prefs;
     value_interaction_style := interaction_style prefs;
     value_topics := match topics prefs with
                     | Some chosen => TopicsArray chosen
                     | None => TopicsOther
                     end |}.

(** [v ? [v] : []] for a string that may be missing or empty *)
Definition truthyList (v : option string) : list string :=
  match v with
  | Some text => if text =? "" then [] else [text]
  | None => []
  end.

(** The initial [selectedValues] of the pills, from the stored
    preferences. *)
Definition initialSelectedValues (preferenceType : option string)
    (preferences : PreferencesValue) : list string :=
  match preferenceType with
  | None => []
  | Some type =>
      if type =? "" then []
      else if type =? "tone"
        then truthyList (option_map toneText (value_tone preferences))
      else if type =? "format"
        then truthyList (option_map formatText (value_format preferences))
      else if type =? "language" then truthyList (value_language preferences)
      else if type =? "interaction_style"
        then truthyList (option_map interactionStyleText
                           (value_interaction_style preferences))
      else if type =? "topics" then
        match value_topics preferences with
        | TopicsArray chosen => chosen
        | TopicsString text => map JsString.trim (JsString.split "," text)
        | TopicsOther => []
        end
      else []
  end.

(** [!!v] for a string that may be missing or empty *)
Definition truthy (v : option string) : bool :=
  match v with
  | Some text => negb (text =? "")
  | None => false
  end.

(** The initial [isSubmitted] of the pills *)
Definition initialIsSubmitted (preferenceType : option string)
    (preferences : PreferencesValue) : bool :=
  match preferenceType with
  | None => false
  | Some type =>
      if type =? "" then false
      else if type =? "tone"
        then truthy (option_map toneText (value_tone preferences))
      else if type =? "format"
        then truthy (option_map formatText (value_format preferences))
      else if type =? "language" then truthy (value_language preferences)
      else if type =? "interaction_style"
        then truthy (option_map interactionStyleText
                       (value_interaction_style preferences))
      else if type =? "topics" then
        match value_topics preferences with
        | TopicsArray chosen => Nat.ltb 0 (length chosen)
        | TopicsString text =>
            Nat.ltb 0 (String.length (JsString.trim text))
        | TopicsOther => false
        end
      else false
  end.

(** ** The preferences checklist and [usePreferences] *)

(** [isComplete] of [usePreferences]: every preference is truthy and
    there is at least one topic. *)
Definition isComplete (prefs : UserPreferences) : bool :=
  truthy (option_map toneText (tone prefs))
  && truthy (option_map formatText (format prefs))
  && truthy (language prefs)
  && truthy (option_map interactionStyleText (interaction_style prefs))
  && match topics prefs with
     | Some chosen => Nat.ltb 0 (length chosen)
     | None => false
     end.

(** The [value] of each item of [PreferencesChecklist], in the order
    tone, format, language, interaction style, topics *)
Definition checklistValues (prefs : UserPreferences) : list (option string) :=
  [ option_map toneText (tone prefs);
    option_map formatText (format prefs);
    language prefs;
    option_map interactionStyleText (interaction_style prefs);
    match topics prefs with
    | Some chosen =>
        if Nat.ltb 0 (length chosen) then Some (JsString.join ", " chosen)
        else None
    | None => None
    end ].

(** [item.value !== null && item.value !== ''] *)
Definition ticked (v : option string) : bool :=
  match v with
  | Some text => negb (text =? "")
  | None => false
  end.

(** [canSubmit] of [MessageInput] *)
Definition canSubmit (isLoading : bool) (disabled : option bool)
    (input : string) : bool :=
  negb isLoading && negb (nullish disabled false)
  && negb (JsString.trim input =? "").

(** ** Persistence ([lib/hooks/usePersistence.ts]) *)

(** [localStorage]: the entries in the order of [Object.keys]; a key
    occurs once. *)
Definition Storage : Type := list (string * string).

Definition keys (storage : Storage) : list string := map fst storage.

Fixpoint getItem (storage : Storage) (key : string) : option string :=
  match storage with
  | [] => None
  | (k, v) :: rest => if k =? key then Some v else getItem rest key
  end.

Fixpoint setItem (storage : Storage) (key value : string) : Storage :=
  match storage with
  | [] => [(key, value)]
  | (k, v) :: rest =>
      if k =? key then (k, value) :: rest
      else (k, v) :: setItem rest key value
  end.

Definition removeItem (storage : Storage) (key : string) : Storage :=
  filter (fun entry => negb (fst entry =? key)) storage.

(** The session state that [useLocalStorage] keeps for the hook *)
Record SessionState := {
  session_conversationId : string;
  lastActivity : Z
}.

(** What [saveMessages] serializes *)
Record StoredChat := {
  stored_conversationId : string;
  stored_messages : list ChatMessage;
  stored_timestamp : Z
}.

(** What [JSON.parse] returns for a stored text, as far as the hook looks
    at it: [null]; a number, string or boolean; or an object with its
    [timestamp] (a number when present) and its [messages]. *)
Inductive ParsedItem :=
| ItemNull
| ItemPrimitive
| ItemObject (timestamp : option Z) (messages : option (list ChatMessage)).

(** [messages.slice(-n)] *)
Definition lastN {A} (n : nat) (l : list A) : list A :=
  skipn (length l - n) l.

Definition chatKeyPrefix : string := "chat_messages_".

(** [key.startsWith("chat_messages_")] *)
Definition isChatKey (key : string) : bool :=
  JsString.startsWith key chatKeyPrefix.

Definition sevenDays : Z := (7 * 24 * 60 * 60 * 1000)%Z.
Definition oneDay : Z := (24 * 60 * 60 * 1000)%Z.

Section Persistence.

(** [JSON.parse] on a stored text: [None] when it throws. *)
Variable JSON_parse_item : string -> option ParsedItem.

(** [JSON.parse] on the stored preferences: [None] when it throws or
    gives [null]. *)
Variable JSON_parse_preferences : string -> option UserPreferences.

(** [JSON.stringify] on what [saveMessages] stores *)
Variable JSON_stringify : StoredChat -> string.

(** One turn of [keys.forEach] in [cleanupOldData]: the entry goes when
    its text does not parse, when it is [null], and when it has a
    timestamp that is not zero and lies before the cutoff. *)
Definition cleanupKey (cutoff : Z) (storage : Storage) (key : string)
    : Storage :=
  if isChatKey key then
    match getItem storage key with
    | Some data =>
        if data =? "" then storage
        else
          match JSON_parse_item data with
          | None => removeItem storage key
          | Some ItemNull => removeItem storage key
          | Some ItemPrimitive => storage
          | Some (ItemObject None _) => storage
          | Some (ItemObject (Some timestamp) _) =>
              if negb (Z.eqb timestamp 0) && Z.ltb timestamp cutoff
              then removeItem storage key
              else storage
          end
    | None => storage
    end
  else storage.

(** What [clearSession] leaves in the storage under the key of the
    session.  [clearSession] is the third value that
    [useLocalStorage("session_state", null)] returns; the code of that
    hook is not among the sources, so what it leaves under its key is
    taken as given: nothing ([None], the entry is removed), or a text (the
    initial value written back). *)
Variable clearedSession : option string.

Definition sessionKey : string := "session_state".

(** [clearSession()], as far as the storage goes: it is bound to the one
    key it was created for. *)
Definition clearSession (storage : Storage) : Storage :=
  match clearedSession with
  | Some text => setItem storage sessionKey text
  | None => removeItem storage sessionKey
  end.

(** [cleanupOldData] at time [now]: the storage afterwards, and whether
    [clearSession] was called (it then also resets the session state of
    the hook). *)
Definition cleanupOldData (now : Z) (sessionState : option SessionState)
    (storage : Storage) : Storage * bool :=
  let cutoff := (now - sevenDays)%Z in
  let storage := fold_left (cleanupKey cutoff) (keys storage) storage in
  match sessionState with
  | Some session =>
      if Z.ltb oneDay (now - lastActivity session)
      then (clearSession storage, true)
      else (storage, false)
  | None => (storage, false)
  end.

(** [saveMessages] at time [now]; [setItem] may throw (the quota), which
    is caught and leaves the storage as it was. *)
Definition saveMessages (setItemThrows : bool) (now : Z)
    (conversationId : string) (messages : list ChatMessage)
    (storage : Storage) : Storage :=
  let limitedMessages := lastN 100 messages in
  let data := {| stored_conversationId := conversationId;
                 stored_messages := limitedMessages;
                 stored_timestamp := now |} in
  if setItemThrows then storage
  else setItem storage (chatKeyPrefix ++ conversationId) (JSON_stringify data).

(** One turn of the scan for the most recent conversation: the key and
    timestamp found so far, after looking at [key]. *)
Definition scanKey (storage : Storage) (best : string * Z) (key : string)
    : string * Z :=
  match getItem storage key with
  | Some data =>
      if data =? "" then best
      else
        match JSON_parse_item data with
        | Some (ItemObject (Some timestamp) _) =>
            if Z.ltb (snd best) timestamp then (key, timestamp) else best
        | _ => best
        end
  | None => best
  end.

Definition mostRecent (storage : Storage) : string * Z :=
  fold_left (scanKey storage) (filter isChatKey (keys storage)) ("", 0%Z).

(** [parsed.messages || []] under its [try]: nothing when there is no
    text, when it does not parse, or when it is [null] *)
Definition messagesOf (storage : Storage) (key : string) : list ChatMessage :=
  match getItem storage key with
  | Some data =>
      if data =? "" then []
      else
        match JSON_parse_item data with
        | Some (ItemObject _ (Some messages)) => messages
        | _ => []
        end
  | None => []
  end.

Record Recovered := {
  recovered_messages : list ChatMessage;
  recovered_preferences : option UserPreferences;
  recovered_conversationId : option string
}.

(** [recoverData] in the browser *)
Definition recoverData (sessionState : option SessionState)
    (storage : Storage) : Recovered :=
  let recoveredPreferences :=
    match getItem storage "user_preferences" with
    | Some prefsData =>
        if prefsData =? "" then None else JSON_parse_preferences prefsData
    | None => None
    end in
  let conversationId := option_map session_conversationId sessionState in
  let conversationId :=
    if truthy conversationId then conversationId
    else
      let mostRecentKey := fst (mostRecent storage) in
      if mostRecentKey =? "" then conversationId
      else Some (JsString.replace chatKeyPrefix "" mostRecentKey) in
  {| recovered_messages :=
       if truthy conversationId
       then messagesOf storage (chatKeyPrefix ++ nullish conversationId "")
       else [];
     recovered_preferences := recoveredPreferences;
     recovered_conversationId := conversationId |}.

End Persistence.

(** ** Fixtures: wire texts and a parser for them *)

Module Fixtures.

Definition q : string := String "034" EmptyString.

(** A member with a string value: the key and the value, each in
    double quotes, with a colon between them *)
Definition member (k v : string) : string :=
  q ++ k ++ q ++ ":" ++ q ++ v ++ q.

(** The object with [type] chunk and [content] c *)
Definition chunkText (c : string) : string :=
  "{" ++ member "type" "chunk" ++ "," ++ member "content" c ++ "}".

(** The object with [type] complete and nothing else *)
Definition completeText : string := "{" ++ member "type" "complete" ++ "}".

(** The object with [type] complete_message and no [message] *)
Definition bareCompleteMessageText : string :=
  "{" ++ member "type" "complete_message" ++ "}".

(** The object with [type] complete_message whose [message] is an
    object with [content] x and nothing else *)
Definition contentOnlyText : string :=
  "{" ++ member "type" "complete_message" ++ ","
      ++ q ++ "message" ++ q ++ ":{" ++ member "content" "x" ++ "}}".

(** The object with [type] complete_message whose [message] is an object
    with nothing but [quick_reply_options], an array of one object with
    [label] Formal and [value] formal *)
Definition optionsOnlyText : string :=
  "{" ++ member "type" "complete_message" ++ ","
      ++ q ++ "message" ++ q ++ ":{" ++ q ++ "quick_reply_options" ++ q
      ++ ":[{" ++ member "label" "Formal" ++ "," ++ member "value" "formal"
      ++ "}]}}".

(** The object with [type] error and [error] boom *)
Definition errorText : string :=
  "{" ++ member "type" "error" ++ "," ++ member "error" "boom" ++ "}".

(** A record cut by a read boundary: the text of a chunk event up to
    the third letter of its [type] *)
Definition truncatedText : string := "{" ++ q ++ "type" ++ q ++ ":" ++ q ++ "chu".

Definition event (type : string) : StreamData :=
  {| data_type := type; data_content := None; data_message := None;
     data_preferences := None; data_error := None |}.

Definition chunkEvent (c : string) : StreamData :=
  {| data_type := "chunk"; data_content := Some c; data_message := None;
     data_preferences := None; data_error := None |}.

Definition contentOnlyEvent : StreamData :=
  {| data_type := "complete_message"; data_content := None;
     data_message :=
       Some {| payload_content := Some "x";
               payload_timestamp := None;
               payload_quick_reply_options := Undefined;
               payload_is_preference_question := None;
               payload_preference_type := None;
               payload_selection_type := None |};
     data_preferences := None; data_error := None |}.

Definition optionsOnlyEvent : StreamData :=
  {| data_type := "complete_message"; data_content := None;
     data_message :=
       Some {| payload_content := None;
               payload_timestamp := None;
               payload_quick_reply_options :=
                 Defined [{| label := "Formal"; value := "formal" |}];
               payload_is_preference_question := None;
               payload_preference_type := None;
               payload_selection_type := None |};
     data_preferences := None; data_error := None |}.

Definition errorEvent : StreamData :=
  {| data_type := "error"; data_content := None; data_message := None;
     data_preferences := None; data_error := Some "boom" |}.

(** [JSON.parse] on the texts above, on [null] and on [5].  Every other
    text is reported as a syntax error, which is what [JSON.parse] does
    on [truncatedText]; the fixture is used on these texts only. *)
Definition parse (text : string) : option Parsed :=
  if text =? chunkText "a" then Some (PObject (chunkEvent "a"))
  else if text =? chunkText "b" then Some (PObject (chunkEvent "b"))
  else if text =? completeText then Some (PObject (event "complete"))
  else if text =? bareCompleteMessageText
    then Some (PObject (event "complete_message"))
  else if text =? contentOnlyText then Some (PObject contentOnlyEvent)
  else if text =? optionsOnlyText then Some (PObject optionsOnlyEvent)
  else if text =? errorText then Some (PObject errorEvent)
  else if text =? "null" then Some PNull
  else if text =? "5" then Some PPrimitive
  else None.

Definition record (payload : string) : string := "data: " ++ payload.

Definition lf : string := String "010" EmptyString.

Definition online : NetworkStatus :=
  {| isOnline := true; isSlowConnection := false;
     connectionType := "wifi"; effectiveType := "4g" |}.

Definition offline : NetworkStatus :=
  {| isOnline := false; isSlowConnection := false;
     connectionType := "unknown"; effectiveType := "unknown" |}.

Definition noPreferences : UserPreferences :=
  {| tone := None; format := None; language := None;
     interaction_style := None; topics := None |}.

(** The n-th reading of the clock is the letter t followed by [n]. *)
Definition clockText (n : nat) : string := "t" ++ JsString.of_nat n.

Definition envWith (ns : NetworkStatus) (f : FetchResult) : Env :=
  {| networkStatus := ns; preferences := noPreferences;
     conversationId := "conv-1"; now := clockText; fetch := f |}.

Definition streamOf (texts : list string) (fin : ReadEnd) : FetchResult :=
  FetchResolves {| ok := true; status := 200; statusText := "OK";
                   body := Some {| reads := texts; ending := fin |} |}.

Definition networkError : Thrown :=
  {| instanceof_Error := true; instanceof_SyntaxError := false;
     name := "TypeError"; message := "network error" |}.

Definition earlier : ChatMessage :=
  plainMessage assistant "Welcome back" "t-earlier".

End Fixtures.

(** ** Vocabulary of the properties *)

(** The user message a call adds to the log at once: none for the
    conversation-opening sentinel. *)
Definition optimistic (content now : string) : list ChatMessage :=
  if content =? INIT_CONVERSATION then []
  else [plainMessage user (formatPreferenceMessage content) now].

(** The lines of a stream in the order the loops visit them: every read
    split at its line feeds. *)
Definition streamLines (texts : list string) : list string :=
  flat_map (JsString.split "010") texts.

(** A line that carries an event *)
Definition isRecord (line : string) : bool :=
  JsString.startsWith line "data: ".

(** The payloads of the records of a stream, in order *)
Definition payloads (texts : list string) : list string :=
  map (JsString.slice_from 6) (filter isRecord (streamLines texts)).

(** All contents in order, as one string *)
Definition joined (contents : list string) : string :=
  fold_right String.append "" contents.

Definition isPreferencesUpdate (e : Effect) : bool :=
  match e with OnPreferencesUpdate _ => true | _ => false end.

(** [s'] comes after [s] in one stream: the log has grown by assistant
    messages only, the trace by preference updates only, and the fields
    the decoding loop never writes are the same. *)
Record StreamFrame (s s' : Session) : Prop := {
  frame_messages :
    exists appended,
      messages s' = (messages s ++ appended)%list /\
      Forall (fun m => role m = assistant) appended;
  frame_error : error s' = error s;
  frame_isStreaming : isStreaming s' = isStreaming s;
  frame_ref : abortControllerRef s' = abortControllerRef s;
  frame_controllers : controllers s' = controllers s;
  frame_trace :
    exists effects,
      trace s' = (trace s ++ effects)%list /\
      forallb isPreferencesUpdate effects = true
}.

Section Vocabulary.

Variable JSON_parse : string -> option Parsed.

(** The payload parses to a chunk event whose content is [c]. *)
Definition chunkOf (payload c : string) : Prop :=
  exists data,
    JSON_parse payload = Some (PObject data) /\
    data_type data = "chunk" /\
    data_content data = Some c.

(** The exception that handling a line raises out of the loop, if any:
    reading [type] off [null], and the [throw] of the error event. *)
Definition recordThrows (line : string) : option Thrown :=
  if isRecord line then
    match JSON_parse (JsString.slice_from 6 line) with
    | Some PNull => Some nullTypeError
    | Some (PObject data) =>
        if data_type data =? "error"
        then Some (new_Error (nullish (data_error data) "Unknown error"))
        else None
    | _ => None
    end
  else None.

End Vocabulary.

(** ** Fixtures of the storage *)

Module StoreFixtures.

(** The JSON text of the chat of conversation conv-1 saved at time 1000
    with the one message [Fixtures.earlier] *)
Definition savedText : string :=
  "{" ++ Fixtures.member "conversationId" "conv-1" ++ ","
      ++ Fixtures.q ++ "messages" ++ Fixtures.q ++ ":[{"
      ++ Fixtures.member "role" "assistant" ++ ","
      ++ Fixtures.member "content" "Welcome back" ++ ","
      ++ Fixtures.member "timestamp" "t-earlier" ++ "}],"
      ++ Fixtures.q ++ "timestamp" ++ Fixtures.q ++ ":1000}".

(** The JSON text of the chat of conversation conv-0 saved at time 500
    with no message *)
Definition olderText : string :=
  "{" ++ Fixtures.member "conversationId" "conv-0" ++ ","
      ++ Fixtures.q ++ "messages" ++ Fixtures.q ++ ":[],"
      ++ Fixtures.q ++ "timestamp" ++ Fixtures.q ++ ":500}".

(** [JSON.stringify] on the one value the examples save *)
Definition stringify (data : StoredChat) : string := savedText.

(** [JSON.parse] on the two texts above and on [null]; any other text is
    reported as a syntax error, and the fixture is used on no other. *)
Definition parseItem (text : string) : option ParsedItem :=
  if text =? savedText
  then Some (ItemObject (Some 1000%Z) (Some [Fixtures.earlier]))
  else if text =? olderText then Some (ItemObject (Some 500%Z) (Some []))
  else if text =? "null" then Some ItemNull
  else None.

Definition parsePreferences (text : string) : option UserPreferences := None.

Definition session : SessionState :=
  {| session_conversationId := "conv-1"; lastActivity := 1000%Z |}.

End StoreFixtures.

(** ** Vocabulary of the further properties *)

(** How often a character occurs in a string *)
Fixpoint occurrences (c : ascii) (s : string) : nat :=
  match s with
  | EmptyString => 0
  | String d t => (if Ascii.eqb d c then 1 else 0) + occurrences c t
  end.

(** A text of ASCII characters only.  On such a text the case
    conversions and [trim] above are those of JavaScript, which, on other
    texts, also convert letters and strip white space outside the ASCII
    range. *)
Fixpoint isAscii (s : string) : bool :=
  match s with
  | EmptyString => true
  | String c t => Nat.ltb (nat_of_ascii c) 128 && isAscii t
  end.

(** The property names every object literal inherits from
    [Object.prototype].  Looking one of them up in a literal gives the
    inherited member, not [undefined]. *)
Definition inheritedKeys : list string :=
  [ "constructor"; "__proto__"; "hasOwnProperty"; "isPrototypeOf";
    "propertyIsEnumerable"; "toLocaleString"; "toString"; "valueOf";
    "__defineGetter__"; "__defineSetter__";
    "__lookupGetter__"; "__lookupSetter__" ].

(** A key on which the lookup in a literal sees the entries of the
    literal only, as [lookup] does *)
Definition isOwnKey (key : string) : bool :=
  negb (existsb (String.eqb key) inheritedKeys).

Definition isAbortEffect (e : Effect) : bool :=
  match e with Abort _ => true | _ => false end.

(** The abort a call starts with *)
Definition abortPart (s : Session) : list Effect :=
  match abortControllerRef s with
  | Some controller => [Abort controller]
  | None => []
  end.

(** The request the call makes *)
Definition requestOf (env : Env) (content : string) : ChatRequest :=
  {| request_message := content;
     request_conversation_id := conversationId env;
     request_preferences := preferences env |}.

(** The console line of the [catch] clause *)
Definition consolePart (err : Thrown) : list Effect :=
  if isAbort err then [] else [ConsoleError err].

Section FurtherVocabulary.

Variable JSON_parse : string -> option Parsed.
Variable env : Env.

(** The state in which the [try] block starts *)
Definition entered (content : string) (s : Session) : Session :=
  snd (addUserMessage env content (snd (resetForSend s))).

(** A line the loop does nothing with: not a record; or a record whose
    payload is a number, a string or a boolean; or an object whose type
    is none of the four events. *)
Definition passedOver (line : string) : Prop :=
  isRecord line = false \/
  JSON_parse (JsString.slice_from 6 line) = Some PPrimitive \/
  exists data,
    JSON_parse (JsString.slice_from 6 line) = Some (PObject data) /\
    data_type data <> "chunk" /\
    data_type data <> "complete_message" /\
    data_type data <> "complete" /\
    data_type data <> "error".

End FurtherVocabulary.

Section PersistenceVocabulary.

Variable JSON_parse_item : string -> option ParsedItem.

(** The timestamp of a stored chat, when its text parses to an object
    that has one *)
Definition timestampOf (storage : Storage) (key : string) : option Z :=
  match getItem storage key with
  | Some data =>
      if data =? "" then None
      else
        match JSON_parse_item data with
        | Some (ItemObject (Some timestamp) _) => Some timestamp
        | _ => None
        end
  | None => None
  end.

(** A stored text the cleanup removes: one that does not parse or is
    [null], or one with a timestamp that is not zero and lies before the
    cutoff. *)
Definition evicted (cutoff : Z) (data : string) : bool :=
  if data =? "" then false
  else
    match JSON_parse_item data with
    | None => true
    | Some ItemNull => true
    | Some (ItemObject (Some timestamp) _) =>
        negb (Z.eqb timestamp 0) && Z.ltb timestamp cutoff
    | _ => false
    end.

End PersistenceVocabulary.

(** The session has been idle for more than 24 hours. *)
Definition sessionExpired (now : Z) (sessionState : option SessionState)
    : bool :=
  match sessionState with
  | Some session => Z.ltb oneDay (now - lastActivity session)
  | None => false
  end.

(** * Properties *)

(** Unfolding steps shared by the proofs *)
Ltac open_sendMessage := unfold sendMessage; unfold bind at 1.
Ltac open_handleRecord := unfold handleRecord, try_catch, bind.
Ltac open_recordThrows := unfold recordThrows.
Ltac open_forLine := unfold forLine.
Ltac step_readLoop := cbn [readLoop streamLines flat_map].

(** ** What a stream can and cannot change *)

Lemma frame_refl (s : Session) : StreamFrame s s.
Proof.
  split; try reflexivity.
  - exists []. rewrite app_nil_r. split; [reflexivity | constructor].
  - exists []. rewrite app_nil_r. split; reflexivity.
Qed.

Lemma frame_trans (s1 s2 s3 : Session) :
  StreamFrame s1 s2 -> StreamFrame s2 s3 -> StreamFrame s1 s3.
Proof.
  intros [[a1 [M1 A1]] E1 I1 R1 C1 [t1 [T1 F1]]]
         [[a2 [M2 A2]] E2 I2 R2 C2 [t2 [T2 F2]]].
  split; try congruence.
  - exists (a1 ++ a2)%list. split.
    + rewrite M2, M1, app_assoc. reflexivity.
    + apply Forall_app. split; assumption.
  - exists (t1 ++ t2)%list. split.
    + rewrite T2, T1, app_assoc. reflexivity.
    + rewrite forallb_app, F1, F2. reflexivity.
Qed.

Lemma frame_streamingMessage (v : option string) (s : Session) :
  StreamFrame s (with_streamingMessage v s).
Proof.
  split; try reflexivity; exists []; cbn; rewrite app_nil_r;
    (split; [reflexivity | try constructor; reflexivity]).
Qed.

Lemma frame_tick (s : Session) : StreamFrame s (tick s).
Proof.
  split; try reflexivity; exists []; cbn; rewrite app_nil_r;
    (split; [reflexivity | try constructor; reflexivity]).
Qed.

Lemma frame_append (m : ChatMessage) (s : Session) :
  role m = assistant ->
  StreamFrame s (with_messages (fun prev => (prev ++ [m])%list) s).
Proof.
  intros Hrole. split; try reflexivity.
  - exists [m]. split; [reflexivity | constructor; [assumption | constructor]].
  - exists []. cbn. rewrite app_nil_r. split; reflexivity.
Qed.

Lemma frame_updatePreferences (prefs : option UserPreferences) (s : Session) :
  StreamFrame s (snd (updatePreferences prefs s)).
Proof.
  destruct prefs as [p |]; cbn.
  - split; try reflexivity.
    + exists []. cbn. rewrite app_nil_r. split; [reflexivity | constructor].
    + exists [OnPreferencesUpdate p]. split; reflexivity.
  - apply frame_refl.
Qed.

Lemma updatePreferences_ok (prefs : option UserPreferences) (s : Session) :
  fst (updatePreferences prefs s) = Ok tt.
Proof. destruct prefs; reflexivity. Qed.

Create HintDb frame.
#[local] Hint Resolve frame_refl frame_streamingMessage frame_tick
  frame_append frame_updatePreferences : frame.

Section StreamProperties.

Variable JSON_parse : string -> option Parsed.
Variable env : Env.

Local Abbreviation handleRecord := (handleRecord JSON_parse env).
Local Abbreviation forLines := (forLines JSON_parse env).
Local Abbreviation readLoop := (readLoop JSON_parse env).

Lemma handleRecord_frame (line acc : string) (s : Session) :
  StreamFrame s (snd (handleRecord line acc s)).
Proof.
  unfold handleRecord, try_catch, bind.
  destruct (JSON_parse (JsString.slice_from 6 line)) as [[| | data] |];
    cbn; auto with frame.
  destruct (data_type data =? "chunk"); cbn; auto with frame.
  destruct (data_type data =? "complete_message").
  - destruct (optional_chain (data_message data) payload_timestamp);
      cbn -[updatePreferences].
    + match goal with
      | |- context [updatePreferences ?p ?st] =>
          pose proof (frame_updatePreferences p st) as Hu;
          pose proof (updatePreferences_ok p st) as Hok;
          destruct (updatePreferences p st) as [r st']; cbn in Hu, Hok;
          subst r; cbn
      end.
      eapply frame_trans; [| exact Hu].
      eapply frame_trans; [| apply frame_streamingMessage].
      apply frame_append. reflexivity.
    + match goal with
      | |- context [updatePreferences ?p ?st] =>
          pose proof (frame_updatePreferences p st) as Hu;
          pose proof (updatePreferences_ok p st) as Hok;
          destruct (updatePreferences p st) as [r st']; cbn in Hu, Hok;
          subst r; cbn
      end.
      eapply frame_trans; [| exact Hu].
      eapply frame_trans; [| apply frame_streamingMessage].
      eapply frame_trans; [apply frame_tick |].
      apply frame_append. reflexivity.
  - destruct (data_type data =? "complete"); cbn -[updatePreferences].
    + match goal with
      | |- context [updatePreferences ?p ?st] =>
          pose proof (frame_updatePreferences p st) as Hu;
          pose proof (updatePreferences_ok p st) as Hok;
          destruct (updatePreferences p st) as [r st']; cbn in Hu, Hok;
          subst r; cbn
      end.
      eapply frame_trans; [| exact Hu].
      eapply frame_trans; [| apply frame_streamingMessage].
      eapply frame_trans; [apply frame_tick |].
      apply frame_append. reflexivity.
    + destruct (data_type data =? "error"); cbn; auto with frame.
Qed.

Lemma forLines_frame (lines : list string) :
  forall (acc : string) (s : Session),
    StreamFrame s (snd (forLines lines acc s)).
Proof.
  induction lines as [| line rest IH]; intros acc s; cbn.
  - apply frame_refl.
  - unfold bind, forLine.
    destruct (JsString.startsWith line "data: ").
    + pose proof (handleRecord_frame line acc s) as H.
      destruct (handleRecord line acc s) as [[acc' | err] s1]; cbn in H.
      * eapply frame_trans; [exact H | apply IH].
      * exact H.
    + cbn. apply IH.
Qed.

Lemma readLoop_frame (pending : list string) (fin : ReadEnd) :
  forall (acc : string) (s : Session),
    StreamFrame s (snd (readLoop pending fin acc s)).
Proof.
  induction pending as [| chunk rest IH]; intros acc s; cbn.
  - destruct fin; cbn; apply frame_refl.
  - unfold bind.
    pose proof (forLines_frame (JsString.split "010" chunk) acc s) as H.
    destruct (forLines (JsString.split "010" chunk) acc s)
      as [[acc' | err] s1]; cbn in H.
    + eapply frame_trans; [exact H | apply IH].
    + exact H.
Qed.

End StreamProperties.

(** ** The shape of one call *)

Section CallShape.

Variable JSON_parse : string -> option Parsed.
Variable env : Env.

Local Abbreviation sendMessage := (sendMessage JSON_parse env).
Local Abbreviation request := (request JSON_parse env).

Lemma resetForSend_run (s : Session) :
  resetForSend s =
  (Ok tt,
   with_streamingMessage (Some "")
     (with_error None
        (with_isStreaming true
           match abortControllerRef s with
           | Some controller => with_effect (Abort controller) s
           | None => s
           end))).
Proof.
  unfold resetForSend, bind, gets. destruct (abortControllerRef s); reflexivity.
Qed.

Lemma addUserMessage_run (content : string) (s : Session) :
  fst (addUserMessage env content s) = Ok tt /\
  messages (snd (addUserMessage env content s))
  = (messages s ++ optimistic content (now env (clock s)))%list /\
  error (snd (addUserMessage env content s)) = error s /\
  trace (snd (addUserMessage env content s)) = trace s.
Proof.
  unfold addUserMessage, optimistic.
  destruct (content =? INIT_CONVERSATION); cbn.
  - rewrite app_nil_r. repeat split.
  - repeat split.
Qed.

(** The [try] block leaves the error field alone and only ever adds
    assistant messages. *)
Lemma request_log (content : string) (s : Session) :
  (exists appended,
      messages (snd (request content s)) = (messages s ++ appended)%list /\
      Forall (fun m => role m = assistant) appended) /\
  error (snd (request content s)) = error s.
Proof.
  assert (Hnil : exists appended : list ChatMessage,
             messages s = (messages s ++ appended)%list /\
             Forall (fun m => role m = assistant) appended).
  { exists []. rewrite app_nil_r. split; [reflexivity | constructor]. }
  unfold request, bind.
  destruct (isOnline (networkStatus env)); cbn; [| split; [exact Hnil | reflexivity]].
  destruct (fetch env) as [err | response]; cbn; [split; [exact Hnil | reflexivity] |].
  destruct (ok response); cbn; [| split; [exact Hnil | reflexivity]].
  destruct (body response) as [reader |]; cbn; [| split; [exact Hnil | reflexivity]].
  match goal with
  | |- context [readLoop _ _ ?p ?f ?a ?st] =>
      destruct (readLoop_frame JSON_parse env p f a st) as [Hm He _ _ _ _]
  end.
  split; [exact Hm | exact He].
Qed.

Lemma sendMessage_unfold (content : string) (s : Session) :
  sendMessage content s =
  let s2 := snd (addUserMessage env content (snd (resetForSend s))) in
  match request content s2 with
  | (Ok _, s3) => (Ok Completed, cleanup s3)
  | (Throw err, s3) => (fst (recover err s3), cleanup (snd (recover err s3)))
  end.
Proof.
  open_sendMessage. rewrite resetForSend_run. cbn [snd].
  unfold bind at 1.
  destruct (addUserMessage_run content
              (with_streamingMessage (Some "")
                 (with_error None
                    (with_isStreaming true
                       match abortControllerRef s with
                       | Some controller => with_effect (Abort controller) s
                       | None => s
                       end)))) as [Hok _].
  destruct (addUserMessage env content _) as [r s2]. cbn in Hok. subst r.
  cbn [snd]. unfold try_finally, try_catch, bind.
  destruct (request content s2) as [[u | err] s3]; cbn.
  - reflexivity.
  - destruct (recover err s3); reflexivity.
Qed.

Lemma recover_run (err : Thrown) (s : Session) :
  recover err s =
  if isAbort err then (Ok Cancelled, with_streamingMessage None s)
  else
    let errorMessage :=
      if instanceof_Error err then message err else "Failed to stream message" in
    (Ok (Failed errorMessage),
     with_streamingMessage None
       (with_messages (@removelast ChatMessage)
          (with_error (Some errorMessage)
             (with_effect (ConsoleError err) s)))).
Proof. unfold recover. destruct (isAbort err); reflexivity. Qed.

(** How each outcome leaves the log, the buffer and the error field. *)
Lemma sendMessage_log (content : string) (s : Session) :
  exists appended,
    Forall (fun m => role m = assistant) appended /\
    let grown :=
      (messages s ++ optimistic content (now env (clock s)) ++ appended)%list in
    let s' := snd (sendMessage content s) in
    match fst (sendMessage content s) with
    | Ok Completed => messages s' = grown /\ error s' = None
    | Ok Cancelled =>
        messages s' = grown /\ error s' = None /\ streamingMessage s' = None
    | Ok (Failed errorMessage) =>
        messages s' = removelast grown /\ error s' = Some errorMessage /\
        streamingMessage s' = None
    | Throw _ => False
    end.
Proof.
  rewrite sendMessage_unfold. cbn zeta.
  rewrite resetForSend_run. cbn [snd].
  match goal with
  | |- context [addUserMessage env content ?st] =>
      destruct (addUserMessage_run content st) as (_ & Hm & He & _);
      set (s2 := snd (addUserMessage env content st)) in *
  end.
  destruct (request_log content s2) as [[appended [Hlog Hroles]] Herr].
  exists appended. split; [exact Hroles |].
  assert (Hgrown : messages (snd (request content s2))
                   = (messages s ++ optimistic content (now env (clock s))
                      ++ appended)%list).
  { rewrite Hlog, Hm. destruct (abortControllerRef s); cbn;
      rewrite <- app_assoc; reflexivity. }
  assert (Hnone : error (snd (request content s2)) = None).
  { rewrite Herr, He. reflexivity. }
  destruct (request content s2) as [[u | err] s3]; cbn [fst snd] in *.
  - split; assumption.
  - rewrite recover_run. destruct (isAbort err); cbn.
    + repeat split; assumption.
    + rewrite Hgrown. repeat split.
Qed.

(** The log and the error field when the [try] block starts *)
Lemma entered_log (content : string) (s : Session) :
  messages (entered env content s)
  = (messages s ++ optimistic content (now env (clock s)))%list /\
  error (entered env content s) = None.
Proof.
  unfold entered. rewrite resetForSend_run. cbn [snd].
  match goal with
  | |- context [addUserMessage env content ?st] =>
      destruct (addUserMessage_run content st) as (_ & Hm & He & _);
      rewrite Hm, He
  end.
  destruct (abortControllerRef s); split; reflexivity.
Qed.

(** The try block up to its first [await] is the try block of a request
    that is rejected. *)
Lemma request_issue (content : string) (err : Thrown) (s : Session) :
  fetch env = FetchRejects err ->
  request content s = (issue env content;; throw err) s.
Proof.
  intros Hfetch. unfold request, issue, bind.
  destruct (isOnline (networkStatus env)); cbn [negb]; [| reflexivity].
  rewrite Hfetch. reflexivity.
Qed.

(** A call up to its first [await]: what it has done by then to the log,
    the error field and the trace. *)
Lemma begin_run (content : string) (s : Session) :
  let grown := (messages s ++ optimistic content (now env (clock s)))%list in
  let r := begin JSON_parse env content s in
  if isOnline (networkStatus env) then
    fst r = Ok None /\
    messages (snd r) = grown /\
    error (snd r) = None /\
    trace (snd r)
    = (trace s ++ abortPart s
       ++ [SetTimeout (getRecommendedTimeout (networkStatus env) api);
           Fetch (requestOf env content)])%list
  else
    fst r = Ok (Some (Failed offlineMessage)) /\
    messages (snd r) = removelast grown /\
    error (snd r) = Some offlineMessage /\
    trace (snd r)
    = (trace s ++ abortPart s ++ [ConsoleError (new_Error offlineMessage)])%list.
Proof.
  cbn zeta.
  assert (Hentered :
            messages (entered env content s)
            = (messages s ++ optimistic content (now env (clock s)))%list /\
            error (entered env content s) = None /\
            trace (entered env content s) = (trace s ++ abortPart s)%list).
  { unfold entered. rewrite resetForSend_run. cbn [snd].
    match goal with
    | |- context [addUserMessage env content ?st] =>
        destruct (addUserMessage_run content st) as (_ & Hm & He & Ht);
        rewrite Hm, He, Ht
    end.
    unfold abortPart.
    destruct (abortControllerRef s); cbn; rewrite ?app_nil_r;
      repeat split; reflexivity. }
  destruct Hentered as (Hm & He & Ht).
  destruct (isOnline (networkStatus env)) eqn:Hon.
  - assert (Hrun :
              begin JSON_parse env content s
              = (Ok None,
                 with_effect (Fetch (requestOf env content))
                   (with_effect
                      (SetTimeout (getRecommendedTimeout (networkStatus env) api))
                      (install_controller (entered env content s))))).
    { unfold begin, entered. rewrite Hon. unfold bind at 1.
      rewrite resetForSend_run. cbn [snd]. unfold bind at 1.
      match goal with
      | |- context [addUserMessage env content ?st] =>
          destruct (addUserMessage_run content st) as (Hok & _);
          destruct (addUserMessage env content st) as [r0 s2]
      end.
      cbn [fst snd] in Hok. subst r0.
      unfold issue, bind. rewrite Hon. reflexivity. }
    rewrite Hrun. cbn. rewrite Hm, He, Ht, <- !app_assoc.
    repeat split; reflexivity.
  - assert (Hrun :
              begin JSON_parse env content s
              = (Ok (Some (Failed offlineMessage)),
                 cleanup
                   (with_streamingMessage None
                      (with_messages (@removelast ChatMessage)
                         (with_error (Some offlineMessage)
                            (with_effect (ConsoleError (new_Error offlineMessage))
                               (entered env content s))))))).
    { unfold begin. rewrite Hon. unfold bind at 1.
      rewrite sendMessage_unfold. cbn zeta. fold (entered env content s).
      unfold request. rewrite Hon. cbn [negb throw fst snd].
      rewrite recover_run. reflexivity. }
    rewrite Hrun. cbn. rewrite Hm, Ht, <- !app_assoc.
    repeat split; reflexivity.
Qed.

(** A rejection with an abort comes from the request or from a read:
    the status is online and this call's controller is still installed. *)
Lemma request_abort (content : string) (err : Thrown) (s s3 : Session) :
  request content s = (Throw err, s3) ->
  isAbort err = true ->
  isOnline (networkStatus env) = true /\
  abortControllerRef s3 = Some (controllers s).
Proof.
  unfold request, bind.
  destruct (isOnline (networkStatus env)); cbn [negb].
  2:{ intros H. injection H as <- <-. discriminate. }
  cbn [modify emit].
  destruct (fetch env) as [e | response]; cbn [throw ret emit modify].
  { intros H. injection H as <- <-. intros _. split; reflexivity. }
  destruct (ok response); cbn [negb throw].
  2:{ intros H. injection H as <- <-. discriminate. }
  destruct (body response) as [reader |]; cbn [throw].
  2:{ intros H. injection H as <- <-. discriminate. }
  match goal with
  | |- context [readLoop JSON_parse env ?p ?f ?a ?st] =>
      destruct (readLoop_frame JSON_parse env p f a st) as [_ _ _ Hr _ _];
      destruct (readLoop JSON_parse env p f a st) as [r s']
  end.
  intros H. injection H as -> ->. intros _.
  split; [reflexivity |]. cbn [snd] in Hr. rewrite Hr. reflexivity.
Qed.

End CallShape.

(** ** A call cancelled by the next one *)

Section Preempted.

Variable JSON_parse : string -> option Parsed.
Variable env : Env.
Variable next_env : Env.

Local Abbreviation request := (request JSON_parse env).

Lemma begin_ok (content : string) (s : Session) :
  exists waiting, fst (begin JSON_parse next_env content s) = Ok waiting.
Proof.
  pose proof (begin_run JSON_parse next_env content s) as H. cbn zeta in H.
  destruct (isOnline (networkStatus next_env));
    destruct H as [H _]; eexists; exact H.
Qed.

Lemma preemptedSend_unfold (content next : string) (s : Session) :
  preemptedSend JSON_parse env next_env content next s =
  match request content (entered env content s) with
  | (Ok _, s3) => (Ok Completed, cleanup s3)
  | (Throw err, s3) =>
      let s4 :=
        if isAbort err then snd (begin JSON_parse next_env next s3) else s3 in
      (fst (recover err s4), cleanup (snd (recover err s4)))
  end.
Proof.
  unfold preemptedSend, entered. unfold bind at 1.
  rewrite resetForSend_run. cbn [snd].
  unfold bind at 1.
  match goal with
  | |- context [addUserMessage env content ?st] =>
      destruct (addUserMessage_run env content st) as [Hok _];
      destruct (addUserMessage env content st) as [r s2]
  end.
  cbn in Hok. subst r. cbn [snd].
  unfold try_finally, try_catch. unfold bind at 1.
  destruct (request content s2) as [[u | err] s3]; cbn [ret].
  - reflexivity.
  - cbn zeta. unfold bind at 1. destruct (isAbort err).
    + unfold bind at 1.
      destruct (begin_ok next s3) as [waiting Hw].
      destruct (begin JSON_parse next_env next s3) as [r s4].
      cbn in Hw. subst r. cbn [ret snd].
      destruct (recover err s4); reflexivity.
    + cbn [ret]. destruct (recover err s3); reflexivity.
Qed.

End Preempted.

(** ** The recommended timeout *)

(** C8.  Offline, the recommended timeout is 0.  Online, whatever the
    effective connection type and the slow-connection flag are, it is the
    base timeout of the operation times a factor between 1 and 3, so it
    lies between the base timeout and three times the base timeout; the
    base timeout of the [api] operation is 30000 ms. *)
Theorem recommended_timeout_scaled (ns : NetworkStatus) (operation : Operation) :
  baseTimeouts api = 30000%Q /\
  if isOnline ns then
    (exists factor : Q,
        (1 <= factor)%Q /\ (factor <= 3)%Q /\
        (getRecommendedTimeout ns operation == baseTimeouts operation * factor)%Q)
    /\ (baseTimeouts operation <= getRecommendedTimeout ns operation)%Q
    /\ (getRecommendedTimeout ns operation <= 3 * baseTimeouts operation)%Q
  else getRecommendedTimeout ns operation = 0%Q.
Proof.
  split; [reflexivity |].
  unfold getRecommendedTimeout.
  destruct (isOnline ns); cbn [negb]; [| reflexivity].
  assert (Hbase : (0 < baseTimeouts operation)%Q)
    by (destruct operation; reflexivity).
  set (base := baseTimeouts operation) in *.
  destruct (isSlowConnection ns);
    [| destruct (effectiveType ns =? "slow-2g");
       [| destruct (effectiveType ns =? "2g");
          [| destruct (effectiveType ns =? "3g")]]].
  - split; [exists 2%Q; repeat split; try reflexivity; lra | split; lra].
  - split; [exists 3%Q; repeat split; try reflexivity; lra | split; lra].
  - split; [exists 2%Q; repeat split; try reflexivity; lra | split; lra].
  - split; [exists (3 # 2)%Q; repeat split; try reflexivity; lra | split; lra].
  - split; [exists 1%Q; repeat split; try lra | split; lra].
Qed.

(** ** The formatter on a topics selection *)

Example fmt_tone :
  formatPreferenceMessage "PREFERENCE_SELECTION:tone:casual"
  = "Preferred Tone of Voice: Casual".
Proof. reflexivity. Qed.

Example fmt_plain : formatPreferenceMessage "hello: world" = "hello: world".
Proof. reflexivity. Qed.

(** C3.  The formatter on the topics selection of the quick-reply pills:
    the table has no entry for the type [topics] (its entry is keyed
    [news_topics]), so the type is title-cased instead of being labelled
    News Topic Interest; the values are title-cased and joined by a comma
    and a space. *)
Theorem format_topics_selection :
  formatPreferenceMessage "PREFERENCE_SELECTION:topics:technology,sports"
  = "Topics: Technology, Sports" /\
  formatPreferenceMessage "PREFERENCE_SELECTION:topics:technology,sports"
  <> "News Topic Interest: Technology, Sports" /\
  lookup formatMap "topics" = None /\
  lookup formatMap "news_topics" = Some "News Topic Interest" /\
  formatPreferenceMessage "PREFERENCE_SELECTION:news_topics:technology,sports"
  = "News Topic Interest: Technology, Sports".
Proof.
  repeat split; try reflexivity.
  intros H. vm_compute in H. discriminate H.
Qed.

(** ** Properties of every call *)

Section EveryCall.

Variable JSON_parse : string -> option Parsed.
Variable env : Env.

Local Abbreviation sendMessage := (sendMessage JSON_parse env).

(** C10.  Whatever the session was before, a call opens by clearing the
    error field and setting the streaming buffer to the empty string (in
    the same opening statements it aborts the controller of an earlier
    call, if there is one, and raises [isStreaming]); the log is not yet
    touched and no request is made, and the rest of the call runs from
    that state.  So an error from an earlier send never survives: when the
    call is over the error field is null unless this very call failed, and
    then it holds this call's error message. *)
Theorem send_clears_previous_error (content : string) (s : Session) :
  let started := snd (resetForSend s) in
  error started = None /\
  streamingMessage started = Some "" /\
  messages started = messages s /\
  trace started
  = (trace s
     ++ match abortControllerRef s with
        | Some controller => [Abort controller]
        | None => []
        end)%list /\
  filter isFetch (trace started) = filter isFetch (trace s) /\
  sendMessage content s
  = (addUserMessage env content;;
     try_finally
       (try_catch (request JSON_parse env content;; ret Completed) recover)
       cleanup) started /\
  error (snd (sendMessage content s))
  = match fst (sendMessage content s) with
    | Ok (Failed errorMessage) => Some errorMessage
    | _ => None
    end.
Proof.
  cbn zeta. rewrite resetForSend_run. cbn [snd].
  split; [reflexivity |]. split; [reflexivity |].
  split; [destruct (abortControllerRef s); reflexivity |].
  split; [destruct (abortControllerRef s); cbn; rewrite ?app_nil_r; reflexivity |].
  split; [| split].
  - destruct (abortControllerRef s); cbn; [| reflexivity].
    rewrite filter_app. cbn. rewrite app_nil_r. reflexivity.
  - open_sendMessage. rewrite resetForSend_run.
    reflexivity.
  - destruct (sendMessage_log JSON_parse env content s) as [appended [_ H]].
    cbn zeta in H.
    destruct (fst (sendMessage content s)) as [[| | errorMessage] | err];
      [apply H | apply H | apply H | contradiction].
Qed.

(** C6.  The cleanup step resets [isStreaming] whatever the guarded block
    did, a throw that nothing caught included; so when a call is over,
    completed, cancelled or failed, [isStreaming] is false (and the call
    itself never throws). *)
Theorem isStreaming_reset_on_every_exit (content : string) (s : Session) :
  (forall (guarded : M Outcome) (s0 : Session),
      isStreaming (snd (try_finally guarded cleanup s0)) = false) /\
  isStreaming (snd (sendMessage content s)) = false /\
  abortControllerRef (snd (sendMessage content s)) = None /\
  exists outcome, fst (sendMessage content s) = Ok outcome.
Proof.
  split.
  { intros guarded s0. unfold try_finally.
    destruct (guarded s0) as [r s1]. reflexivity. }
  rewrite sendMessage_unfold. cbn zeta.
  destruct (request JSON_parse env content _) as [[u | err] s3].
  - repeat split. exists Completed. reflexivity.
  - rewrite recover_run. destruct (isAbort err); cbn.
    + repeat split. exists Cancelled. reflexivity.
    + repeat split. eexists. reflexivity.
Qed.

(** C4.  A call made while the connectivity signal says offline fails
    before any request: the trace gains no fetch (only the abort of an
    earlier controller, if there was one, and the console line), and the
    error field holds the fixed offline message. *)
Theorem offline_send_fails_without_fetch (content : string) (s : Session) :
  isOnline (networkStatus env) = false ->
  fst (sendMessage content s) = Ok (Failed offlineMessage) /\
  error (snd (sendMessage content s))
  = Some "You're offline. Please check your connection and try again." /\
  trace (snd (sendMessage content s))
  = (trace s
     ++ match abortControllerRef s with
        | Some controller => [Abort controller]
        | None => []
        end
     ++ [ConsoleError (new_Error offlineMessage)])%list /\
  filter isFetch (trace (snd (sendMessage content s)))
  = filter isFetch (trace s).
Proof.
  intros Hoff.
  assert (Htrace :
    fst (sendMessage content s) = Ok (Failed offlineMessage) /\
    error (snd (sendMessage content s)) = Some offlineMessage /\
    trace (snd (sendMessage content s))
    = (trace s
       ++ match abortControllerRef s with
          | Some controller => [Abort controller]
          | None => []
          end
       ++ [ConsoleError (new_Error offlineMessage)])%list).
  { rewrite sendMessage_unfold. cbn zeta. rewrite resetForSend_run. cbn [snd].
    unfold request. rewrite Hoff. cbn [negb throw fst snd].
    rewrite recover_run. cbn.
    match goal with
    | |- context [addUserMessage env content ?st] =>
        destruct (addUserMessage_run env content st) as (_ & _ & _ & Ht);
        rewrite Ht
    end.
    repeat split.
    destruct (abortControllerRef s); cbn.
    - rewrite <- app_assoc. reflexivity.
    - reflexivity. }
  destruct Htrace as (Hout & Herr & Ht).
  repeat split; try assumption.
  rewrite Ht, !filter_app. destruct (abortControllerRef s); cbn;
    rewrite ?app_nil_r; reflexivity.
Qed.

End EveryCall.

(** ** Failed and cancelled calls *)

Section FailedAndCancelled.

Variable JSON_parse : string -> option Parsed.
Variable env : Env.

(** The environment of the call that preempts *)
Variable next_env : Env.

Local Abbreviation sendMessage := (sendMessage JSON_parse env).

(** After a failed call the log is the grown log without its last entry,
    whichever message that is. *)
Lemma failed_send_length (content errorMessage : string) (s : Session) :
  fst (sendMessage content s) = Ok (Failed errorMessage) ->
  exists appended,
    Forall (fun m => role m = assistant) appended /\
    length (messages (snd (sendMessage content s)))
    = length (messages s)
      + length (optimistic content (now env (clock s)))
      + length appended - 1.
Proof.
  intros Hout.
  destruct (sendMessage_log JSON_parse env content s) as [appended [Hroles H]].
  cbn zeta in H. rewrite Hout in H. destruct H as (Hm & _ & _).
  exists appended. split; [exact Hroles |].
  rewrite Hm.
  set (grown := (messages s ++ _ ++ appended)%list).
  assert (Hlen : length grown
                 = length (messages s)
                   + length (optimistic content (now env (clock s)))
                   + length appended).
  { unfold grown. rewrite !length_app. lia. }
  rewrite <- Hlen. clearbody grown. clear.
  induction grown as [| m [| m' rest] IH]; cbn in *; try reflexivity.
  rewrite IH. lia.
Qed.


(** C2 (as amended).  A cancelled call resets the streaming buffer to
    null, surfaces no error of its own and rolls nothing back.  When the
    abort reaches the call, the log is the log before the call followed
    by the user message added at send time (none for the opening
    sentinel) and by the assistant messages completed so far.  Aborted by
    its timer, the call ends with that very log and with no error.
    Aborted by the next call, it ends with what the next call has done
    meanwhile on top: the next call has aborted this call's controller
    and, online, added its own user message and made its request (the
    error field is null); offline, the next call has failed already, so
    the last entry is rolled back and the error field holds the offline
    message of the next call. *)
Theorem cancelled_send_keeps_log_and_no_error (content next : string)
    (s : Session) :
  let atAbort := snd (request JSON_parse env content (entered env content s)) in
  let alone := sendMessage content s in
  let both := preemptedSend JSON_parse env next_env content next s in
  fst alone = Ok Cancelled ->
  (exists appended,
      Forall (fun m => role m = assistant) appended /\
      messages atAbort
      = (messages s ++ optimistic content (now env (clock s)) ++ appended)%list) /\
  (messages (snd alone) = messages atAbort /\
   streamingMessage (snd alone) = None /\
   error (snd alone) = None) /\
  fst both = Ok Cancelled /\
  streamingMessage (snd both) = None /\
  (exists controller,
      abortControllerRef atAbort = Some controller /\
      trace (snd both)
      = (trace atAbort
         ++ Abort controller
            :: if isOnline (networkStatus next_env)
               then [SetTimeout
                       (getRecommendedTimeout (networkStatus next_env) api);
                     Fetch (requestOf next_env next)]
               else [ConsoleError (new_Error offlineMessage)])%list) /\
  let grown :=
    (messages atAbort
     ++ optimistic next (now next_env (clock atAbort)))%list in
  if isOnline (networkStatus next_env)
  then messages (snd both) = grown /\ error (snd both) = None
  else messages (snd both) = removelast grown /\
       error (snd both) = Some offlineMessage.
Proof.
  cbn zeta. intros Hout.
  destruct (entered_log env content s) as [Hm He].
  destruct (request_log JSON_parse env content (entered env content s))
    as [[appended [Hlog Hroles]] Herr].
  pose proof (sendMessage_unfold JSON_parse env content s) as Halone.
  pose proof (preemptedSend_unfold JSON_parse env next_env content next s)
    as Hboth.
  cbn zeta in Halone, Hboth. fold (entered env content s) in Halone.
  destruct (request JSON_parse env content (entered env content s))
    as [[u | err] s3] eqn:Hreq; cbn [fst snd] in *.
  { rewrite Halone in Hout. discriminate. }
  rewrite recover_run in Halone.
  destruct (isAbort err) eqn:Habort.
  2:{ rewrite Halone in Hout. discriminate. }
  destruct (request_abort JSON_parse env content (entered env content s) Hreq Habort)
    as [_ Href].
  rewrite Halone, Hboth, recover_run, Habort. cbn [fst snd].
  split.
  { exists appended. split; [exact Hroles |].
    rewrite Hlog, Hm, <- app_assoc. reflexivity. }
  split.
  { cbn. rewrite Herr, He. repeat split. }
  split; [reflexivity |]. split; [reflexivity |].
  pose proof (begin_run JSON_parse next_env next s3) as Hbegin.
  cbn zeta in Hbegin. unfold abortPart in Hbegin. rewrite Href in Hbegin.
  split.
  - exists (controllers (entered env content s)). split; [exact Href |].
    cbn. destruct (isOnline (networkStatus next_env));
      destruct Hbegin as (_ & _ & _ & Ht); rewrite Ht; reflexivity.
  - cbn. destruct (isOnline (networkStatus next_env));
      destruct Hbegin as (_ & Hmb & Heb & _); split; assumption.
Qed.

End FailedAndCancelled.

(** C2, witness: a user message whose stream has completed one assistant
    message when the abort arrives.  Aborted by the timer, the call ends
    with the user message and the assistant message in the log; aborted
    by the next call, with the user message of the next call after
    them. *)
Lemma cancelled_send_keeps_log_and_no_error_witness :
  let env :=
    Fixtures.envWith Fixtures.online
      (Fixtures.streamOf [Fixtures.record Fixtures.completeText ++ Fixtures.lf]
         (ReadRejects abortError)) in
  let next_env :=
    Fixtures.envWith Fixtures.online (Fixtures.streamOf [] Done) in
  let alone :=
    sendMessage Fixtures.parse env "hi" (initialSession [Fixtures.earlier]) in
  let both :=
    preemptedSend Fixtures.parse env next_env "hi" "again"
      (initialSession [Fixtures.earlier]) in
  fst alone = Ok Cancelled /\
  messages (snd alone)
  = [Fixtures.earlier; plainMessage user "hi" "t0";
     plainMessage assistant "" "t1"] /\
  error (snd alone) = None /\
  fst both = Ok Cancelled /\
  messages (snd both)
  = [Fixtures.earlier; plainMessage user "hi" "t0";
     plainMessage assistant "" "t1"; plainMessage user "again" "t2"] /\
  error (snd both) = None /\
  streamingMessage (snd both) = None.
Proof.
  cbn zeta.
  destruct (@cancelled_send_keeps_log_and_no_error Fixtures.parse
              (Fixtures.envWith Fixtures.online
                 (Fixtures.streamOf
                    [Fixtures.record Fixtures.completeText ++ Fixtures.lf]
                    (ReadRejects abortError)))
              (Fixtures.envWith Fixtures.online (Fixtures.streamOf [] Done))
              "hi" "again" (initialSession [Fixtures.earlier]) eq_refl)
    as (_ & (Hlog & _ & Herr) & Hout & Hbuffer & _ & Hnext).
  cbn zeta in Hnext. destruct Hnext as [Hlog2 Herr2].
  split; [reflexivity |].
  split; [rewrite Hlog; reflexivity |].
  split; [exact Herr |].
  split; [exact Hout |].
  split; [rewrite Hlog2; reflexivity |].
  split; [exact Herr2 | exact Hbuffer].
Defined.

(** C2, counterexample: a user message cancelled while the request is
    pending.  The call ends cancelled and the log is not what it was: the
    user message added at send time is still there. *)
Lemma cancelled_send_changes_log :
  fst (sendMessage Fixtures.parse
         (Fixtures.envWith Fixtures.online (FetchRejects abortError))
         "hi" (initialSession []))
  = Ok Cancelled /\
  messages (snd (sendMessage Fixtures.parse
                   (Fixtures.envWith Fixtures.online (FetchRejects abortError))
                   "hi" (initialSession [])))
  = [plainMessage user "hi" "t0"] /\
  messages (snd (sendMessage Fixtures.parse
                   (Fixtures.envWith Fixtures.online (FetchRejects abortError))
                   "hi" (initialSession [])))
  <> messages (initialSession []).
Proof.
  split; [reflexivity |]. split; [reflexivity |].
  intros H. vm_compute in H. discriminate H.
Qed.

(** C1.  The rollback removes the last entry of the log, not the user
    message of the call.  Three failed calls whose log has not the length
    it had: the opening sentinel sent offline over one earlier message
    (nothing was added, the earlier message is removed); a user message
    whose stream completes an assistant message and then breaks; and a
    user message whose stream completes an assistant message and then
    carries an error event (in both, the assistant message is removed and
    the user message stays). *)
Theorem rollback_removes_last_entry :
  (let r := sendMessage Fixtures.parse
              (Fixtures.envWith Fixtures.offline
                 (FetchRejects Fixtures.networkError))
              INIT_CONVERSATION (initialSession [Fixtures.earlier]) in
   fst r = Ok (Failed offlineMessage) /\
   messages (snd r) = [] /\
   length (messages (snd r)) <> length [Fixtures.earlier]) /\
  (let r := sendMessage Fixtures.parse
              (Fixtures.envWith Fixtures.online
                 (Fixtures.streamOf
                    [Fixtures.record Fixtures.completeText ++ Fixtures.lf]
                    (ReadRejects Fixtures.networkError)))
              "hi" (initialSession []) in
   fst r = Ok (Failed "network error") /\
   messages (snd r) = [plainMessage user "hi" "t0"] /\
   length (messages (snd r)) <> length (@nil ChatMessage)) /\
  (let r := sendMessage Fixtures.parse
              (Fixtures.envWith Fixtures.online
                 (Fixtures.streamOf
                    [Fixtures.record Fixtures.completeText ++ Fixtures.lf
                     ++ Fixtures.record Fixtures.errorText ++ Fixtures.lf]
                    Done))
              "hi" (initialSession []) in
   fst r = Ok (Failed "boom") /\
   messages (snd r) = [plainMessage user "hi" "t0"] /\
   length (messages (snd r)) <> length (@nil ChatMessage)).
Proof.
  repeat split; try reflexivity; intros H; vm_compute in H; discriminate H.
Qed.

(** C4, witness: a user message sent offline from a fresh session. *)
Lemma offline_send_fails_without_fetch_witness :
  isOnline (networkStatus
              (Fixtures.envWith Fixtures.offline
                 (Fixtures.streamOf [] Done))) = false /\
  error (snd (sendMessage Fixtures.parse
                (Fixtures.envWith Fixtures.offline (Fixtures.streamOf [] Done))
                "hi" (initialSession [])))
  = Some "You're offline. Please check your connection and try again." /\
  filter isFetch
    (trace (snd (sendMessage Fixtures.parse
                   (Fixtures.envWith Fixtures.offline
                      (Fixtures.streamOf [] Done))
                   "hi" (initialSession []))))
  = [].
Proof.
  split; [reflexivity |].
  destruct (offline_send_fails_without_fetch Fixtures.parse
              (Fixtures.envWith Fixtures.offline (Fixtures.streamOf [] Done))
              "hi" (initialSession []) eq_refl) as (_ & Herr & _ & Hfetch).
  split; [exact Herr | exact Hfetch].
Defined.

(** ** The complete_message event *)

Section CompleteMessage.

Variable JSON_parse : string -> option Parsed.
Variable env : Env.

Local Abbreviation handleRecord := (handleRecord JSON_parse env).

(** C9 (as amended).  A complete_message event never makes the handler
    fail; it appends one assistant message and resets the buffer to null.
    Without a [message], the appended message has the empty string as
    content, a timestamp read from the clock at that moment, and none of
    the optional quick-reply fields.  With a [message], each property is
    defaulted on its own: a missing content becomes the empty string, a
    missing timestamp is read from the clock, and the quick-reply fields
    are those of the [message], present when it has them. *)
Theorem complete_message_defaults (line acc : string) (s : Session)
    (data : StreamData) :
  JSON_parse (JsString.slice_from 6 line) = Some (PObject data) ->
  data_type data = "complete_message" ->
  fst (handleRecord line acc s) = Ok acc /\
  streamingMessage (snd (handleRecord line acc s)) = None /\
  exists m,
    messages (snd (handleRecord line acc s)) = (messages s ++ [m])%list /\
    role m = assistant /\
    match data_message data with
    | None =>
        content m = "" /\
        timestamp m = now env (clock s) /\
        clock (snd (handleRecord line acc s)) = S (clock s) /\
        quick_reply_options m = Undefined /\
        is_preference_question m = None /\
        preference_type m = None /\
        selection_type m = None
    | Some payload =>
        content m = nullish (payload_content payload) "" /\
        timestamp m = nullish (payload_timestamp payload) (now env (clock s)) /\
        quick_reply_options m = payload_quick_reply_options payload /\
        is_preference_question m = payload_is_preference_question payload /\
        preference_type m = payload_preference_type payload /\
        selection_type m = payload_selection_type payload
    end.
Proof.
  intros Hparse Htype.
  open_handleRecord.
  rewrite Hparse. cbn [ret]. rewrite Htype.
  change ("complete_message" =? "chunk") with false.
  change ("complete_message" =? "complete_message") with true.
  cbn iota.
  destruct (data_message data) as [payload |]; cbn [optional_chain].
  - destruct (payload_timestamp payload) as [t |];
      destruct (data_preferences data); cbn;
      (split; [reflexivity | split; [reflexivity |]]);
      eexists; (split; [reflexivity |]); repeat split.
  - destruct (data_preferences data); cbn;
      (split; [reflexivity | split; [reflexivity |]]);
      eexists; (split; [reflexivity |]); repeat split.
Qed.

End CompleteMessage.

(** C9, witness: the event with no [message] at all. *)
Lemma complete_message_defaults_witness :
  Fixtures.parse
    (JsString.slice_from 6 (Fixtures.record Fixtures.bareCompleteMessageText))
  = Some (PObject (Fixtures.event "complete_message")) /\
  data_type (Fixtures.event "complete_message") = "complete_message" /\
  exists m,
    messages (snd (handleRecord Fixtures.parse
                     (Fixtures.envWith Fixtures.online (Fixtures.streamOf [] Done))
                     (Fixtures.record Fixtures.bareCompleteMessageText)
                     "" (initialSession [])))
    = [m] /\
    content m = "" /\ timestamp m = "t0" /\ quick_reply_options m = Undefined.
Proof.
  destruct (complete_message_defaults Fixtures.parse
              (Fixtures.envWith Fixtures.online (Fixtures.streamOf [] Done))
              (Fixtures.record Fixtures.bareCompleteMessageText) ""
              (initialSession [])
              (data := Fixtures.event "complete_message")
              eq_refl eq_refl) as (_ & _ & m & Hm & _ & Hc & Ht & _ & Hq & _).
  split; [reflexivity |]. split; [reflexivity |].
  exists m. repeat split; assumption.
Defined.

(** C9, counterexample: two complete_message events whose [message] has
    neither content and timestamp both.  The first has a content and no
    timestamp: the appended message keeps that content, it is not the
    empty string.  The second has quick-reply options and neither content
    nor timestamp: the appended message carries the options. *)
Lemma complete_message_keeps_payload_fields :
  (Fixtures.parse (JsString.slice_from 6 (Fixtures.record Fixtures.contentOnlyText))
   = Some (PObject Fixtures.contentOnlyEvent) /\
   data_type Fixtures.contentOnlyEvent = "complete_message" /\
   optional_chain (data_message Fixtures.contentOnlyEvent) payload_timestamp
   = None /\
   map content
     (messages (snd (handleRecord Fixtures.parse
                       (Fixtures.envWith Fixtures.online
                          (Fixtures.streamOf [] Done))
                       (Fixtures.record Fixtures.contentOnlyText)
                       "" (initialSession []))))
   = ["x"] /\
   "x" <> "") /\
  (Fixtures.parse (JsString.slice_from 6 (Fixtures.record Fixtures.optionsOnlyText))
   = Some (PObject Fixtures.optionsOnlyEvent) /\
   data_type Fixtures.optionsOnlyEvent = "complete_message" /\
   optional_chain (data_message Fixtures.optionsOnlyEvent) payload_content
   = None /\
   optional_chain (data_message Fixtures.optionsOnlyEvent) payload_timestamp
   = None /\
   map quick_reply_options
     (messages (snd (handleRecord Fixtures.parse
                       (Fixtures.envWith Fixtures.online
                          (Fixtures.streamOf [] Done))
                       (Fixtures.record Fixtures.optionsOnlyText)
                       "" (initialSession []))))
   = [Defined [{| label := "Formal"; value := "formal" |}]] /\
   Defined [{| label := "Formal"; value := "formal" |}]
   <> @Undefined (list QuickReplyOption)).
Proof.
  repeat split; try reflexivity; discriminate.
Qed.

(** ** Decoding the stream *)

Lemma append_assoc (a b c : string) : (a ++ b) ++ c = a ++ (b ++ c).
Proof. induction a as [| x a IH]; cbn; [reflexivity | rewrite IH; reflexivity]. Qed.

Lemma append_empty_r (a : string) : a ++ "" = a.
Proof. induction a as [| x a IH]; cbn; [reflexivity | rewrite IH; reflexivity]. Qed.

Lemma Forall2_cons_left {A B} (R : A -> B -> Prop) (x : A) (xs : list A)
    (ys : list B) :
  Forall2 R (x :: xs) ys ->
  exists y ys', ys = y :: ys' /\ R x y /\ Forall2 R xs ys'.
Proof.
  intros H. remember (x :: xs) as l eqn:El.
  destruct H as [| x0 y xs0 ys' Hxy Hrest]; [discriminate |].
  injection El as -> ->. exists y, ys'. repeat split; assumption.
Qed.

Lemma with_streamingMessage_same (s : Session) :
  with_streamingMessage (streamingMessage s) s = s.
Proof. destruct s; reflexivity. Qed.

Section Decoding.

Variable JSON_parse : string -> option Parsed.
Variable env : Env.

Local Abbreviation handleRecord := (handleRecord JSON_parse env).
Local Abbreviation forLines := (forLines JSON_parse env).
Local Abbreviation readLoop := (readLoop JSON_parse env).
Local Abbreviation sendMessage := (sendMessage JSON_parse env).
Local Abbreviation chunkOf := (chunkOf JSON_parse).
Local Abbreviation recordThrows := (recordThrows JSON_parse).
Local Abbreviation forLine := (forLine JSON_parse env).

Lemma forLines_cons (line : string) (rest : list string) (acc : string) :
  forLines (line :: rest) acc = (acc' <- forLine line acc;; forLines rest acc').
Proof. reflexivity. Qed.

Lemma forLines_app (l1 l2 : list string) :
  forall acc s,
    forLines (l1 ++ l2) acc s = (acc' <- forLines l1 acc;; forLines l2 acc') s.
Proof.
  induction l1 as [| line l1 IH]; intros acc s.
  - reflexivity.
  - cbn [app]. rewrite !forLines_cons. unfold bind.
    destruct (forLine line acc s) as [[acc1 | err] s1]; [| reflexivity].
    rewrite IH. reflexivity.
Qed.

(** The two loops together visit the lines of the stream in order. *)
Lemma readLoop_flat (texts : list string) (fin : ReadEnd) :
  forall acc s,
    readLoop texts fin acc s
    = (_ <- forLines (streamLines texts) acc;;
       match fin with
       | Done => ret tt
       | ReadRejects err => throw err
       end) s.
Proof.
  induction texts as [| chunk rest IH]; intros acc s.
  - destruct fin; reflexivity.
  - step_readLoop.
    unfold bind. rewrite forLines_app. unfold bind.
    destruct (forLines (JsString.split "010" chunk) acc s) as [[acc1 | err] s1];
      [| reflexivity].
    rewrite IH. reflexivity.
Qed.

(** *** Malformed records *)

Lemma handleRecord_syntax_error (line acc : string) (s : Session) :
  JSON_parse (JsString.slice_from 6 line) = None ->
  handleRecord line acc s = (Ok acc, s).
Proof.
  intros Hparse. open_handleRecord.
  rewrite Hparse. reflexivity.
Qed.

(** *** Records that raise *)

Lemma forLine_throws (line acc : string) (s : Session) :
  match recordThrows line with
  | Some err => forLine line acc s = (Throw err, s)
  | None => exists acc', fst (forLine line acc s) = Ok acc'
  end.
Proof.
  open_recordThrows; open_forLine; unfold isRecord.
  destruct (JsString.startsWith line "data: "); [| exists acc; reflexivity].
  open_handleRecord.
  destruct (JSON_parse (JsString.slice_from 6 line)) as [[| | data] |]; cbn;
    try (eexists; reflexivity); try reflexivity.
  destruct (data_type data =? "chunk") eqn:Hchunk.
  { apply String.eqb_eq in Hchunk. rewrite Hchunk. cbn. eexists; reflexivity. }
  destruct (data_type data =? "complete_message") eqn:Hcm.
  { apply String.eqb_eq in Hcm. rewrite Hcm.
    change ("complete_message" =? "error") with false. cbn iota.
    destruct (optional_chain (data_message data) payload_timestamp);
      destruct (data_preferences data); cbn; eexists; reflexivity. }
  destruct (data_type data =? "complete") eqn:Hc.
  { apply String.eqb_eq in Hc. rewrite Hc.
    change ("complete" =? "error") with false. cbn iota.
    destruct (data_preferences data); cbn; eexists; reflexivity. }
  destruct (data_type data =? "error"); cbn; [reflexivity | eexists; reflexivity].
Qed.

Lemma recordThrows_is_failure (line : string) (err : Thrown) :
  recordThrows line = Some err ->
  isAbort err = false /\ instanceof_Error err = true.
Proof.
  open_recordThrows.
  destruct (isRecord line); [| discriminate].
  destruct (JSON_parse (JsString.slice_from 6 line)) as [[| | data] |];
    try discriminate.
  - intros H. injection H as <-. split; reflexivity.
  - destruct (data_type data =? "error"); [| discriminate].
    intros H. injection H as <-. split; reflexivity.
Qed.

Lemma forLines_no_throw (lines : list string) :
  Forall (fun line => recordThrows line = None) lines ->
  forall acc s, exists acc', fst (forLines lines acc s) = Ok acc'.
Proof.
  induction 1 as [| line rest Hline _ IH]; intros acc s.
  - exists acc. reflexivity.
  - rewrite forLines_cons. unfold bind.
    pose proof (forLine_throws line acc s) as H. rewrite Hline in H.
    destruct H as [acc1 H].
    destruct (forLine line acc s) as [r s1]. cbn in H. subst r.
    apply IH.
Qed.

Lemma forLines_first_throw (before after : list string) (line : string)
    (err : Thrown) :
  Forall (fun l => recordThrows l = None) before ->
  recordThrows line = Some err ->
  forall acc s, fst (forLines (before ++ line :: after) acc s) = Throw err.
Proof.
  intros Hbefore Hline acc s.
  rewrite forLines_app. unfold bind at 1.
  destruct (forLines_no_throw Hbefore acc s) as [acc1 H].
  destruct (forLines before acc s) as [r s1]. cbn in H. subst r.
  rewrite forLines_cons. unfold bind.
  pose proof (forLine_throws line acc1 s1) as Ht. rewrite Hline in Ht.
  rewrite Ht. reflexivity.
Qed.

(** *** Chunk events *)

Lemma handleRecord_chunk (line acc c : string) (s : Session) :
  chunkOf (JsString.slice_from 6 line) c ->
  handleRecord line acc s
  = (Ok (acc ++ c), with_streamingMessage (Some (acc ++ c)) s).
Proof.
  intros (data & Hparse & Htype & Hcontent).
  open_handleRecord.
  rewrite Hparse. cbn [ret]. rewrite Htype, Hcontent. reflexivity.
Qed.

Lemma forLines_chunks (lines : list string) :
  forall (cs : list string) (acc : string) (s : Session),
    Forall2 chunkOf (map (JsString.slice_from 6) (filter isRecord lines)) cs ->
    streamingMessage s = Some acc ->
    forLines lines acc s
    = (Ok (acc ++ joined cs),
       with_streamingMessage (Some (acc ++ joined cs)) s).
Proof.
  induction lines as [| line rest IH]; intros cs acc s Hcs Hbuf.
  - inversion Hcs; subst. cbn. rewrite append_empty_r, <- Hbuf.
    rewrite with_streamingMessage_same. reflexivity.
  - rewrite forLines_cons. unfold bind; open_forLine.
    cbn [filter] in Hcs. unfold isRecord in Hcs at 1.
    destruct (JsString.startsWith line "data: ").
    + cbn [map] in Hcs.
      destruct (Forall2_cons_left Hcs) as (c & cs' & -> & Hc & Hrest).
      rewrite (handleRecord_chunk line acc s Hc).
      rewrite (IH cs' (acc ++ c)
                 (with_streamingMessage (Some (acc ++ c)) s) Hrest eq_refl).
      cbn [joined fold_right]. rewrite append_assoc. reflexivity.
    + cbn [ret]. apply IH; assumption.
Qed.

(** C5.  When the records of a stream are chunk events, the streaming
    buffer holds their contents concatenated in arrival order, however
    the records are spread over the reads: in the decoding loop from any
    buffer on, wherever the stream ends, and at the end of a call whose
    stream ends normally. *)
Theorem chunks_accumulate_in_order (content : string) (s : Session)
    (response : Response) (texts cs : list string) :
  isOnline (networkStatus env) = true ->
  fetch env = FetchResolves response ->
  ok response = true ->
  body response = Some {| reads := texts; ending := Done |} ->
  Forall2 chunkOf (payloads texts) cs ->
  (forall fin acc s0,
      streamingMessage s0 = Some acc ->
      streamingMessage (snd (readLoop texts fin acc s0))
      = Some (acc ++ joined cs)) /\
  fst (sendMessage content s) = Ok Completed /\
  streamingMessage (snd (sendMessage content s)) = Some (joined cs).
Proof.
  intros Honline Hfetch Hok Hbody Hcs.
  assert (Hloop : forall fin acc s0,
             streamingMessage s0 = Some acc ->
             snd (readLoop texts fin acc s0)
             = with_streamingMessage (Some (acc ++ joined cs)) s0).
  { intros fin acc s0 Hbuf. rewrite readLoop_flat. unfold bind.
    rewrite (forLines_chunks (streamLines texts) s0 Hcs Hbuf).
    destruct fin; reflexivity. }
  split.
  { intros fin acc s0 Hbuf. rewrite (Hloop fin acc s0 Hbuf). reflexivity. }
  rewrite sendMessage_unfold. cbn zeta. rewrite resetForSend_run. cbn [snd].
  unfold request, bind. rewrite Honline. cbn [negb modify]. rewrite Hfetch.
  cbn [emit modify ret]. rewrite Hok, Hbody. cbn [negb reads ending].
  match goal with
  | |- context [readLoop texts Done "" ?st] =>
      assert (Hst : streamingMessage st = Some "");
      [| pose proof (Hloop Done "" st Hst) as Hrun;
         pose proof (readLoop_flat texts Done "" st) as Hflat;
         unfold bind in Hflat;
         rewrite (forLines_chunks (streamLines texts) st Hcs Hst) in Hflat;
         cbn [ret] in Hflat; rewrite Hflat ]
  end.
  { unfold addUserMessage, bind.
    destruct (content =? INIT_CONVERSATION); reflexivity. }
  split; reflexivity.
Qed.

(** C7.  A record whose payload does not parse is skipped and the loop
    goes on with the records after it, as if the record were not there.
    Any other exception out of a record is the one the call fails with:
    when the first record that raises one is reached (reading a property
    of [null], or the error event, which raises an error carrying the
    event's text), the call is over as failed, the error field holds the
    exception's message and the buffer is null. *)
Theorem malformed_records_skipped_other_exceptions_fail :
  (forall (before after : list string) (bad acc : string) (s0 : Session),
      JsString.startsWith bad "data: " = true ->
      JSON_parse (JsString.slice_from 6 bad) = None ->
      handleRecord bad acc s0 = (Ok acc, s0) /\
      forLines (before ++ bad :: after) acc s0
      = forLines (before ++ after) acc s0) /\
  (forall (line : string) (data : StreamData),
      JsString.startsWith line "data: " = true ->
      JSON_parse (JsString.slice_from 6 line) = Some (PObject data) ->
      data_type data = "error" ->
      recordThrows line
      = Some (new_Error (nullish (data_error data) "Unknown error"))) /\
  (forall (line acc : string) (s0 : Session),
      match recordThrows line with
      | Some err => forLine line acc s0 = (Throw err, s0)
      | None => exists acc', fst (forLine line acc s0) = Ok acc'
      end) /\
  (forall (content : string) (s : Session) (response : Response)
          (reader : Body) (before after : list string) (line : string)
          (err : Thrown),
      isOnline (networkStatus env) = true ->
      fetch env = FetchResolves response ->
      ok response = true ->
      body response = Some reader ->
      streamLines (reads reader) = (before ++ line :: after)%list ->
      Forall (fun l => recordThrows l = None) before ->
      recordThrows line = Some err ->
      fst (sendMessage content s) = Ok (Failed (message err)) /\
      error (snd (sendMessage content s)) = Some (message err) /\
      streamingMessage (snd (sendMessage content s)) = None).
Proof.
  split; [| split; [| split]].
  - intros before after bad acc s0 Hrec Hparse.
    split; [apply handleRecord_syntax_error; exact Hparse |].
    rewrite !forLines_app. unfold bind.
    destruct (forLines before acc s0) as [[acc1 | e] s1]; [| reflexivity].
    rewrite forLines_cons. unfold bind; open_forLine. rewrite Hrec.
    rewrite (handleRecord_syntax_error bad acc1 s1 Hparse). reflexivity.
  - intros line data Hrec Hparse Htype.
    open_recordThrows. unfold isRecord. rewrite Hrec, Hparse, Htype. reflexivity.
  - intros line acc s0. apply forLine_throws.
  - intros content s response reader before after line err
           Honline Hfetch Hok Hbody Hlines Hbefore Hline.
    destruct (recordThrows_is_failure line Hline) as [Habort Hinst].
    rewrite sendMessage_unfold. cbn zeta.
    set (s2 := snd (addUserMessage env content (snd (resetForSend s)))).
    unfold request, bind. rewrite Honline. cbn [negb modify]. rewrite Hfetch.
    cbn [emit modify ret]. rewrite Hok, Hbody. cbn [negb].
    rewrite readLoop_flat. unfold bind. rewrite Hlines.
    match goal with
    | |- context [forLines _ ?acc ?st] =>
        pose proof (@forLines_first_throw before after line err
                      Hbefore Hline acc st) as Hthrow;
        destruct (forLines (before ++ line :: after) acc st)
          as [r s3]
    end.
    cbn in Hthrow. subst r. rewrite recover_run, Habort, Hinst.
    repeat split.
Qed.

End Decoding.

(** C5, witness: the chunk event with content a and the chunk event with
    content b, one per read, leave the buffer at ab. *)
Lemma chunks_accumulate_in_order_witness :
  Forall2 (chunkOf Fixtures.parse)
    (payloads [Fixtures.record (Fixtures.chunkText "a") ++ Fixtures.lf;
               Fixtures.record (Fixtures.chunkText "b") ++ Fixtures.lf])
    ["a"; "b"] /\
  streamingMessage
    (snd (sendMessage Fixtures.parse
            (Fixtures.envWith Fixtures.online
               (Fixtures.streamOf
                  [Fixtures.record (Fixtures.chunkText "a") ++ Fixtures.lf;
                   Fixtures.record (Fixtures.chunkText "b") ++ Fixtures.lf]
                  Done))
            "hi" (initialSession [])))
  = Some "ab".
Proof.
  assert (H : Forall2 (chunkOf Fixtures.parse)
                (payloads [Fixtures.record (Fixtures.chunkText "a") ++ Fixtures.lf;
                           Fixtures.record (Fixtures.chunkText "b") ++ Fixtures.lf])
                ["a"; "b"]).
  { change (payloads _) with [Fixtures.chunkText "a"; Fixtures.chunkText "b"].
    constructor; [| constructor; [| constructor]].
    - exists (Fixtures.chunkEvent "a"). repeat split.
    - exists (Fixtures.chunkEvent "b"). repeat split. }
  split; [exact H |].
  destruct (@chunks_accumulate_in_order Fixtures.parse
              (Fixtures.envWith Fixtures.online
                 (Fixtures.streamOf
                    [Fixtures.record (Fixtures.chunkText "a") ++ Fixtures.lf;
                     Fixtures.record (Fixtures.chunkText "b") ++ Fixtures.lf]
                    Done))
              "hi" (initialSession []) _ _ ["a"; "b"]
              eq_refl eq_refl eq_refl eq_refl H) as (_ & _ & Hbuffer).
  exact Hbuffer.
Defined.

(** C7, witness: a stream whose first record is cut short, followed by a
    chunk event and, in the next read, an error event and a complete
    event.  The cut record is skipped, the chunk is applied, and the call
    fails with the text of the error event. *)
Lemma malformed_records_skipped_other_exceptions_fail_witness :
  forLines Fixtures.parse
    (Fixtures.envWith Fixtures.online (Fixtures.streamOf [] Done))
    ([] ++ Fixtures.record Fixtures.truncatedText
        :: [Fixtures.record (Fixtures.chunkText "a")])%list
    "" (initialSession [])
  = forLines Fixtures.parse
      (Fixtures.envWith Fixtures.online (Fixtures.streamOf [] Done))
      ([] ++ [Fixtures.record (Fixtures.chunkText "a")])%list
      "" (initialSession []) /\
  fst (sendMessage Fixtures.parse
         (Fixtures.envWith Fixtures.online
            (Fixtures.streamOf
               [Fixtures.record Fixtures.truncatedText ++ Fixtures.lf
                ++ Fixtures.record (Fixtures.chunkText "a");
                Fixtures.record Fixtures.errorText ++ Fixtures.lf
                ++ Fixtures.record Fixtures.completeText]
               Done))
         "hi" (initialSession []))
  = Ok (Failed "boom").
Proof.
  split.
  - destruct (malformed_records_skipped_other_exceptions_fail Fixtures.parse
                (Fixtures.envWith Fixtures.online (Fixtures.streamOf [] Done)))
      as (Hskip & _).
    apply (Hskip [] [Fixtures.record (Fixtures.chunkText "a")]
             (Fixtures.record Fixtures.truncatedText) "" (initialSession []));
      reflexivity.
  - destruct (malformed_records_skipped_other_exceptions_fail Fixtures.parse
                (Fixtures.envWith Fixtures.online
                   (Fixtures.streamOf
                      [Fixtures.record Fixtures.truncatedText ++ Fixtures.lf
                       ++ Fixtures.record (Fixtures.chunkText "a");
                       Fixtures.record Fixtures.errorText ++ Fixtures.lf
                       ++ Fixtures.record Fixtures.completeText]
                      Done)))
      as (_ & _ & _ & Hfail).
    apply (Hfail "hi" (initialSession []) _ _
             [Fixtures.record Fixtures.truncatedText;
              Fixtures.record (Fixtures.chunkText "a")]
             [Fixtures.record Fixtures.completeText]
             (Fixtures.record Fixtures.errorText)
             (new_Error "boom")
             eq_refl eq_refl eq_refl eq_refl eq_refl).
    + repeat constructor.
    + reflexivity.
Defined.

(** * Further properties *)

(** More unfolding steps *)
Ltac step_forLines := cbn [forLines ret fst snd].
Ltac open_evicted := unfold evicted.
Ltac open_timestampOf := unfold timestampOf.
Ltac open_cleanupOldData := unfold cleanupOldData.
Ltac open_saveMessages := unfold saveMessages.
Ltac open_messagesOf := unfold messagesOf.
Ltac open_recoverData := unfold recoverData.

(** ** Strings *)

Lemma prefix_append (p r : string) : String.prefix p (p ++ r) = true.
Proof.
  induction p as [| a p IH]; cbn.
  - destruct r; reflexivity.
  - destruct (ascii_dec a a) as [_ | H]; [exact IH | contradiction].
Qed.

Lemma slice_from_append (p r : string) :
  JsString.slice_from (String.length p) (p ++ r) = r.
Proof. induction p as [| a p IH]; cbn; [reflexivity | exact IH]. Qed.

Lemma replace_unfold (pat rep s : string) :
  JsString.replace pat rep s
  = if String.prefix pat s
    then rep ++ JsString.slice_from (String.length pat) s
    else match s with
         | EmptyString => EmptyString
         | String c t => String c (JsString.replace pat rep t)
         end.
Proof. destruct s; reflexivity. Qed.

Lemma replace_prefix (pat rest : string) :
  JsString.replace pat "" (pat ++ rest) = rest.
Proof.
  rewrite replace_unfold, prefix_append, slice_from_append. reflexivity.
Qed.

Lemma split_nonempty (c : ascii) (s : string) : JsString.split c s <> [].
Proof.
  induction s as [| d t IH]; cbn; [discriminate |].
  destruct (Ascii.eqb d c); [discriminate |].
  destruct (JsString.split c t); discriminate.
Qed.

Lemma split_length (c : ascii) (s : string) :
  length (JsString.split c s) = S (occurrences c s).
Proof.
  induction s as [| d t IH]; cbn; [reflexivity |].
  destruct (Ascii.eqb d c); cbn.
  - rewrite IH. reflexivity.
  - pose proof (split_nonempty c t) as Hne.
    destruct (JsString.split c t); [contradiction | exact IH].
Qed.

Lemma includes_occurrences (c : ascii) (s : string) :
  JsString.includes c s = false <-> occurrences c s = 0.
Proof.
  induction s as [| d t IH]; cbn; [tauto |].
  rewrite (Ascii.eqb_sym c d).
  destruct (Ascii.eqb d c); cbn; [split; discriminate | exact IH].
Qed.

Lemma occurrences_append (c : ascii) (a b : string) :
  occurrences c (a ++ b) = occurrences c a + occurrences c b.
Proof.
  induction a as [| d t IH]; cbn; [reflexivity |]. rewrite IH. lia.
Qed.

Lemma split_without (c : ascii) (s : string) :
  JsString.includes c s = false -> JsString.split c s = [s].
Proof.
  induction s as [| d t IH]; cbn; [reflexivity |].
  rewrite (Ascii.eqb_sym c d).
  destruct (Ascii.eqb d c); cbn; [discriminate |].
  intros H. rewrite (IH H). reflexivity.
Qed.

Lemma split_at_first (c : ascii) (a b : string) :
  JsString.includes c a = false ->
  JsString.split c (a ++ String c b) = a :: JsString.split c b.
Proof.
  induction a as [| d t IH]; cbn.
  - intros _. rewrite Ascii.eqb_refl. reflexivity.
  - rewrite (Ascii.eqb_sym c d).
    destruct (Ascii.eqb d c); cbn; [discriminate |].
    intros H. rewrite (IH H). reflexivity.
Qed.

(** *** White space

    [trim] on its own result *)

Lemma trimStart_head (s : string) :
  match JsString.trimStart s with
  | EmptyString => True
  | String c _ => JsString.is_space c = false
  end.
Proof.
  induction s as [| c t IH]; cbn; [exact I |].
  destruct (JsString.is_space c) eqn:E; [exact IH | exact E].
Qed.

Lemma trimEnd_keeps_head (c : ascii) (t : string) :
  JsString.is_space c = false ->
  exists t', JsString.trimEnd (String c t) = String c t'.
Proof.
  intros Hc. cbn. destruct (JsString.trimEnd t) as [| d t'].
  - rewrite Hc. exists EmptyString. reflexivity.
  - exists (String d t'). reflexivity.
Qed.

Lemma trimEnd_idempotent (s : string) :
  JsString.trimEnd (JsString.trimEnd s) = JsString.trimEnd s.
Proof.
  induction s as [| c t IH]; cbn; [reflexivity |].
  destruct (JsString.trimEnd t) as [| d t'] eqn:E.
  - destruct (JsString.is_space c) eqn:Hc; cbn; [reflexivity |].
    rewrite Hc. reflexivity.
  - change (JsString.trimEnd (String c (String d t')))
      with (match JsString.trimEnd (String d t') with
            | EmptyString =>
                if JsString.is_space c then EmptyString else String c EmptyString
            | t'' => String c t''
            end).
    rewrite IH. reflexivity.
Qed.

Lemma trim_idempotent (s : string) :
  JsString.trim (JsString.trim s) = JsString.trim s.
Proof.
  unfold JsString.trim.
  pose proof (trimStart_head s) as Hhead.
  destruct (JsString.trimStart s) as [| c t]; [reflexivity |].
  destruct (@trimEnd_keeps_head c t Hhead) as [t' Ht]. rewrite Ht.
  cbn [JsString.trimStart]. rewrite Hhead, <- Ht.
  apply trimEnd_idempotent.
Qed.

(** ** The formatter on the contents the callers build *)

Lemma startsWith_prefix (rest : string) :
  JsString.startsWith (PREFIX ++ rest) PREFIX = true.
Proof. unfold JsString.startsWith. apply (prefix_append PREFIX rest). Qed.

Lemma formatPreferenceMessage_parts (rest : string) :
  formatPreferenceMessage ("PREFERENCE_SELECTION:" ++ rest)
  = match JsString.split ":" rest with
    | [preferenceType; value] =>
        match lookup formatMap preferenceType with
        | Some label => label
        | None => titleCase preferenceType
        end ++ ": " ++ formatValue value
    | _ => "PREFERENCE_SELECTION:" ++ rest
    end.
Proof.
  change ("PREFERENCE_SELECTION:" ++ rest) with (PREFIX ++ rest).
  unfold formatPreferenceMessage.
  rewrite (startsWith_prefix rest). cbn [negb].
  rewrite (replace_prefix PREFIX rest). reflexivity.
Qed.

(** X1.  A quick reply whose preference type and value hold no colon is
    shown as the label of the type (the table's, or the type title-cased
    when the table has none), a colon and a space, and the formatted
    value.  This is for a type and a value of ASCII characters, on which
    the case conversions are those of this model, and such that neither
    the type nor the value in lower case is the name of a member of
    [Object.prototype], which the two tables would otherwise return. *)
Theorem quick_reply_is_formatted (preferenceType value : string) :
  isAscii preferenceType = true ->
  isAscii value = true ->
  isOwnKey preferenceType = true ->
  isOwnKey (JsString.toLowerCase value) = true ->
  JsString.includes ":" preferenceType = false ->
  JsString.includes ":" value = false ->
  formatPreferenceMessage (handleQuickReply preferenceType value)
  = match lookup formatMap preferenceType with
    | Some label => label
    | None => titleCase preferenceType
    end ++ ": " ++ formatValue value.
Proof.
  intros _ _ _ _ Htype Hvalue. unfold handleQuickReply.
  rewrite formatPreferenceMessage_parts.
  change (preferenceType ++ ":" ++ value)
    with (preferenceType ++ String ":" value).
  rewrite (split_at_first ":" preferenceType value Htype).
  rewrite (split_without ":" value Hvalue). reflexivity.
Qed.

Lemma quick_reply_is_formatted_witness :
  isAscii "language" = true /\
  isAscii "usa" = true /\
  isOwnKey "language" = true /\
  isOwnKey (JsString.toLowerCase "usa") = true /\
  JsString.includes ":" "language" = false /\
  JsString.includes ":" "usa" = false /\
  formatPreferenceMessage (handleQuickReply "language" "usa")
  = "Language Preference: USA".
Proof.
  repeat (split; [reflexivity |]).
  apply (quick_reply_is_formatted "language" "usa"); reflexivity.
Defined.

(** X2.  The formatter returns its input as it is in every other case: a
    message that does not start with the marker, and a message that
    starts with it and goes on with no colon or with more than one (a
    quick-reply value that itself holds a colon is shown raw). *)
Theorem other_messages_are_left_alone (message rest : string) :
  (JsString.startsWith message PREFIX = false ->
   formatPreferenceMessage message = message) /\
  (occurrences ":" rest <> 1 ->
   formatPreferenceMessage ("PREFERENCE_SELECTION:" ++ rest)
   = "PREFERENCE_SELECTION:" ++ rest).
Proof.
  split.
  - intros H. unfold formatPreferenceMessage. rewrite H. reflexivity.
  - intros H. rewrite formatPreferenceMessage_parts.
    pose proof (split_length ":" rest) as Hlen.
    destruct (JsString.split ":" rest) as [| a [| b [| c l]]];
      try reflexivity.
    cbn in Hlen. exfalso. apply H. lia.
Qed.

Lemma other_messages_are_left_alone_witness :
  JsString.startsWith "hello: world" PREFIX = false /\
  occurrences ":" "language:en:US" <> 1 /\
  formatPreferenceMessage "hello: world" = "hello: world" /\
  formatPreferenceMessage (handleQuickReply "language" "en:US")
  = "PREFERENCE_SELECTION:language:en:US".
Proof.
  split; [reflexivity |]. split; [discriminate |].
  destruct (other_messages_are_left_alone "hello: world" "language:en:US")
    as [Hplain Hcolons].
  split; [apply Hplain; reflexivity | apply Hcolons; discriminate].
Defined.

(** *** The formatter applied twice *)

Lemma lower_ascii_not_R (c : ascii) : JsString.lower_ascii c <> "R"%char.
Proof.
  destruct c as [[] [] [] [] [] [] [] []]; vm_compute; discriminate.
Qed.

Lemma prefix_cons (a b : ascii) (p s : string) :
  String.prefix (String a p) (String b s)
  = if ascii_dec a b then String.prefix p s else false.
Proof. reflexivity. Qed.

Lemma not_marker_by_first (a : ascii) (rest : string) :
  a <> "P"%char -> JsString.startsWith (String a rest) PREFIX = false.
Proof.
  intros H. unfold JsString.startsWith, PREFIX. rewrite prefix_cons.
  destruct (ascii_dec "P" a) as [E | _]; [| reflexivity].
  exfalso. apply H. symmetry. exact E.
Qed.

Lemma not_marker_by_second (a b : ascii) (rest : string) :
  b <> "R"%char ->
  JsString.startsWith (String a (String b rest)) PREFIX = false.
Proof.
  intros H. unfold JsString.startsWith, PREFIX. rewrite prefix_cons.
  destruct (ascii_dec "P" a) as [_ | _]; [| reflexivity].
  rewrite prefix_cons.
  destruct (ascii_dec "R" b) as [E | _]; [| reflexivity].
  exfalso. apply H. symmetry. exact E.
Qed.

(** A capitalized word followed by a space or a colon never begins the
    marker: its second character is lower case, a space or a colon. *)
Lemma capitalize_not_marker (w rest : string) (sep : ascii) :
  sep = " "%char \/ sep = ":"%char ->
  JsString.startsWith (capitalize w ++ String sep rest) PREFIX = false.
Proof.
  intros Hsep. unfold capitalize.
  destruct w as [| c [| d w']]; cbn.
  - apply not_marker_by_first. destruct Hsep; subst; discriminate.
  - apply not_marker_by_second. destruct Hsep; subst; discriminate.
  - apply not_marker_by_second. apply lower_ascii_not_R.
Qed.

Lemma titleCase_not_marker (t rest : string) :
  JsString.startsWith (titleCase t ++ ": " ++ rest) PREFIX = false.
Proof.
  unfold titleCase.
  pose proof (split_nonempty "_" t) as Hne.
  destruct (JsString.split "_" t) as [| w [| w' ws]]; [contradiction | |].
  - cbn [map JsString.join].
    apply (capitalize_not_marker w (" " ++ rest) (sep := ":")). right; reflexivity.
  - cbn [map JsString.join]. rewrite append_assoc.
    apply (capitalize_not_marker w _ (sep := " ")). left; reflexivity.
Qed.

Lemma label_not_marker (t label rest : string) :
  lookup formatMap t = Some label ->
  JsString.startsWith (label ++ ": " ++ rest) PREFIX = false.
Proof.
  unfold formatMap. cbn [lookup].
  repeat match goal with
         | |- (if ?b then _ else _) = _ -> _ =>
             destruct b; [intros H; injection H as <-; reflexivity |]
         end.
  discriminate.
Qed.

(** X3.  Formatting is idempotent: a formatted message never starts with
    the marker again, so formatting it once more changes nothing. *)
Theorem formatPreferenceMessage_idempotent (message : string) :
  formatPreferenceMessage (formatPreferenceMessage message)
  = formatPreferenceMessage message.
Proof.
  assert (Hfixed : forall out,
             JsString.startsWith out PREFIX = false ->
             formatPreferenceMessage out = out).
  { intros out H. unfold formatPreferenceMessage. rewrite H. reflexivity. }
  assert (Hcase :
    formatPreferenceMessage message = message \/
    JsString.startsWith (formatPreferenceMessage message) PREFIX = false).
  { unfold formatPreferenceMessage.
    destruct (JsString.startsWith message PREFIX) eqn:Hstart; cbn [negb];
      [| right; exact Hstart].
    destruct (JsString.split ":" (JsString.replace PREFIX "" message))
      as [| t [| v [| x l]]]; try (left; reflexivity).
    right. destruct (lookup formatMap t) as [label |] eqn:Hlabel.
    - apply (label_not_marker t _ Hlabel).
    - apply titleCase_not_marker. }
  destruct Hcase as [Hsame | Hout].
  - rewrite Hsame. exact Hsame.
  - apply Hfixed. exact Hout.
Qed.

(** *** Several values in one quick reply *)

Lemma includes_append (c : ascii) (a b : string) :
  JsString.includes c (a ++ b) = JsString.includes c a || JsString.includes c b.
Proof.
  induction a as [| d t IH]; cbn; [reflexivity |].
  rewrite IH, orb_assoc. reflexivity.
Qed.

Lemma join_cons (sep p q : string) (rest : list string) :
  JsString.join sep (p :: q :: rest) = p ++ sep ++ JsString.join sep (q :: rest).
Proof. reflexivity. Qed.

(** Splitting what was joined gives the pieces back, when no piece holds
    the separator. *)
Lemma split_join (c : ascii) (pieces : list string) :
  pieces <> [] ->
  Forall (fun p => JsString.includes c p = false) pieces ->
  JsString.split c (JsString.join (String c "") pieces) = pieces.
Proof.
  intros Hne Hall. induction Hall as [| p rest Hp Hrest IH]; [contradiction |].
  destruct rest as [| q rest].
  - cbn. apply split_without. exact Hp.
  - rewrite join_cons.
    change (String c "" ++ JsString.join (String c "") (q :: rest))
      with (String c (JsString.join (String c "") (q :: rest))).
    rewrite (split_at_first c p _ Hp). rewrite IH; [reflexivity | discriminate].
Qed.

Lemma includes_join_other (c d : ascii) (pieces : list string) :
  Ascii.eqb c d = false ->
  Forall (fun p => JsString.includes c p = false) pieces ->
  JsString.includes c (JsString.join (String d "") pieces) = false.
Proof.
  intros Hcd Hall. induction Hall as [| p rest Hp Hrest IH]; [reflexivity |].
  destruct rest as [| q rest]; [exact Hp |].
  rewrite join_cons, !includes_append, Hp, IH. cbn. rewrite Hcd. reflexivity.
Qed.

Lemma includes_join_two (c : ascii) (p q : string) (rest : list string) :
  JsString.includes c (JsString.join (String c "") (p :: q :: rest)) = true.
Proof.
  rewrite join_cons, !includes_append. cbn. rewrite Ascii.eqb_refl.
  rewrite orb_true_r. reflexivity.
Qed.

(** X4.  In multiple mode the Done button sends the selected values
    joined by commas, and the formatter shows that reply as the type's
    label followed by the values, each trimmed and capitalized, joined by
    a comma and a space: as many values as were selected, in the order of
    selection (two values or more, none holding a comma or a colon).
    This is for a type and values of ASCII characters, on which [trim]
    and the case conversions are those of this model, and for a type that
    is not the name of a member of [Object.prototype]. *)
Theorem done_click_is_formatted (preferenceType first second : string)
    (others : list string) (pills : Pills) :
  selectedValues pills = first :: second :: others ->
  isAscii preferenceType = true ->
  isOwnKey preferenceType = true ->
  Forall (fun v => isAscii v = true) (selectedValues pills) ->
  Forall (fun v => JsString.includes "," v = false) (selectedValues pills) ->
  Forall (fun v => JsString.includes ":" v = false) (selectedValues pills) ->
  JsString.includes ":" preferenceType = false ->
  exists sent,
    snd (handleDoneClick pills) = Some sent /\
    isSubmitted (fst (handleDoneClick pills)) = true /\
    formatPreferenceMessage (handleQuickReply preferenceType sent)
    = match lookup formatMap preferenceType with
      | Some label => label
      | None => titleCase preferenceType
      end ++ ": "
      ++ JsString.join ", "
           (map capitalize (map JsString.trim (selectedValues pills))).
Proof.
  intros Hsel _ _ _ Hcomma Hcolon Htype.
  unfold handleDoneClick. rewrite Hsel in *. cbn [length Nat.ltb Nat.leb snd fst].
  eexists. split; [reflexivity |]. split; [reflexivity |].
  unfold handleQuickReply. rewrite formatPreferenceMessage_parts.
  change (preferenceType ++ ":" ++ JsString.join "," (first :: second :: others))
    with (preferenceType
          ++ String ":" (JsString.join "," (first :: second :: others))).
  rewrite (split_at_first ":" preferenceType _ Htype).
  rewrite split_without
    by (apply includes_join_other; [reflexivity | exact Hcolon]).
  unfold formatValue. rewrite (includes_join_two "," first second others).
  rewrite (@split_join "," (first :: second :: others));
    [reflexivity | discriminate | exact Hcomma].
Qed.

Lemma done_click_is_formatted_witness :
  exists sent,
    snd (handleDoneClick
           {| selectedValues := ["technology"; " sports"]; isSubmitted := false |})
    = Some sent /\
    formatPreferenceMessage (handleQuickReply "topics" sent)
    = "Topics: Technology, Sports".
Proof.
  destruct (@done_click_is_formatted "topics" "technology" " sports" []
              {| selectedValues := ["technology"; " sports"];
                 isSubmitted := false |}
              eq_refl eq_refl eq_refl) as (sent & Hsent & _ & Hshown).
  - repeat constructor.
  - repeat constructor.
  - repeat constructor.
  - reflexivity.
  - exists sent. split; [exact Hsent | exact Hshown].
Defined.

(** ** The quick-reply pills *)

Lemma includesValue_In (values : list string) (value : string) :
  includesValue values value = true <-> In value values.
Proof.
  unfold includesValue. rewrite existsb_exists. split.
  - intros (x & Hin & Heq). apply String.eqb_eq in Heq. subst. exact Hin.
  - intros Hin. exists value. split; [exact Hin | apply String.eqb_refl].
Qed.

Lemma In_toggle_other (value x : string) (prev : list string) :
  x <> value -> (In x (toggle value prev) <-> In x prev).
Proof.
  intros Hneq. unfold toggle. destruct (includesValue prev value).
  - rewrite filter_In. split; [intros [H _]; exact H |].
    intros H. split; [exact H |].
    apply negb_true_iff, String.eqb_neq. exact Hneq.
  - rewrite in_app_iff. cbn. split; [| tauto].
    intros [H | [H | []]]; [exact H | congruence].
Qed.

Lemma In_toggle_self (value : string) (prev : list string) :
  In value (toggle value prev) <-> ~ In value prev.
Proof.
  unfold toggle. destruct (includesValue prev value) eqn:Hinc.
  - apply includesValue_In in Hinc. rewrite filter_In. split.
    + intros [_ H]. apply negb_true_iff, String.eqb_neq in H. congruence.
    + intros H. contradiction.
  - assert (Hnot : ~ In value prev).
    { intros H. apply includesValue_In in H. congruence. }
    rewrite in_app_iff. cbn. tauto.
Qed.

Lemma NoDup_toggle (value : string) (prev : list string) :
  NoDup prev -> NoDup (toggle value prev).
Proof.
  intros Hnd. unfold toggle. destruct (includesValue prev value) eqn:Hinc.
  - apply NoDup_filter. exact Hnd.
  - assert (Hnot : ~ In value prev).
    { intros H. apply includesValue_In in H. congruence. }
    clear Hinc. induction Hnd as [| x l Hx Hl IH]; cbn.
    + constructor; [intros [] | constructor].
    + constructor.
      * rewrite in_app_iff. cbn. intros [H | [H | []]]; [contradiction |].
        apply Hnot. left. symmetry. exact H.
      * apply IH. intros H. apply Hnot. right. exact H.
Qed.

Lemma toggle_twice (value : string) (prev : list string) :
  ~ In value prev -> toggle value (toggle value prev) = prev.
Proof.
  intros Hnot. unfold toggle at 2.
  destruct (includesValue prev value) eqn:Hinc.
  { apply includesValue_In in Hinc. contradiction. }
  unfold toggle.
  assert (Hin : includesValue (prev ++ [value]) value = true).
  { apply includesValue_In, in_app_iff. right. left. reflexivity. }
  rewrite Hin, filter_app. cbn. rewrite String.eqb_refl. cbn.
  rewrite app_nil_r. clear Hinc Hin.
  induction prev as [| x l IH]; cbn; [reflexivity |].
  destruct (x =? value) eqn:E.
  - apply String.eqb_eq in E. exfalso. apply Hnot. left. exact E.
  - cbn. rewrite IH; [reflexivity |]. intros H. apply Hnot. right. exact H.
Qed.

(** X5.  In multiple mode a click on a pill that is enabled and not yet
    submitted sends nothing and toggles that value only: the value is
    selected afterwards exactly when it was not before, every other value
    is selected as before, a selection without duplicates stays without
    duplicates, and a second click on a value that was not selected gives
    the first selection back. *)
Theorem pill_click_toggles_one_value (value : string) (pills : Pills) :
  isSubmitted pills = false ->
  let clicked := handlePillClick false (Some multiple) value pills in
  snd clicked = None /\
  isSubmitted (fst clicked) = false /\
  (In value (selectedValues (fst clicked)) <-> ~ In value (selectedValues pills)) /\
  (forall other, other <> value ->
     (In other (selectedValues (fst clicked)) <-> In other (selectedValues pills))) /\
  (NoDup (selectedValues pills) -> NoDup (selectedValues (fst clicked))) /\
  (~ In value (selectedValues pills) ->
   selectedValues
     (fst (handlePillClick false (Some multiple) value (fst clicked)))
   = selectedValues pills).
Proof.
  intros Hsub. unfold handlePillClick. rewrite Hsub. cbn.
  rewrite ?Hsub. cbn.
  split; [reflexivity |]. split; [reflexivity |].
  split; [apply In_toggle_self |].
  split; [intros other Hneq; apply In_toggle_other; exact Hneq |].
  split; [apply NoDup_toggle | apply toggle_twice].
Qed.

Lemma pill_click_toggles_one_value_witness :
  selectedValues
    (fst (handlePillClick false (Some multiple) "sports"
            {| selectedValues := ["technology"]; isSubmitted := false |}))
  = ["technology"; "sports"] /\
  NoDup (selectedValues
           (fst (handlePillClick false (Some multiple) "sports"
                   {| selectedValues := ["technology"]; isSubmitted := false |}))).
Proof.
  split; [reflexivity |].
  destruct (@pill_click_toggles_one_value "sports"
              {| selectedValues := ["technology"]; isSubmitted := false |}
              eq_refl) as (_ & _ & _ & _ & Hnodup & _).
  apply Hnodup. repeat constructor; cbn; intuition discriminate.
Defined.

Lemma click_submitted (selectionType : option SelectionType)
    (options : list QuickReplyOption) (disabled : bool) (control : Control)
    (pills : Pills) :
  isSubmitted pills = true ->
  click selectionType options disabled control pills = (pills, None).
Proof. intros H. unfold click, enabled. rewrite H. reflexivity. Qed.

Lemma clicks_submitted (selectionType : option SelectionType)
    (options : list QuickReplyOption) (steps : list (bool * Control))
    (pills : Pills) :
  isSubmitted pills = true ->
  clicks selectionType options steps pills = (pills, []).
Proof.
  intros H. induction steps as [| [disabled control] rest IH]; cbn [clicks].
  - reflexivity.
  - rewrite (click_submitted selectionType options disabled control pills H).
    rewrite IH. reflexivity.
Qed.

(** A click that sends leaves the pills submitted, and what it sends is
    the selection it leaves, joined by commas. *)
Lemma click_sends (selectionType : option SelectionType)
    (options : list QuickReplyOption) (disabled : bool) (control : Control)
    (pills : Pills) (sent : string) :
  snd (click selectionType options disabled control pills) = Some sent ->
  let after := fst (click selectionType options disabled control pills) in
  isSubmitted after = true /\
  selectedValues after <> [] /\
  sent = JsString.join "," (selectedValues after).
Proof.
  cbn zeta. unfold click.
  destruct (enabled disabled selectionType options pills control);
    [| discriminate].
  destruct control as [v |].
  - unfold handlePillClick.
    destruct (disabled || isSubmitted pills); [discriminate |].
    destruct (nullish selectionType single); cbn; [| discriminate].
    intros H. injection H as <-.
    split; [reflexivity |]. split; [discriminate | reflexivity].
  - unfold handleDoneClick.
    destruct (selectedValues pills) as [| v vs] eqn:Hsel;
      cbn [length Nat.ltb Nat.leb fst snd selectedValues isSubmitted];
      [discriminate |].
    intros H. injection H as <-.
    split; [reflexivity |]. split; [discriminate | reflexivity].
Qed.

(** X6.  Through the buttons the component renders, a selection is sent
    at most once, whatever is clicked and in whatever order, in single
    and in multiple mode and whatever the [disabled] prop is at each
    click: submitted pills have no button left; what was sent is the
    selection as it stays on the page, joined by commas, and the pills
    are submitted from then on.  The guard of the Done button is in what
    is rendered: its handler alone, called on pills with a selection,
    sends whether they are submitted or not. *)
Theorem submitted_pills_send_nothing_more
    (selectionType : option SelectionType) (options : list QuickReplyOption)
    (steps : list (bool * Control)) (pills : Pills) :
  let result := clicks selectionType options steps pills in
  length (snd result) <= 1 /\
  (isSubmitted pills = true -> result = (pills, [])) /\
  (forall sent,
      snd result = [sent] ->
      isSubmitted (fst result) = true /\
      selectedValues (fst result) <> [] /\
      sent = JsString.join "," (selectedValues (fst result))) /\
  (forall submitted,
      selectedValues submitted <> [] ->
      snd (handleDoneClick submitted)
      = Some (JsString.join "," (selectedValues submitted))).
Proof.
  cbn zeta.
  split; [| split; [apply clicks_submitted | split]].
  - revert pills.
    induction steps as [| [disabled control] rest IH]; intros pills;
      cbn [clicks]; [cbn; lia |].
    destruct (click selectionType options disabled control pills)
      as [after [sent |]] eqn:Hclick.
    + destruct (@click_sends selectionType options disabled control pills sent)
        as (Hsub & _); [rewrite Hclick; reflexivity |].
      rewrite Hclick in Hsub. cbn [fst] in Hsub.
      rewrite (clicks_submitted selectionType options rest after Hsub).
      cbn. lia.
    + specialize (IH after).
      destruct (clicks selectionType options rest after) as [final more].
      exact IH.
  - revert pills.
    induction steps as [| [disabled control] rest IH]; intros pills sent;
      cbn [clicks]; [cbn; discriminate |].
    destruct (click selectionType options disabled control pills)
      as [after [v |]] eqn:Hclick.
    + destruct (@click_sends selectionType options disabled control pills v)
        as (Hsub & Hne & Hjoin); [rewrite Hclick; reflexivity |].
      rewrite Hclick in Hsub, Hne, Hjoin. cbn [fst] in Hsub, Hne, Hjoin.
      rewrite (clicks_submitted selectionType options rest after Hsub).
      cbn [fst snd]. intros H. injection H as <-.
      split; [exact Hsub |]. split; [exact Hne | exact Hjoin].
    + specialize (IH after sent).
      destruct (clicks selectionType options rest after) as [final more].
      exact IH.
  - intros submitted Hne. unfold handleDoneClick.
    destruct (selectedValues submitted) as [| v vs]; [contradiction |].
    reflexivity.
Qed.

(** Two topics are ticked, Done is clicked twice and a third topic is
    clicked afterwards: the two topics are sent, once. *)
Lemma submitted_pills_send_nothing_more_witness :
  let options :=
    [ {| label := "Technology"; value := "technology" |};
      {| label := "Sports"; value := "sports" |};
      {| label := "Science"; value := "science" |} ] in
  let steps :=
    [ (false, PillButton "technology"); (false, DoneButton);
      (false, DoneButton); (false, PillButton "sports") ] in
  let start := {| selectedValues := ["science"]; isSubmitted := false |} in
  clicks (Some multiple) options steps start
  = ({| selectedValues := ["science"; "technology"]; isSubmitted := true |},
     ["science,technology"]) /\
  length (snd (clicks (Some multiple) options steps start)) <= 1 /\
  isSubmitted (fst (clicks (Some multiple) options steps start)) = true.
Proof.
  cbn zeta. split; [reflexivity |].
  destruct (submitted_pills_send_nothing_more (Some multiple)
              [ {| label := "Technology"; value := "technology" |};
                {| label := "Sports"; value := "sports" |};
                {| label := "Science"; value := "science" |} ]
              [ (false, PillButton "technology"); (false, DoneButton);
                (false, DoneButton); (false, PillButton "sports") ]
              {| selectedValues := ["science"]; isSubmitted := false |})
    as (Honce & _ & Hsent & _).
  split; [exact Honce |].
  destruct (Hsent "science,technology" eq_refl) as (Hsub & _). exact Hsub.
Defined.

(** The two initial states side by side *)
Lemma initial_pills_cases (preferenceType : option string)
    (preferences : PreferencesValue) :
  let selection := initialSelectedValues preferenceType preferences in
  let submitted := initialIsSubmitted preferenceType preferences in
  (exists v, selection = truthyList v /\ submitted = truthy v) \/
  (exists chosen,
      value_topics preferences = TopicsArray chosen /\
      selection = chosen /\ submitted = Nat.ltb 0 (length chosen)) \/
  (exists text,
      preferenceType = Some "topics" /\
      value_topics preferences = TopicsString text /\
      selection = map JsString.trim (JsString.split "," text) /\
      submitted = Nat.ltb 0 (String.length (JsString.trim text))).
Proof.
  cbn zeta. unfold initialSelectedValues, initialIsSubmitted.
  destruct preferenceType as [type |];
    [| left; exists None; split; reflexivity].
  destruct (type =? ""); [left; exists None; split; reflexivity |].
  destruct (type =? "tone"); [left; eexists; split; reflexivity |].
  destruct (type =? "format"); [left; eexists; split; reflexivity |].
  destruct (type =? "language"); [left; eexists; split; reflexivity |].
  destruct (type =? "interaction_style");
    [left; eexists; split; reflexivity |].
  destruct (type =? "topics") eqn:E;
    [| left; exists None; split; reflexivity].
  apply String.eqb_eq in E. subst type.
  destruct (value_topics preferences) as [chosen | text |].
  - right. left. exists chosen. repeat split.
  - right. right. exists text. repeat split.
  - left. exists None. split; reflexivity.
Qed.

Lemma trimStart_blank (s : string) :
  JsString.trimStart s = "" -> JsString.includes "," s = false.
Proof.
  induction s as [| c t IH];
    cbn [JsString.trimStart JsString.includes]; [reflexivity |].
  destruct (JsString.is_space c) eqn:Hc; [| discriminate].
  intros H. rewrite (IH H), orb_false_r.
  destruct (Ascii.eqb "," c) eqn:E; [| reflexivity].
  apply Ascii.eqb_eq in E. subst c. discriminate.
Qed.

(** A text that [trim] empties is white space only: it holds no comma. *)
Lemma trim_blank (s : string) :
  JsString.trim s = "" -> JsString.includes "," s = false.
Proof.
  unfold JsString.trim. intros H. apply trimStart_blank.
  pose proof (trimStart_head s) as Hhead.
  destruct (JsString.trimStart s) as [| c t]; [reflexivity |].
  destruct (@trimEnd_keeps_head c t Hhead) as [t' Ht].
  rewrite Ht in H. discriminate.
Qed.

(** X7.  The pills under a preference question come up submitted exactly
    when the stored preferences already hold an answer for that
    preference type (then the answer is the initial selection and, being
    submitted, the pills have no button and send nothing); for no type,
    an unknown type or an unanswered preference they come up empty and
    open.  There is one exception, in the provision for topics stored as
    a comma-separated string: for a string of white space only (the
    empty string too) the pills come up open, and with one selected
    value, the empty text.  (The stored string is of ASCII characters,
    on which [trim] is that of this model.) *)
Theorem pills_start_submitted_iff_answered (preferenceType : option string)
    (preferences : PreferencesValue) :
  (forall text,
      value_topics preferences = TopicsString text -> isAscii text = true) ->
  let selection := initialSelectedValues preferenceType preferences in
  let submitted := initialIsSubmitted preferenceType preferences in
  (submitted = true -> selection <> []) /\
  ((forall text,
       preferenceType = Some "topics" ->
       value_topics preferences = TopicsString text ->
       JsString.trim text <> "") ->
   submitted = negb (Nat.eqb (length selection) 0)) /\
  (forall text,
      preferenceType = Some "topics" ->
      value_topics preferences = TopicsString text ->
      JsString.trim text = "" ->
      submitted = false /\ selection = [""]) /\
  (submitted = true ->
   forall selectionType options steps,
     clicks selectionType options steps
       {| selectedValues := selection; isSubmitted := submitted |}
     = ({| selectedValues := selection; isSubmitted := submitted |}, [])).
Proof.
  intros _. cbn zeta.
  assert (Htruthy : forall v,
             truthy v = negb (Nat.eqb (length (truthyList v)) 0)).
  { intros [text |]; cbn; [| reflexivity]. destruct (text =? ""); reflexivity. }
  assert (Hsplit : forall text,
             length (map JsString.trim (JsString.split "," text)) <> 0).
  { intros text. rewrite length_map.
    pose proof (split_nonempty "," text) as Hne.
    destruct (JsString.split "," text); [contradiction | discriminate]. }
  pose proof (initial_pills_cases preferenceType preferences) as Hcases.
  cbn zeta in Hcases.
  split; [| split; [| split]].
  - intros Hsub Hnil.
    destruct Hcases as [(v & Hsel & Hs) | [(chosen & _ & Hsel & Hs)
                                          | (text & _ & _ & Hsel & _)]].
    + rewrite Hs, Htruthy, <- Hsel, Hnil in Hsub. discriminate.
    + rewrite Hs, <- Hsel, Hnil in Hsub. discriminate.
    + apply (Hsplit text). rewrite <- Hsel, Hnil. reflexivity.
  - intros Hfilled.
    destruct Hcases as [(v & Hsel & Hs) | [(chosen & _ & Hsel & Hs)
                                          | (text & Htype & Htopics & Hsel & Hs)]].
    + rewrite Hs, Hsel. apply Htruthy.
    + rewrite Hs, Hsel. destruct chosen; reflexivity.
    + rewrite Hs, Hsel. specialize (Hfilled text Htype Htopics).
      pose proof (Hsplit text) as Hlen.
      destruct (JsString.trim text); [contradiction |].
      destruct (length (map JsString.trim (JsString.split "," text)));
        [contradiction | reflexivity].
  - intros text Htype Htopics Hblank.
    destruct Hcases as [(v & Hsel & Hs) | [(chosen & Harray & _)
                                          | (text' & _ & Htopics' & Hsel & Hs)]].
    + subst preferenceType.
      unfold initialIsSubmitted, initialSelectedValues.
      cbn. rewrite Htopics, Hblank.
      rewrite (split_without "," text (trim_blank text Hblank)).
      cbn. rewrite Hblank. split; reflexivity.
    + rewrite Htopics in Harray. discriminate.
    + rewrite Htopics in Htopics'. injection Htopics' as <-.
      rewrite Hs, Hsel, Hblank.
      rewrite (split_without "," text (trim_blank text Hblank)).
      cbn. rewrite Hblank. split; reflexivity.
  - intros Hsub selectionType options steps.
    apply clicks_submitted. exact Hsub.
Qed.

(** Topics stored as an array with one topic: the pills come up
    submitted and ignore the clicks.  Topics stored as a string of one
    space: the pills come up open, with the empty text selected. *)
Lemma pills_start_submitted_iff_answered_witness :
  let answered :=
    preferencesValue
      {| tone := None; format := None; language := None;
         interaction_style := None; topics := Some ["science"] |} in
  let blank :=
    {| value_tone := None; value_format := None; value_language := None;
       value_interaction_style := None; value_topics := TopicsString " " |} in
  initialIsSubmitted (Some "topics") answered = true /\
  clicks (Some multiple) [ {| label := "Sports"; value := "sports" |} ]
    [ (false, PillButton "sports"); (false, DoneButton) ]
    {| selectedValues := initialSelectedValues (Some "topics") answered;
       isSubmitted := initialIsSubmitted (Some "topics") answered |}
  = ({| selectedValues := ["science"]; isSubmitted := true |}, []) /\
  initialIsSubmitted (Some "topics") blank = false /\
  initialSelectedValues (Some "topics") blank = [""].
Proof.
  cbn zeta. split; [reflexivity |].
  split.
  - destruct (@pills_start_submitted_iff_answered (Some "topics")
                (preferencesValue
                   {| tone := None; format := None; language := None;
                      interaction_style := None; topics := Some ["science"] |}))
      as (_ & _ & _ & H).
    + intros text Htext. discriminate Htext.
    + apply (H eq_refl (Some multiple)
               [ {| label := "Sports"; value := "sports" |} ]
               [ (false, PillButton "sports"); (false, DoneButton) ]).
  - destruct (@pills_start_submitted_iff_answered (Some "topics")
                {| value_tone := None; value_format := None;
                   value_language := None; value_interaction_style := None;
                   value_topics := TopicsString " " |})
      as (_ & _ & H & _).
    + intros text Htext. injection Htext as <-. reflexivity.
    + apply (H " " eq_refl eq_refl eq_refl).
Defined.

(** ** The message input *)

(** X8.  Submitting the input box sends nothing when the text is empty or
    only white space, or when the box is loading or disabled, and then
    the text stays; otherwise it sends the trimmed text, which is not
    empty and which trimming leaves as it is.  The Send button is enabled
    exactly when a submit would send.  (The text is of ASCII characters,
    on which [trim] is that of this model.) *)
Theorem submit_sends_trimmed_text_or_nothing {A} (onSend : string -> M A)
    (isLoading : bool) (disabled : option bool) (input : string) (s : Session) :
  isAscii input = true ->
  let blocked :=
    (JsString.trim input =? "") || isLoading || nullish disabled false in
  canSubmit isLoading disabled input = negb blocked /\
  (blocked = true ->
   handleSubmit onSend isLoading disabled input s = (input, s)) /\
  (blocked = false ->
   snd (handleSubmit onSend isLoading disabled input s)
   = snd (onSend (JsString.trim input) s) /\
   JsString.trim input <> "" /\
   JsString.trim (JsString.trim input) = JsString.trim input).
Proof.
  intros _. cbn zeta. split.
  { unfold canSubmit.
    destruct (JsString.trim input =? ""), isLoading, (nullish disabled false);
      reflexivity. }
  unfold handleSubmit. split; intros Hblocked; rewrite Hblocked.
  - reflexivity.
  - split.
    + destruct (onSend (JsString.trim input) s) as [[a | err] s']; reflexivity.
    + split; [| apply trim_idempotent].
      apply orb_false_iff in Hblocked. destruct Hblocked as [Hb _].
      apply orb_false_iff in Hb. destruct Hb as [Hempty _].
      apply String.eqb_neq. exact Hempty.
Qed.

Lemma submit_sends_trimmed_text_or_nothing_witness :
  isAscii "   " = true /\
  isAscii " hi " = true /\
  handleSubmit (sendMessage Fixtures.parse
                  (Fixtures.envWith Fixtures.offline (Fixtures.streamOf [] Done)))
    false None "   " (initialSession [])
  = ("   ", initialSession []) /\
  snd (handleSubmit (sendMessage Fixtures.parse
                       (Fixtures.envWith Fixtures.offline
                          (Fixtures.streamOf [] Done)))
         false None " hi " (initialSession []))
  = snd (sendMessage Fixtures.parse
           (Fixtures.envWith Fixtures.offline (Fixtures.streamOf [] Done))
           "hi" (initialSession [])).
Proof.
  split; [reflexivity |]. split; [reflexivity |].
  split.
  - destruct (submit_sends_trimmed_text_or_nothing
                (sendMessage Fixtures.parse
                   (Fixtures.envWith Fixtures.offline (Fixtures.streamOf [] Done)))
                false None "   " (initialSession []) eq_refl)
      as (_ & Hblocked & _).
    apply Hblocked. reflexivity.
  - destruct (submit_sends_trimmed_text_or_nothing
                (sendMessage Fixtures.parse
                   (Fixtures.envWith Fixtures.offline (Fixtures.streamOf [] Done)))
                false None " hi " (initialSession []) eq_refl)
      as (_ & _ & Hsent).
    apply Hsent. reflexivity.
Defined.



(** ** The network status *)

(** X10.  For a status computed by the hook the factor 3 is never used: a
    connection reported as slow-2g or 2g is flagged slow, and the slow
    flag is looked at first and gives twice the base timeout; so the
    recommended timeout is at most twice the base timeout, and on a
    slow-2g connection it is twice the base, not three times. *)
Theorem hook_status_never_triples (onLine : bool)
    (connection : option Connection) (operation : Operation) :
  let ns := updateNetworkStatus onLine connection in
  (getRecommendedTimeout ns operation <= 2 * baseTimeouts operation)%Q /\
  (forall c,
      connection = Some c ->
      connection_effectiveType c = Some "slow-2g" ->
      onLine = true ->
      isSlowConnection ns = true /\
      getRecommendedTimeout ns operation = (baseTimeouts operation * 2)%Q).
Proof.
  cbn zeta. split.
  - unfold getRecommendedTimeout, updateNetworkStatus. cbn.
    assert (Hbase : (0 < baseTimeouts operation)%Q)
      by (destruct operation; reflexivity).
    destruct onLine; cbn [negb]; [| lra].
    destruct connection as [c |].
    + unfold effectiveTypeIs.
      destruct (connection_effectiveType c) as [text |]; cbn.
      * destruct (text =? "slow-2g") eqn:E1; cbn; [lra |].
        destruct (text =? "2g") eqn:E2; cbn; [lra |].
        destruct (text =? "") eqn:E0.
        -- cbn. lra.
        -- rewrite E1, E2. destruct (text =? "3g"); lra.
      * lra.
    + cbn. lra.
  - intros c -> Heff ->.
    unfold getRecommendedTimeout, updateNetworkStatus, effectiveTypeIs. cbn.
    rewrite Heff. cbn. split; reflexivity.
Qed.

Lemma hook_status_never_triples_witness :
  getRecommendedTimeout
    (updateNetworkStatus true
       (Some {| connection_type := Some "cellular";
                connection_effectiveType := Some "slow-2g" |}))
    api
  = (30000 * 2)%Q.
Proof.
  destruct (hook_status_never_triples true
              (Some {| connection_type := Some "cellular";
                       connection_effectiveType := Some "slow-2g" |}) api)
    as [_ H].
  destruct (H _ eq_refl eq_refl eq_refl) as [_ Ht]. exact Ht.
Defined.

(** X11.  The recommended timeout is zero exactly when the status is
    offline, and then every operation is to be delayed; online it is at
    least the base timeout of the operation, so at least 30 seconds, and
    the api and general operations are never delayed. *)
Theorem zero_timeout_only_offline (ns : NetworkStatus) (operation : Operation) :
  ((getRecommendedTimeout ns operation == 0)%Q <-> isOnline ns = false) /\
  (isOnline ns = false -> shouldDelay ns operation = true) /\
  (isOnline ns = true ->
   (30000 <= baseTimeouts operation)%Q /\
   (baseTimeouts operation <= getRecommendedTimeout ns operation)%Q /\
   shouldDelay ns api = false /\
   shouldDelay ns general = false).
Proof.
  assert (Hbase : (30000 <= baseTimeouts operation)%Q)
    by (destruct operation; cbn; lra).
  assert (Hon : isOnline ns = true ->
                (baseTimeouts operation <= getRecommendedTimeout ns operation)%Q).
  { intros H. unfold getRecommendedTimeout. rewrite H. cbn [negb].
    destruct (isSlowConnection ns); [lra |].
    repeat match goal with
           | |- context [if ?b then _ else _] => destruct b; [lra |]
           end.
    lra. }
  split; [| split].
  - split.
    + intros Hzero. destruct (isOnline ns) eqn:E; [| reflexivity].
      specialize (Hon eq_refl). lra.
    + intros H. unfold getRecommendedTimeout. rewrite H. reflexivity.
  - intros H. unfold shouldDelay. rewrite H. reflexivity.
  - intros H. split; [exact Hbase |]. split; [apply Hon; exact H |].
    unfold shouldDelay. rewrite H. cbn. destruct (isSlowConnection ns); split; reflexivity.
Qed.

Lemma zero_timeout_only_offline_witness :
  shouldDelay Fixtures.offline upload = true /\
  (30000 <= getRecommendedTimeout Fixtures.online api)%Q.
Proof.
  destruct (zero_timeout_only_offline Fixtures.offline upload) as (_ & Hoff & _).
  destruct (zero_timeout_only_offline Fixtures.online api) as (_ & _ & Hon).
  split; [apply Hoff; reflexivity |].
  destruct (Hon eq_refl) as (Hbase & Hle & _).
  apply (Qle_trans _ _ _ Hbase Hle).
Defined.

(** ** The effects of one call *)

Section CallEffects.

Variable JSON_parse : string -> option Parsed.
Variable env : Env.

Local Abbreviation sendMessage := (sendMessage JSON_parse env).

Lemma recover_trace (err : Thrown) (s : Session) :
  trace (snd (recover err s)) = (trace s ++ consolePart err)%list.
Proof.
  rewrite recover_run. unfold consolePart.
  destruct (isAbort err); cbn; [rewrite app_nil_r |]; reflexivity.
Qed.

Lemma cleanup_trace (s : Session) : trace (cleanup s) = trace s.
Proof. reflexivity. Qed.

Lemma entered_trace (content : string) (s : Session) :
  trace (entered env content s) = (trace s ++ abortPart s)%list.
Proof.
  unfold entered. rewrite resetForSend_run. cbn [snd].
  match goal with
  | |- context [addUserMessage env content ?st] =>
      destruct (addUserMessage_run env content st) as (_ & _ & _ & Ht);
      rewrite Ht
  end.
  unfold abortPart. destruct (abortControllerRef s); cbn;
    [| rewrite app_nil_r]; reflexivity.
Qed.

(** The trace of the [try] block: offline nothing; online the timer and
    the request, and after a response the timer is cleared and only
    preference updates follow. *)
Lemma request_trace (content : string) (s : Session) :
  exists updates,
    forallb isPreferencesUpdate updates = true /\
    trace (snd (request JSON_parse env content s))
    = (trace s
       ++ if isOnline (networkStatus env) then
            SetTimeout (getRecommendedTimeout (networkStatus env) api)
            :: Fetch (requestOf env content)
            :: match fetch env with
               | FetchRejects _ => []
               | FetchResolves _ => ClearTimeout :: updates
               end
          else [])%list.
Proof.
  unfold request, bind, requestOf.
  destruct (isOnline (networkStatus env)); cbn [negb].
  2:{ exists []. cbn. rewrite app_nil_r. split; reflexivity. }
  cbn [modify emit].
  destruct (fetch env) as [err | response]; cbn [throw ret emit modify].
  { exists []. cbn. rewrite <- app_assoc. split; reflexivity. }
  destruct (ok response); cbn [negb throw].
  - destruct (body response) as [reader |]; cbn [throw].
    + match goal with
      | |- context [readLoop JSON_parse env ?p ?f ?a ?st] =>
          destruct (readLoop_frame JSON_parse env p f a st)
            as [_ _ _ _ _ [ups [Ht Hups]]];
          exists ups; rewrite Ht
      end.
      split; [exact Hups |]. cbn. rewrite <- !app_assoc. reflexivity.
    + exists []. cbn. rewrite <- !app_assoc. split; reflexivity.
  - exists []. cbn. rewrite <- !app_assoc. split; reflexivity.
Qed.

Lemma updates_are_quiet (updates : list Effect) :
  forallb isPreferencesUpdate updates = true ->
  filter isFetch updates = [] /\
  forallb (fun e => negb (isAbortEffect e)) updates = true.
Proof.
  induction updates as [| e rest IH]; cbn; [split; reflexivity |].
  intros H. apply andb_true_iff in H. destruct H as [He Hrest].
  destruct (IH Hrest) as [Hf Ha].
  destruct e; try discriminate. cbn. split; assumption.
Qed.

(** What one call adds to the trace: first the abort of the controller
    that was installed, then effects among which there is no abort and,
    when the status is online, exactly one request. *)
Lemma sendMessage_effects (content : string) (s : Session) :
  exists rest,
    trace (snd (sendMessage content s))
    = (trace s ++ abortPart s ++ rest)%list /\
    filter isFetch rest
    = (if isOnline (networkStatus env)
       then [Fetch (requestOf env content)] else []) /\
    forallb (fun e => negb (isAbortEffect e)) rest = true.
Proof.
  rewrite sendMessage_unfold. cbn zeta. fold (entered env content s).
  destruct (request_trace content (entered env content s))
    as (updates & Hups & Htrace).
  destruct (updates_are_quiet updates Hups) as [Hfetch Habort].
  rewrite entered_trace in Htrace.
  set (requestPart :=
         if isOnline (networkStatus env) then
           SetTimeout (getRecommendedTimeout (networkStatus env) api)
           :: Fetch (requestOf env content)
           :: match fetch env with
              | FetchRejects _ => []
              | FetchResolves _ => ClearTimeout :: updates
              end
         else []) in *.
  assert (Hpart :
            filter isFetch requestPart
            = (if isOnline (networkStatus env)
               then [Fetch (requestOf env content)] else []) /\
            forallb (fun e => negb (isAbortEffect e)) requestPart = true).
  { unfold requestPart. destruct (isOnline (networkStatus env));
      [| split; reflexivity].
    destruct (fetch env); cbn; [split; reflexivity |].
    rewrite Hfetch, Habort. split; reflexivity. }
  destruct Hpart as [Hpf Hpa].
  destruct (request JSON_parse env content (entered env content s))
    as [[u | err] s3]; cbn [fst snd] in *.
  - exists requestPart. rewrite cleanup_trace, Htrace, <- app_assoc.
    split; [reflexivity | split; assumption].
  - exists (requestPart ++ consolePart err)%list.
    rewrite cleanup_trace, recover_trace, Htrace, <- !app_assoc.
    split; [reflexivity |].
    rewrite filter_app, forallb_app, Hpf, Hpa.
    unfold consolePart. destruct (isAbort err); cbn;
      rewrite ?app_nil_r; split; reflexivity.
Qed.

(** X12.  A call made while the status is online issues exactly one
    request, and the request carries the content as it was passed in, the
    conversation id and the preferences; the log shows the formatted text
    instead.  (Offline it issues none.) *)
Theorem online_call_requests_once (content : string) (s : Session) :
  filter isFetch (trace (snd (sendMessage content s)))
  = (filter isFetch (trace s)
     ++ if isOnline (networkStatus env)
        then [Fetch {| request_message := content;
                       request_conversation_id := conversationId env;
                       request_preferences := preferences env |}]
        else [])%list.
Proof.
  destruct (sendMessage_effects content s) as (rest & Htrace & Hfetch & _).
  rewrite Htrace, !filter_app, Hfetch.
  unfold abortPart. destruct (abortControllerRef s); reflexivity.
Qed.

End CallEffects.

(** X13.  Two calls one after the other: the first leaves no controller
    behind, so the second aborts nothing, whatever the two calls do and
    however the first one ended.  (A call aborts only the controller it
    finds installed when it starts.) *)
Theorem finished_call_is_never_aborted (JSON_parse : string -> option Parsed)
    (env1 env2 : Env) (first second : string) (s : Session) :
  let s1 := snd (sendMessage JSON_parse env1 first s) in
  let s2 := snd (sendMessage JSON_parse env2 second s1) in
  abortControllerRef s1 = None /\
  exists added,
    trace s2 = (trace s1 ++ added)%list /\
    forallb (fun e => negb (isAbortEffect e)) added = true.
Proof.
  cbn zeta.
  assert (Hnone : abortControllerRef (snd (sendMessage JSON_parse env1 first s))
                  = None).
  { rewrite sendMessage_unfold. cbn zeta.
    destruct (request JSON_parse env1 first _) as [[u | err] s3]; reflexivity. }
  split; [exact Hnone |].
  destruct (sendMessage_effects JSON_parse env2 second
              (snd (sendMessage JSON_parse env1 first s)))
    as (rest & Htrace & _ & Hquiet).
  exists rest. split; [| exact Hquiet].
  rewrite Htrace. unfold abortPart. rewrite Hnone. reflexivity.
Qed.

(** ** Requests that fail before the stream *)

Section BeforeTheStream.

Variable JSON_parse : string -> option Parsed.
Variable env : Env.

Local Abbreviation sendMessage := (sendMessage JSON_parse env).

(** X14.  When the request itself is rejected (the network is down, or
    the request is aborted by the timer or by a later call), the timer
    set before the request is never cleared: the call adds to the trace
    the timer, the request and, unless the rejection is an abort, the
    console line, and nothing else.  An abort ends the call cancelled,
    any other rejection ends it failed with the rejection's message. *)
Theorem rejected_request_leaves_timer (content : string) (s : Session)
    (err : Thrown) :
  isOnline (networkStatus env) = true ->
  fetch env = FetchRejects err ->
  trace (snd (sendMessage content s))
  = (trace s ++ abortPart s
     ++ [SetTimeout (getRecommendedTimeout (networkStatus env) api);
         Fetch (requestOf env content)]
     ++ consolePart err)%list /\
  ~ In ClearTimeout
      ([SetTimeout (getRecommendedTimeout (networkStatus env) api);
        Fetch (requestOf env content)] ++ consolePart err) /\
  fst (sendMessage content s)
  = Ok (if isAbort err then Cancelled
        else Failed (if instanceof_Error err then message err
                     else "Failed to stream message")).
Proof.
  intros Honline Hfetch.
  rewrite sendMessage_unfold. cbn zeta. fold (entered env content s).
  pose proof (entered_trace env content s) as Hentered.
  unfold request, bind. rewrite Honline. cbn [negb modify emit].
  rewrite Hfetch. cbn [throw fst snd].
  rewrite cleanup_trace, recover_trace. cbn [trace with_effect install_controller].
  rewrite Hentered, recover_run.
  split; [| split].
  - rewrite <- !app_assoc. reflexivity.
  - unfold consolePart. destruct (isAbort err); cbn; intuition discriminate.
  - destruct (isAbort err); reflexivity.
Qed.


End BeforeTheStream.

Lemma rejected_request_leaves_timer_witness :
  trace (snd (sendMessage Fixtures.parse
                (Fixtures.envWith Fixtures.online (FetchRejects abortError))
                "hi" (initialSession [])))
  = [SetTimeout 30000%Q;
     Fetch {| request_message := "hi"; request_conversation_id := "conv-1";
              request_preferences := Fixtures.noPreferences |}].
Proof.
  destruct (@rejected_request_leaves_timer Fixtures.parse
              (Fixtures.envWith Fixtures.online (FetchRejects abortError))
              "hi" (initialSession []) abortError eq_refl eq_refl)
    as (Htrace & _).
  exact Htrace.
Defined.


(** ** Streams *)

Section Streams.

Variable JSON_parse : string -> option Parsed.
Variable env : Env.

Local Abbreviation sendMessage := (sendMessage JSON_parse env).
Local Abbreviation forLines := (forLines JSON_parse env).
Local Abbreviation forLine := (forLine JSON_parse env).
Local Abbreviation readLoop := (readLoop JSON_parse env).
Local Abbreviation chunkOf := (chunkOf JSON_parse).

(** The loop only looks at the records. *)
Lemma forLines_records (lines : list string) :
  forall acc s, forLines lines acc s = forLines (filter isRecord lines) acc s.
Proof.
  induction lines as [| line rest IH]; intros acc s; [reflexivity |].
  cbn [filter]. destruct (isRecord line) eqn:Hrec.
  - rewrite !forLines_cons. unfold bind.
    destruct (forLine line acc s) as [[acc1 | err] s1]; [apply IH | reflexivity].
  - rewrite forLines_cons. unfold bind. open_forLine.
    unfold isRecord in Hrec. rewrite Hrec. cbn. apply IH.
Qed.

Lemma filter_records_twice (lines : list string) :
  filter isRecord (filter isRecord lines) = filter isRecord lines.
Proof.
  induction lines as [| line rest IH]; [reflexivity |].
  cbn. destruct (isRecord line) eqn:E; cbn; [rewrite E, IH |]; auto.
Qed.

Lemma handleRecord_complete (line acc : string) (s : Session)
    (data : StreamData) :
  JSON_parse (JsString.slice_from 6 line) = Some (PObject data) ->
  data_type data = "complete" ->
  handleRecord JSON_parse env line acc s
  = (Ok acc,
     snd (updatePreferences (data_preferences data)
            (with_streamingMessage None
               (with_messages
                  (fun prev =>
                     (prev ++ [plainMessage assistant acc (now env (clock s))])%list)
                  (tick s))))).
Proof.
  intros Hparse Htype. open_handleRecord.
  rewrite Hparse. cbn [ret]. rewrite Htype.
  change ("complete" =? "chunk") with false.
  change ("complete" =? "complete_message") with false.
  change ("complete" =? "complete") with true.
  cbn iota. destruct (data_preferences data); reflexivity.
Qed.

(** X16.  A stream of chunk events closed by one complete event: the call
    completes; the log gains the user message (none for the sentinel) and
    one assistant message whose content is the chunks' contents in order
    and whose timestamp is read from the clock at the complete event; the
    buffer is null, no error is set, and the preferences the event
    carries, if any, are handed to the callback. *)
Theorem chunks_then_complete_make_one_message (content : string) (s : Session)
    (response : Response) (texts chunks contents : list string)
    (last : string) (data : StreamData) :
  isOnline (networkStatus env) = true ->
  fetch env = FetchResolves response ->
  ok response = true ->
  body response = Some {| reads := texts; ending := Done |} ->
  payloads texts = (chunks ++ [last])%list ->
  Forall2 chunkOf chunks contents ->
  JSON_parse last = Some (PObject data) ->
  data_type data = "complete" ->
  let shown := optimistic content (now env (clock s)) in
  fst (sendMessage content s) = Ok Completed /\
  messages (snd (sendMessage content s))
  = (messages s ++ shown
     ++ [plainMessage assistant (joined contents)
           (now env (clock s + length shown))])%list /\
  streamingMessage (snd (sendMessage content s)) = None /\
  error (snd (sendMessage content s)) = None /\
  filter isPreferencesUpdate (trace (snd (sendMessage content s)))
  = (filter isPreferencesUpdate (trace s)
     ++ match data_preferences data with
        | Some prefs => [OnPreferencesUpdate prefs]
        | None => []
        end)%list.
Proof.
  intros Honline Hfetch Hok Hbody Hpayloads Hchunks Hparse Htype. cbn zeta.
  unfold payloads in Hpayloads.
  apply map_eq_app in Hpayloads.
  destruct Hpayloads as (records & final & Hsplit & Hrecords & Hfinal).
  destruct final as [| line [| x l]]; try discriminate.
  assert (Hline : JsString.slice_from 6 line = last)
    by (cbn [map] in Hfinal; congruence).
  clear Hfinal.
  assert (Hall : filter isRecord (records ++ [line]) = (records ++ [line])%list).
  { rewrite <- Hsplit. apply filter_records_twice. }
  rewrite filter_app in Hall.
  assert (Hrec : filter isRecord records = records /\ isRecord line = true).
  { assert (Hlen : length (filter isRecord records)
                   + length (filter isRecord [line])
                   = length records + 1).
    { rewrite <- length_app, Hall, length_app. reflexivity. }
    pose proof (filter_length_le isRecord records) as Hle.
    cbn in Hlen, Hall. destruct (isRecord line).
    - split; [| reflexivity].
      apply app_inj_tail in Hall. apply Hall.
    - cbn in Hlen. lia. }
  destruct Hrec as [Hrecords_rec Hline_rec].
  rewrite sendMessage_unfold. cbn zeta. fold (entered env content s).
  assert (Hentered :
            messages (entered env content s)
            = (messages s ++ optimistic content (now env (clock s)))%list /\
            clock (entered env content s)
            = clock s + length (optimistic content (now env (clock s))) /\
            streamingMessage (entered env content s) = Some "" /\
            error (entered env content s) = None /\
            trace (entered env content s) = (trace s ++ abortPart s)%list).
  { split; [| split; [| split; [| split]]]; try apply entered_trace;
      unfold entered, addUserMessage, optimistic, bind;
      rewrite resetForSend_run;
      destruct (content =? INIT_CONVERSATION); cbn;
      rewrite ?app_nil_r, ?Nat.add_0_r, ?Nat.add_1_r;
      destruct (abortControllerRef s); reflexivity. }
  destruct Hentered as (Hm & Hclock & Hbuf & Herr & Htrace).
  unfold request, bind. rewrite Honline. cbn [negb modify emit].
  rewrite Hfetch. cbn [ret modify emit]. rewrite Hok, Hbody.
  cbn [negb reads ending].
  rewrite readLoop_flat. unfold bind.
  rewrite forLines_records, Hsplit, forLines_app. unfold bind.
  match goal with
  | |- context [forLines records "" ?st] =>
      rewrite (@forLines_chunks JSON_parse env records contents "" st);
        [| rewrite Hrecords_rec, Hrecords; exact Hchunks | exact Hbuf]
  end.
  rewrite forLines_cons. unfold bind. open_forLine.
  unfold isRecord in Hline_rec. rewrite Hline_rec.
  match goal with
  | |- context [handleRecord JSON_parse env line ?acc ?st] =>
      rewrite (@handleRecord_complete line acc st data);
        [| rewrite Hline; exact Hparse | exact Htype]
  end.
  step_forLines.
  destruct (data_preferences data) as [prefs |]; cbn;
    rewrite Hm, Hclock, Herr, Htrace, <- ?app_assoc;
    (split; [reflexivity |]); (split; [reflexivity |]);
    (split; [reflexivity |]); (split; [reflexivity |]);
    rewrite !filter_app; unfold abortPart;
    destruct (abortControllerRef s); cbn; rewrite ?app_nil_r; reflexivity.
Qed.

End Streams.

Lemma chunks_then_complete_make_one_message_witness :
  messages
    (snd (sendMessage Fixtures.parse
            (Fixtures.envWith Fixtures.online
               (Fixtures.streamOf
                  [Fixtures.record (Fixtures.chunkText "a") ++ Fixtures.lf
                   ++ Fixtures.record (Fixtures.chunkText "b") ++ Fixtures.lf;
                   Fixtures.record Fixtures.completeText ++ Fixtures.lf]
                  Done))
            "hi" (initialSession [])))
  = [plainMessage user "hi" "t0"; plainMessage assistant "ab" "t1"].
Proof.
  destruct (@chunks_then_complete_make_one_message Fixtures.parse
              (Fixtures.envWith Fixtures.online
                 (Fixtures.streamOf
                    [Fixtures.record (Fixtures.chunkText "a") ++ Fixtures.lf
                     ++ Fixtures.record (Fixtures.chunkText "b") ++ Fixtures.lf;
                     Fixtures.record Fixtures.completeText ++ Fixtures.lf]
                    Done))
              "hi" (initialSession []) _ _
              [Fixtures.chunkText "a"; Fixtures.chunkText "b"] ["a"; "b"]
              Fixtures.completeText (Fixtures.event "complete")
              eq_refl eq_refl eq_refl eq_refl eq_refl)
    as (_ & Hlog & _).
  - constructor; [| constructor; [| constructor]].
    + exists (Fixtures.chunkEvent "a"). repeat split.
    + exists (Fixtures.chunkEvent "b"). repeat split.
  - reflexivity.
  - reflexivity.
  - exact Hlog.
Defined.

(** ** What a call shows in the log *)




(** ** Lines the decoder passes over *)

Section PassedOver.

Variable JSON_parse : string -> option Parsed.
Variable env : Env.

Local Abbreviation forLines := (forLines JSON_parse env).
Local Abbreviation forLine := (forLine JSON_parse env).
Local Abbreviation readLoop := (readLoop JSON_parse env).
Local Abbreviation sendMessage := (sendMessage JSON_parse env).
Local Abbreviation passedOver := (passedOver JSON_parse).

Lemma forLine_passedOver (line acc : string) (s : Session) :
  passedOver line -> forLine line acc s = (Ok acc, s).
Proof.
  intros Hpass. open_forLine.
  destruct (JsString.startsWith line "data: ") eqn:Hrec; [| reflexivity].
  destruct Hpass as [Hnot | [Hprim | (data & Hparse & H1 & H2 & H3 & H4)]].
  - unfold isRecord in Hnot. congruence.
  - open_handleRecord. rewrite Hprim. reflexivity.
  - open_handleRecord. rewrite Hparse. cbn [ret].
    apply String.eqb_neq in H1, H2, H3, H4. rewrite H1, H2, H3, H4.
    reflexivity.
Qed.

(** X18.  Lines that are not records (blank lines, comments, the second
    half of a cut record), records with a bare number, string or boolean,
    and events of an unknown type change nothing: the stream is decoded
    as if they were not there. *)
Theorem unknown_lines_change_nothing (before after : list string)
    (line acc : string) (s : Session) :
  passedOver line ->
  forLine line acc s = (Ok acc, s) /\
  forLines (before ++ line :: after) acc s = forLines (before ++ after) acc s.
Proof.
  intros Hpass. split; [apply forLine_passedOver; exact Hpass |].
  rewrite !forLines_app. unfold bind.
  destruct (forLines before acc s) as [[acc1 | err] s1]; [| reflexivity].
  rewrite forLines_cons. unfold bind.
  rewrite (@forLine_passedOver line acc1 s1 Hpass). reflexivity.
Qed.

Lemma split_one_line (text : string) :
  JsString.includes "010" text = false -> JsString.split "010" text = [text].
Proof. apply split_without. Qed.

(** X19.  A record cut by a read boundary is lost.  When one read ends
    with the first part of a record (which does not parse) and the next
    read starts with the rest (which does not begin with the marker), the
    two reads are decoded as if they were not there, even when the two
    parts together are a well-formed event. *)
Theorem cut_record_is_lost (head tail : string) (rest : list string)
    (fin : ReadEnd) (acc : string) (s : Session) :
  JsString.includes "010" head = false ->
  JsString.includes "010" tail = false ->
  isRecord head = true ->
  JSON_parse (JsString.slice_from 6 head) = None ->
  isRecord tail = false ->
  readLoop (head :: tail :: rest) fin acc s = readLoop rest fin acc s.
Proof.
  intros Hhead Htail Hrec Hparse Hnot.
  rewrite (readLoop_flat JSON_parse env (head :: tail :: rest)).
  rewrite (readLoop_flat JSON_parse env rest).
  unfold streamLines. cbn [flat_map].
  rewrite (split_one_line head Hhead), (split_one_line tail Htail).
  cbn [app]. unfold bind.
  unfold isRecord in Hrec, Hnot.
  assert (Hlines : forall lines,
             forLines (head :: tail :: lines) acc s = forLines lines acc s).
  { intros lines. rewrite forLines_cons. unfold bind. open_forLine.
    rewrite Hrec.
    rewrite (handleRecord_syntax_error JSON_parse env head acc s Hparse).
    rewrite forLines_cons. unfold bind. open_forLine. rewrite Hnot.
    reflexivity. }
  rewrite Hlines. reflexivity.
Qed.

End PassedOver.

Lemma unknown_lines_change_nothing_witness :
  forLines Fixtures.parse
    (Fixtures.envWith Fixtures.online (Fixtures.streamOf [] Done))
    ([Fixtures.record (Fixtures.chunkText "a")]
     ++ Fixtures.record "5" :: [Fixtures.record (Fixtures.chunkText "b")])%list
    "" (initialSession [])
  = forLines Fixtures.parse
      (Fixtures.envWith Fixtures.online (Fixtures.streamOf [] Done))
      ([Fixtures.record (Fixtures.chunkText "a")]
       ++ [Fixtures.record (Fixtures.chunkText "b")])%list
      "" (initialSession []).
Proof.
  apply (@unknown_lines_change_nothing Fixtures.parse
           (Fixtures.envWith Fixtures.online (Fixtures.streamOf [] Done))
           [Fixtures.record (Fixtures.chunkText "a")]
           [Fixtures.record (Fixtures.chunkText "b")]
           (Fixtures.record "5") "" (initialSession [])).
  right. left. reflexivity.
Defined.

(** The two parts of the chunk event with content a, cut inside its type,
    decode to nothing, while the whole record puts a in the buffer. *)
Lemma cut_record_is_lost_witness :
  Fixtures.record Fixtures.truncatedText
  ++ ("nk" ++ Fixtures.q ++ "," ++ Fixtures.member "content" "a" ++ "}")
  = Fixtures.record (Fixtures.chunkText "a") /\
  readLoop Fixtures.parse
    (Fixtures.envWith Fixtures.online (Fixtures.streamOf [] Done))
    [Fixtures.record Fixtures.truncatedText;
     "nk" ++ Fixtures.q ++ "," ++ Fixtures.member "content" "a" ++ "}"]
    Done "" (initialSession [])
  = (Ok tt, initialSession []) /\
  streamingMessage
    (snd (readLoop Fixtures.parse
            (Fixtures.envWith Fixtures.online (Fixtures.streamOf [] Done))
            [Fixtures.record (Fixtures.chunkText "a")]
            Done "" (initialSession [])))
  = Some "a".
Proof.
  split; [reflexivity |]. split; [| reflexivity].
  apply (@cut_record_is_lost Fixtures.parse
           (Fixtures.envWith Fixtures.online (Fixtures.streamOf [] Done))
           (Fixtures.record Fixtures.truncatedText)
           ("nk" ++ Fixtures.q ++ "," ++ Fixtures.member "content" "a" ++ "}")
           [] Done "" (initialSession [])); reflexivity.
Defined.

(** ** Persistence *)

Lemma getItem_setItem_same (storage : Storage) (key value : string) :
  getItem (setItem storage key value) key = Some value.
Proof.
  induction storage as [| [k v] rest IH]; cbn.
  - rewrite String.eqb_refl. reflexivity.
  - destruct (k =? key) eqn:E; cbn; rewrite E; [reflexivity | exact IH].
Qed.

Lemma getItem_setItem_other (storage : Storage) (key value other : string) :
  other <> key ->
  getItem (setItem storage key value) other = getItem storage other.
Proof.
  intros Hneq. induction storage as [| [k v] rest IH]; cbn.
  - destruct (key =? other) eqn:E; [| reflexivity].
    apply String.eqb_eq in E. congruence.
  - destruct (k =? key) eqn:E; cbn.
    + apply String.eqb_eq in E. subst k.
      destruct (key =? other) eqn:E'; [| reflexivity].
      apply String.eqb_eq in E'. congruence.
    + rewrite IH. reflexivity.
Qed.

Lemma getItem_removeItem (storage : Storage) (key other : string) :
  getItem (removeItem storage key) other
  = if other =? key then None else getItem storage other.
Proof.
  unfold removeItem.
  induction storage as [| [k v] rest IH]; cbn.
  - destruct (other =? key); reflexivity.
  - destruct (k =? key) eqn:E; cbn.
    + rewrite IH. apply String.eqb_eq in E. subst k.
      rewrite (String.eqb_sym key other).
      destruct (other =? key); reflexivity.
    + destruct (k =? other) eqn:E'.
      * apply String.eqb_eq in E'. subst k. rewrite E. reflexivity.
      * exact IH.
Qed.

Lemma getItem_keys (storage : Storage) (key data : string) :
  getItem storage key = Some data -> In key (keys storage).
Proof.
  induction storage as [| [k v] rest IH]; cbn; [discriminate |].
  destruct (k =? key) eqn:E.
  - intros _. left. apply String.eqb_eq. exact E.
  - intros H. right. apply IH. exact H.
Qed.

Lemma startsWith_split (text marker : string) :
  JsString.startsWith text marker = true -> exists rest, text = marker ++ rest.
Proof.
  unfold JsString.startsWith. revert text.
  induction marker as [| a marker IH]; intros text H.
  - exists text. reflexivity.
  - destruct text as [| b text]; [discriminate |].
    rewrite prefix_cons in H. destruct (ascii_dec a b) as [-> | _]; [| discriminate].
    destruct (IH text H) as [rest ->]. exists rest. reflexivity.
Qed.

Lemma lastN_suffix {A} (n : nat) (l : list A) :
  length (lastN n l) <= n /\
  (exists older, l = (older ++ lastN n l)%list) /\
  (length l <= n -> lastN n l = l).
Proof.
  unfold lastN. split; [| split].
  - rewrite length_skipn. lia.
  - exists (firstn (length l - n) l). symmetry. apply firstn_skipn.
  - intros H. replace (length l - n) with 0 by lia. reflexivity.
Qed.

Section PersistenceProperties.

Variable JSON_parse_item : string -> option ParsedItem.
Variable JSON_parse_preferences : string -> option UserPreferences.
Variable JSON_stringify : StoredChat -> string.
Variable clearedSession : option string.

Local Abbreviation cleanupOldData :=
  (cleanupOldData JSON_parse_item clearedSession).
Local Abbreviation saveMessages := (saveMessages JSON_stringify).
Local Abbreviation recoverData :=
  (recoverData JSON_parse_item JSON_parse_preferences).
Local Abbreviation evicted := (evicted JSON_parse_item).
Local Abbreviation timestampOf := (timestampOf JSON_parse_item).
Local Abbreviation mostRecent := (mostRecent JSON_parse_item).
Local Abbreviation messagesOf := (messagesOf JSON_parse_item).

Lemma cleanupKey_get (cutoff : Z) (storage : Storage) (key other : string) :
  getItem (cleanupKey JSON_parse_item cutoff storage key) other
  = match getItem storage other with
    | Some data =>
        if (other =? key) && isChatKey other && evicted cutoff data
        then None else Some data
    | None => None
    end.
Proof.
  assert (Hsame : getItem storage other
                  = match getItem storage other with
                    | Some data =>
                        if (other =? key) && isChatKey other && evicted cutoff data
                        then None else Some data
                    | None => None
                    end ->
                  forall st', st' = storage ->
                  getItem st' other
                  = match getItem storage other with
                    | Some data =>
                        if (other =? key) && isChatKey other && evicted cutoff data
                        then None else Some data
                    | None => None
                    end).
  { intros H st' ->. exact H. }
  unfold cleanupKey. open_evicted.
  destruct (other =? key) eqn:Eo.
  - apply String.eqb_eq in Eo. subst other. cbn [andb].
    destruct (isChatKey key); cbn [andb].
    2:{ destruct (getItem storage key); reflexivity. }
    destruct (getItem storage key) as [data |] eqn:Hget; [| exact Hget].
    destruct (data =? ""); [exact Hget |].
    destruct (JSON_parse_item data) as [[| | [t |] ms] |];
      try exact Hget;
      try (rewrite getItem_removeItem, String.eqb_refl; reflexivity).
    destruct (negb (Z.eqb t 0) && Z.ltb t cutoff); [| exact Hget].
    rewrite getItem_removeItem, String.eqb_refl. reflexivity.
  - cbn [andb].
    assert (Hkeep : forall st',
               (st' = storage \/ st' = removeItem storage key) ->
               getItem st' other
               = match getItem storage other with
                 | Some data => Some data
                 | None => None
                 end).
    { intros st' [-> | ->].
      - destruct (getItem storage other); reflexivity.
      - rewrite getItem_removeItem, Eo.
        destruct (getItem storage other); reflexivity. }
    apply Hkeep.
    destruct (isChatKey key); [| left; reflexivity].
    destruct (getItem storage key) as [data |]; [| left; reflexivity].
    destruct (data =? ""); [left; reflexivity |].
    destruct (JSON_parse_item data) as [[| | [t |] ms] |];
      try (left; reflexivity); try (right; reflexivity).
    destruct (negb (Z.eqb t 0) && Z.ltb t cutoff);
      [right | left]; reflexivity.
Qed.

Lemma cleanup_fold_get (cutoff : Z) (visited : list string) :
  forall (storage : Storage) (other : string),
    getItem (fold_left (cleanupKey JSON_parse_item cutoff) visited storage) other
    = match getItem storage other with
      | Some data =>
          if existsb (String.eqb other) visited
             && isChatKey other && evicted cutoff data
          then None else Some data
      | None => None
      end.
Proof.
  induction visited as [| key rest IH]; intros storage other; cbn [fold_left].
  - cbn. destruct (getItem storage other); reflexivity.
  - rewrite IH, cleanupKey_get. cbn [existsb].
    destruct (getItem storage other) as [data |]; [| reflexivity].
    destruct (other =? key), (isChatKey other),
      (existsb (String.eqb other) rest); cbn [andb orb];
      try reflexivity;
      destruct (evicted cutoff data) eqn:E; cbn; rewrite ?E; reflexivity.
Qed.

Lemma clearSession_get (storage : Storage) (key : string) :
  getItem (clearSession clearedSession storage) key
  = if key =? sessionKey then clearedSession else getItem storage key.
Proof.
  unfold clearSession. destruct clearedSession as [text |].
  - destruct (key =? sessionKey) eqn:E.
    + apply String.eqb_eq in E. subst key. apply getItem_setItem_same.
    + apply getItem_setItem_other. apply String.eqb_neq. exact E.
  - apply getItem_removeItem.
Qed.

Lemma cleanup_get (now : Z) (sessionState : option SessionState)
    (storage : Storage) (key : string) :
  getItem (fst (cleanupOldData now sessionState storage)) key
  = if sessionExpired now sessionState && (key =? sessionKey)
    then clearedSession
    else
      match getItem storage key with
      | Some data =>
          if isChatKey key && evicted (now - sevenDays) data
          then None else Some data
      | None => None
      end.
Proof.
  assert (Hswept :
            getItem (fold_left (cleanupKey JSON_parse_item (now - sevenDays))
                       (keys storage) storage) key
            = match getItem storage key with
              | Some data =>
                  if isChatKey key && evicted (now - sevenDays) data
                  then None else Some data
              | None => None
              end).
  { rewrite cleanup_fold_get.
    destruct (getItem storage key) as [data |] eqn:Hget; [| reflexivity].
    assert (Hin : existsb (String.eqb key) (keys storage) = true).
    { apply existsb_exists. exists key. split;
        [apply (getItem_keys storage key Hget) | apply String.eqb_refl]. }
    rewrite Hin. reflexivity. }
  open_cleanupOldData. unfold sessionExpired.
  destruct sessionState as [session |]; cbn [fst andb]; [| exact Hswept].
  destruct (Z.ltb oneDay (now - lastActivity session)); cbn [fst andb];
    [| exact Hswept].
  rewrite clearSession_get.
  destruct (key =? sessionKey); [reflexivity | exact Hswept].
Qed.

(** X20.  The cleanup removes exactly the stored chats that are unreadable
    (the text does not parse, or is [null]) or older than seven days (a
    timestamp that is not zero and lies more than seven days back).
    Every other entry is afterwards what it was (the preferences, chats
    without a timestamp, chats of the last seven days), with one
    exception: when the session has been idle for more than 24 hours,
    [clearSession] is called, and the entry of the session is then what
    [clearSession] leaves under its key.  Running the cleanup again at
    the same time changes nothing more. *)
Theorem cleanup_removes_only_stale_chats (now : Z)
    (sessionState : option SessionState) (storage : Storage) (key : string) :
  let cleaned := fst (cleanupOldData now sessionState storage) in
  snd (cleanupOldData now sessionState storage)
  = sessionExpired now sessionState /\
  (sessionExpired now sessionState = false \/ key <> sessionKey ->
   getItem cleaned key
   = match getItem storage key with
     | Some data =>
         if isChatKey key && evicted (now - sevenDays) data
         then None else Some data
     | None => None
     end) /\
  (sessionExpired now sessionState = true ->
   getItem cleaned sessionKey = clearedSession) /\
  getItem (fst (cleanupOldData now sessionState cleaned)) key
  = getItem cleaned key.
Proof.
  cbn zeta. split; [| split; [| split]].
  - open_cleanupOldData. unfold sessionExpired.
    destruct sessionState as [session |]; [| reflexivity].
    destruct (Z.ltb oneDay (now - lastActivity session)); reflexivity.
  - intros Hkept. rewrite cleanup_get.
    destruct Hkept as [Hfresh | Hother].
    + rewrite Hfresh. reflexivity.
    + apply String.eqb_neq in Hother. rewrite Hother, andb_false_r.
      reflexivity.
  - intros Hexpired. rewrite cleanup_get, Hexpired. reflexivity.
  - rewrite !cleanup_get.
    destruct (sessionExpired now sessionState && (key =? sessionKey));
      [reflexivity |].
    destruct (getItem storage key) as [data |]; [| reflexivity].
    destruct (isChatKey key && evicted (now - sevenDays) data) eqn:E;
      [reflexivity | rewrite E; reflexivity].
Qed.

Lemma isChatKey_of (conversationId : string) :
  isChatKey (chatKeyPrefix ++ conversationId) = true.
Proof. unfold isChatKey, JsString.startsWith. apply prefix_append. Qed.

(** X21.  Messages saved for a conversation are recovered for it: with
    the session pointing at the conversation, [recoverData] after
    [saveMessages] returns the conversation id and the saved messages, at
    most the last hundred of them in their order (all of them when there
    are no more than a hundred), whatever else the storage holds. *)
Theorem saved_messages_are_recovered (now : Z) (session : SessionState)
    (messages : list ChatMessage) (storage : Storage) :
  let conversationId := session_conversationId session in
  let data := {| stored_conversationId := conversationId;
                 stored_messages := lastN 100 messages;
                 stored_timestamp := now |} in
  conversationId <> "" ->
  JSON_stringify data <> "" ->
  JSON_parse_item (JSON_stringify data)
  = Some (ItemObject (Some now) (Some (lastN 100 messages))) ->
  let recovered :=
    recoverData (Some session)
      (saveMessages false now conversationId messages storage) in
  recovered_conversationId recovered = Some conversationId /\
  recovered_messages recovered = lastN 100 messages /\
  length (recovered_messages recovered) <= 100 /\
  (exists older, messages = (older ++ recovered_messages recovered)%list) /\
  (length messages <= 100 -> recovered_messages recovered = messages).
Proof.
  cbn zeta. intros Hid Htext Hround.
  assert (Htruthy : truthy (Some (session_conversationId session)) = true).
  { cbn. apply negb_true_iff, String.eqb_neq. exact Hid. }
  assert (Hmessages :
            recovered_messages
              (recoverData (Some session)
                 (saveMessages false now (session_conversationId session)
                    messages storage))
            = lastN 100 messages).
  { open_recoverData. cbn [option_map recovered_messages].
    rewrite Htruthy. cbn iota. rewrite Htruthy. cbn [nullish].
    open_messagesOf. open_saveMessages.
    rewrite getItem_setItem_same.
    apply String.eqb_neq in Htext. rewrite Htext, Hround. reflexivity. }
  split.
  - open_recoverData. cbn [option_map recovered_conversationId].
    rewrite Htruthy. reflexivity.
  - rewrite Hmessages. split; [reflexivity |]. apply lastN_suffix.
Qed.

(** X22.  A saved conversation outlives the cleanup for seven days and no
    longer: a cleanup at most seven days after the save leaves the saved
    text in place, and a cleanup later than that removes it (for a save
    at a time other than zero). *)
Theorem saved_chat_lives_seven_days (saved now : Z) (conversationId : string)
    (messages : list ChatMessage) (sessionState : option SessionState)
    (storage : Storage) :
  let data := {| stored_conversationId := conversationId;
                 stored_messages := lastN 100 messages;
                 stored_timestamp := saved |} in
  let key := chatKeyPrefix ++ conversationId in
  JSON_stringify data <> "" ->
  JSON_parse_item (JSON_stringify data)
  = Some (ItemObject (Some saved) (Some (lastN 100 messages))) ->
  let cleaned :=
    fst (cleanupOldData now sessionState
           (saveMessages false saved conversationId messages storage)) in
  ((now - saved <= sevenDays)%Z ->
   getItem cleaned key = Some (JSON_stringify data)) /\
  ((sevenDays < now - saved)%Z -> saved <> 0%Z ->
   getItem cleaned key = None).
Proof.
  cbn zeta. intros Htext Hround.
  pose proof (cleanup_get now sessionState
                (saveMessages false saved conversationId messages storage)
                (chatKeyPrefix ++ conversationId)) as Hget.
  assert (Hsaved :
            getItem (saveMessages false saved conversationId messages storage)
              (chatKeyPrefix ++ conversationId)
            = Some (JSON_stringify
                      {| stored_conversationId := conversationId;
                         stored_messages := lastN 100 messages;
                         stored_timestamp := saved |})).
  { open_saveMessages. apply getItem_setItem_same. }
  rewrite Hsaved, isChatKey_of in Hget.
  assert (Hkey : (chatKeyPrefix ++ conversationId =? sessionKey) = false)
    by reflexivity.
  rewrite Hkey, andb_false_r in Hget.
  assert (Hevicted :
            evicted (now - sevenDays)
              (JSON_stringify
                 {| stored_conversationId := conversationId;
                    stored_messages := lastN 100 messages;
                    stored_timestamp := saved |})
            = negb (Z.eqb saved 0) && Z.ltb saved (now - sevenDays)).
  { open_evicted. apply String.eqb_neq in Htext. rewrite Htext, Hround.
    reflexivity. }
  rewrite Hevicted in Hget. cbn [andb] in Hget.
  split.
  - intros Hfresh. rewrite Hget.
    replace (Z.ltb saved (now - sevenDays)) with false
      by (symmetry; apply Z.ltb_ge; lia).
    rewrite andb_false_r. reflexivity.
  - intros Hstale Hnonzero. rewrite Hget.
    replace (Z.ltb saved (now - sevenDays)) with true
      by (symmetry; apply Z.ltb_lt; lia).
    replace (Z.eqb saved 0) with false
      by (symmetry; apply Z.eqb_neq; exact Hnonzero).
    reflexivity.
Qed.

Lemma scanKey_timestamp (storage : Storage) (best : string * Z) (key : string) :
  scanKey JSON_parse_item storage best key
  = match timestampOf storage key with
    | Some t => if Z.ltb (snd best) t then (key, t) else best
    | None => best
    end.
Proof.
  unfold scanKey. open_timestampOf.
  destruct (getItem storage key) as [data |]; [| reflexivity].
  destruct (data =? ""); [reflexivity |].
  destruct (JSON_parse_item data) as [[| | [t |] ms] |]; reflexivity.
Qed.

Lemma scan_fold (storage : Storage) (visited : list string) :
  forall best,
    let found := fold_left (scanKey JSON_parse_item storage) visited best in
    (snd best <= snd found)%Z /\
    (forall key t,
        In key visited -> timestampOf storage key = Some t ->
        (t <= snd found)%Z) /\
    (found = best \/
     (In (fst found) visited /\
      timestampOf storage (fst found) = Some (snd found) /\
      (snd best < snd found)%Z)).
Proof.
  induction visited as [| key rest IH]; intros best; cbn zeta; cbn [fold_left].
  - split; [lia |]. split; [intros key t [] | left; reflexivity].
  - specialize (IH (scanKey JSON_parse_item storage best key)).
    cbn zeta in IH. destruct IH as (Hle & Hall & Hfound).
    rewrite scanKey_timestamp in *.
    set (found := fold_left (scanKey JSON_parse_item storage) rest
                    match timestampOf storage key with
                    | Some t => if Z.ltb (snd best) t then (key, t) else best
                    | None => best
                    end) in *.
    destruct (timestampOf storage key) as [t |] eqn:Hkey.
    + destruct (Z.ltb (snd best) t) eqn:Hlt.
      * apply Z.ltb_lt in Hlt. cbn [snd] in Hle.
        split; [lia |]. split.
        -- intros k t' [<- | Hin] Ht'; [| apply (Hall k t' Hin Ht')].
           rewrite Hkey in Ht'. injection Ht' as <-. exact Hle.
        -- right. destruct Hfound as [-> | (Hin & Hts & Hgt)].
           ++ cbn. split; [left; reflexivity |]. split; [exact Hkey | exact Hlt].
           ++ cbn [snd] in Hgt. split; [right; exact Hin |].
              split; [exact Hts | lia].
      * apply Z.ltb_ge in Hlt.
        split; [exact Hle |]. split.
        -- intros k t' [<- | Hin] Ht'; [| apply (Hall k t' Hin Ht')].
           rewrite Hkey in Ht'. injection Ht' as <-. lia.
        -- destruct Hfound as [-> | (Hin & Hts & Hgt)]; [left; reflexivity |].
           right. split; [right; exact Hin |]. split; assumption.
    + split; [exact Hle |]. split.
      * intros k t' [<- | Hin] Ht'; [| apply (Hall k t' Hin Ht')].
        rewrite Hkey in Ht'. discriminate.
      * destruct Hfound as [-> | (Hin & Hts & Hgt)]; [left; reflexivity |].
        right. split; [right; exact Hin |]. split; assumption.
Qed.

Lemma timestampOf_keys (storage : Storage) (key : string) (t : Z) :
  timestampOf storage key = Some t -> In key (keys storage).
Proof.
  open_timestampOf.
  destruct (getItem storage key) as [data |] eqn:Hget; [| discriminate].
  intros _. apply (getItem_keys storage key Hget).
Qed.

(** X23.  Without a session, [recoverData] picks the stored chat with the
    greatest timestamp: no stored chat has a later one; the conversation
    id it returns is that chat's key without the prefix, and the messages
    are that chat's.  When no stored chat has a timestamp above zero it
    returns no conversation and no messages. *)
Theorem recovery_picks_latest_chat (storage : Storage) :
  let found := mostRecent storage in
  let recovered := recoverData None storage in
  (forall key t,
      isChatKey key = true -> timestampOf storage key = Some t ->
      (t <= snd found)%Z) /\
  (fst found = "" ->
   snd found = 0%Z /\
   recovered_conversationId recovered = None /\
   recovered_messages recovered = []) /\
  (fst found <> "" ->
   isChatKey (fst found) = true /\
   timestampOf storage (fst found) = Some (snd found) /\
   (0 < snd found)%Z /\
   exists conversationId,
     fst found = chatKeyPrefix ++ conversationId /\
     recovered_conversationId recovered = Some conversationId /\
     recovered_messages recovered
     = if conversationId =? "" then [] else messagesOf storage (fst found)).
Proof.
  cbn zeta.
  pose proof (scan_fold storage (filter isChatKey (keys storage)) ("", 0%Z))
    as Hscan.
  cbn zeta in Hscan. fold (mostRecent storage) in Hscan.
  destruct Hscan as (_ & Hall & Hfound).
  split; [| split].
  - intros key t Hchat Hts. apply (Hall key t); [| exact Hts].
    apply filter_In. split; [apply (timestampOf_keys storage key Hts) | exact Hchat].
  - intros Hempty. split.
    { destruct Hfound as [-> | (Hin & _)]; [reflexivity |].
      apply filter_In in Hin. destruct Hin as [_ Hchat].
      rewrite Hempty in Hchat. discriminate. }
    open_recoverData.
    cbn [option_map truthy recovered_conversationId recovered_messages].
    fold (mostRecent storage). rewrite Hempty. cbn. split; reflexivity.
  - intros Hkey.
    destruct Hfound as [Hinit | (Hin & Hts & Hpos)].
    { rewrite Hinit in Hkey. contradiction. }
    apply filter_In in Hin. destruct Hin as [_ Hchat].
    cbn [snd] in Hpos.
    split; [exact Hchat |]. split; [exact Hts |]. split; [exact Hpos |].
    destruct (startsWith_split (fst (mostRecent storage)) chatKeyPrefix Hchat)
      as [conversationId Hsplit].
    exists conversationId. split; [exact Hsplit |].
    open_recoverData.
    cbn [option_map truthy recovered_conversationId recovered_messages].
    fold (mostRecent storage).
    apply String.eqb_neq in Hkey. rewrite Hkey.
    rewrite Hsplit. rewrite !(replace_prefix chatKeyPrefix conversationId).
    split; [reflexivity |].
    cbn [truthy nullish].
    destruct (conversationId =? ""); reflexivity.
Qed.

End PersistenceProperties.

Lemma saved_messages_are_recovered_witness :
  recovered_messages
    (recoverData StoreFixtures.parseItem StoreFixtures.parsePreferences
       (Some StoreFixtures.session)
       (saveMessages StoreFixtures.stringify false 1000 "conv-1"
          [Fixtures.earlier] [("user_preferences", "{}")]))
  = [Fixtures.earlier].
Proof.
  destruct (@saved_messages_are_recovered StoreFixtures.parseItem
              StoreFixtures.parsePreferences StoreFixtures.stringify
              1000%Z StoreFixtures.session [Fixtures.earlier]
              [("user_preferences", "{}")])
    as (_ & _ & _ & _ & Hall).
  - discriminate.
  - discriminate.
  - reflexivity.
  - apply Hall. cbn. lia.
Defined.

Lemma saved_chat_lives_seven_days_witness :
  getItem
    (fst (cleanupOldData StoreFixtures.parseItem None (1000 + sevenDays)
            (Some StoreFixtures.session)
            (saveMessages StoreFixtures.stringify false 1000 "conv-1"
               [Fixtures.earlier] [])))
    "chat_messages_conv-1"
  = Some StoreFixtures.savedText /\
  getItem
    (fst (cleanupOldData StoreFixtures.parseItem None (1001 + sevenDays)
            (Some StoreFixtures.session)
            (saveMessages StoreFixtures.stringify false 1000 "conv-1"
               [Fixtures.earlier] [])))
    "chat_messages_conv-1"
  = None.
Proof.
  split.
  - destruct (@saved_chat_lives_seven_days StoreFixtures.parseItem
                StoreFixtures.stringify None 1000%Z (1000 + sevenDays)%Z
                "conv-1" [Fixtures.earlier] (Some StoreFixtures.session) [])
      as [Hfresh _]; [discriminate | reflexivity |].
    apply Hfresh. lia.
  - destruct (@saved_chat_lives_seven_days StoreFixtures.parseItem
                StoreFixtures.stringify None 1000%Z (1001 + sevenDays)%Z
                "conv-1" [Fixtures.earlier] (Some StoreFixtures.session) [])
      as [_ Hstale]; [discriminate | reflexivity |].
    apply Hstale; [lia | discriminate].
Defined.

(** A storage with the preferences, the entry of a session idle for
    nearly seven days, a chat saved at time 500 and a chat saved at time
    1000, cleaned at time 600 plus seven days by a hook whose
    [clearSession] removes the entry: the older chat and the session go,
    the newer chat and the preferences stay. *)
Lemma cleanup_removes_only_stale_chats_witness :
  let storage :=
    [ ("user_preferences", "{}"); ("session_state", "{}");
      ("chat_messages_conv-0", StoreFixtures.olderText);
      ("chat_messages_conv-1", StoreFixtures.savedText) ] in
  let cleaned :=
    fst (cleanupOldData StoreFixtures.parseItem None (600 + sevenDays)
           (Some StoreFixtures.session) storage) in
  sessionExpired (600 + sevenDays) (Some StoreFixtures.session) = true /\
  getItem cleaned "user_preferences" = Some "{}" /\
  getItem cleaned "chat_messages_conv-0" = None /\
  getItem cleaned "chat_messages_conv-1" = Some StoreFixtures.savedText /\
  getItem cleaned "session_state" = None.
Proof.
  cbn zeta. split; [reflexivity |].
  split; [| split; [| split]].
  - destruct (@cleanup_removes_only_stale_chats StoreFixtures.parseItem None
                (600 + sevenDays)%Z (Some StoreFixtures.session)
                [ ("user_preferences", "{}"); ("session_state", "{}");
                  ("chat_messages_conv-0", StoreFixtures.olderText);
                  ("chat_messages_conv-1", StoreFixtures.savedText) ]
                "user_preferences") as (_ & Hkept & _).
    rewrite Hkept; [reflexivity | right; discriminate].
  - destruct (@cleanup_removes_only_stale_chats StoreFixtures.parseItem None
                (600 + sevenDays)%Z (Some StoreFixtures.session)
                [ ("user_preferences", "{}"); ("session_state", "{}");
                  ("chat_messages_conv-0", StoreFixtures.olderText);
                  ("chat_messages_conv-1", StoreFixtures.savedText) ]
                "chat_messages_conv-0") as (_ & Hkept & _).
    rewrite Hkept; [reflexivity | right; discriminate].
  - destruct (@cleanup_removes_only_stale_chats StoreFixtures.parseItem None
                (600 + sevenDays)%Z (Some StoreFixtures.session)
                [ ("user_preferences", "{}"); ("session_state", "{}");
                  ("chat_messages_conv-0", StoreFixtures.olderText);
                  ("chat_messages_conv-1", StoreFixtures.savedText) ]
                "chat_messages_conv-1") as (_ & Hkept & _).
    rewrite Hkept; [reflexivity | right; discriminate].
  - destruct (@cleanup_removes_only_stale_chats StoreFixtures.parseItem None
                (600 + sevenDays)%Z (Some StoreFixtures.session)
                [ ("user_preferences", "{}"); ("session_state", "{}");
                  ("chat_messages_conv-0", StoreFixtures.olderText);
                  ("chat_messages_conv-1", StoreFixtures.savedText) ]
                "session_state") as (_ & _ & Hcleared & _).
    apply Hcleared. reflexivity.
Defined.

Lemma recovery_picks_latest_chat_witness :
  recovered_conversationId
    (recoverData StoreFixtures.parseItem StoreFixtures.parsePreferences None
       [("chat_messages_conv-0", StoreFixtures.olderText);
        ("chat_messages_conv-1", StoreFixtures.savedText)])
  = Some "conv-1" /\
  recovered_messages
    (recoverData StoreFixtures.parseItem StoreFixtures.parsePreferences None
       [("chat_messages_conv-0", StoreFixtures.olderText);
        ("chat_messages_conv-1", StoreFixtures.savedText)])
  = [Fixtures.earlier].
Proof.
  destruct (recovery_picks_latest_chat StoreFixtures.parseItem
              StoreFixtures.parsePreferences
              [("chat_messages_conv-0", StoreFixtures.olderText);
               ("chat_messages_conv-1", StoreFixtures.savedText)])
    as (_ & _ & Hfound).
  destruct Hfound as (_ & _ & _ & conversationId & Hkey & Hid & Hmessages);
    [discriminate |].
  assert (Hconv : conversationId = "conv-1").
  { change (fst (mostRecent StoreFixtures.parseItem
                   [("chat_messages_conv-0", StoreFixtures.olderText);
                    ("chat_messages_conv-1", StoreFixtures.savedText)]))
      with ("chat_messages_" ++ "conv-1") in Hkey.
    unfold chatKeyPrefix in Hkey.
    change ("chat_messages_" ++ "conv-1" = "chat_messages_" ++ conversationId)
      in Hkey.
    injection Hkey as <-. reflexivity. }
  subst conversationId. split; [exact Hid | exact Hmessages].
Defined.

(** ** A stream closed by a complete message *)

Section CompleteMessageStream.

Variable JSON_parse : string -> option Parsed.
Variable env : Env.

Local Abbreviation sendMessage := (sendMessage JSON_parse env).
Local Abbreviation forLines := (forLines JSON_parse env).
Local Abbreviation chunkOf := (chunkOf JSON_parse).

Lemma handleRecord_complete_message (line acc : string) (s : Session)
    (data : StreamData) (payload : MessagePayload) :
  JSON_parse (JsString.slice_from 6 line) = Some (PObject data) ->
  data_type data = "complete_message" ->
  data_message data = Some payload ->
  fst (handleRecord JSON_parse env line acc s) = Ok acc /\
  messages (snd (handleRecord JSON_parse env line acc s))
  = (messages s
     ++ [{| role := assistant;
            content := nullish (payload_content payload) "";
            timestamp := nullish (payload_timestamp payload) (now env (clock s));
            quick_reply_options := payload_quick_reply_options payload;
            is_preference_question := payload_is_preference_question payload;
            preference_type := payload_preference_type payload;
            selection_type := payload_selection_type payload |}])%list /\
  streamingMessage (snd (handleRecord JSON_parse env line acc s)) = None /\
  error (snd (handleRecord JSON_parse env line acc s)) = error s.
Proof.
  intros Hparse Htype Hmessage. open_handleRecord.
  rewrite Hparse. cbn [ret]. rewrite Htype.
  change ("complete_message" =? "chunk") with false.
  change ("complete_message" =? "complete_message") with true.
  cbn iota. rewrite Hmessage. cbn [optional_chain optional_chain_nullable].
  destruct (payload_timestamp payload); destruct (data_preferences data);
    cbn; repeat split.
Qed.

(** X24.  When a stream of chunk events is closed by a complete_message
    event that carries a message, the streamed text is dropped: the one
    assistant message the call appends has the content of the event's
    message (the empty string when it has none), its timestamp (the clock
    when it has none) and its quick-reply fields, whatever the chunks
    held; the buffer is null and the call completes. *)
Theorem complete_message_replaces_streamed_text (content : string)
    (s : Session) (response : Response) (texts chunks contents : list string)
    (last : string) (data : StreamData) (payload : MessagePayload) :
  isOnline (networkStatus env) = true ->
  fetch env = FetchResolves response ->
  ok response = true ->
  body response = Some {| reads := texts; ending := Done |} ->
  payloads texts = (chunks ++ [last])%list ->
  Forall2 chunkOf chunks contents ->
  JSON_parse last = Some (PObject data) ->
  data_type data = "complete_message" ->
  data_message data = Some payload ->
  let shown := optimistic content (now env (clock s)) in
  fst (sendMessage content s) = Ok Completed /\
  messages (snd (sendMessage content s))
  = (messages s ++ shown
     ++ [{| role := assistant;
            content := nullish (payload_content payload) "";
            timestamp := nullish (payload_timestamp payload)
                           (now env (clock s + length shown));
            quick_reply_options := payload_quick_reply_options payload;
            is_preference_question := payload_is_preference_question payload;
            preference_type := payload_preference_type payload;
            selection_type := payload_selection_type payload |}])%list /\
  streamingMessage (snd (sendMessage content s)) = None /\
  error (snd (sendMessage content s)) = None.
Proof.
  intros Honline Hfetch Hok Hbody Hpayloads Hchunks Hparse Htype Hmessage.
  cbn zeta.
  unfold payloads in Hpayloads.
  apply map_eq_app in Hpayloads.
  destruct Hpayloads as (records & final & Hsplit & Hrecords & Hfinal).
  destruct final as [| line [| x l]]; try discriminate.
  assert (Hline : JsString.slice_from 6 line = last)
    by (cbn [map] in Hfinal; congruence).
  clear Hfinal.
  assert (Hall : filter isRecord (records ++ [line]) = (records ++ [line])%list).
  { rewrite <- Hsplit. apply filter_records_twice. }
  rewrite filter_app in Hall.
  assert (Hrec : filter isRecord records = records /\ isRecord line = true).
  { assert (Hlen : length (filter isRecord records)
                   + length (filter isRecord [line])
                   = length records + 1).
    { rewrite <- length_app, Hall, length_app. reflexivity. }
    pose proof (filter_length_le isRecord records) as Hle.
    cbn in Hlen, Hall. destruct (isRecord line).
    - split; [| reflexivity].
      apply app_inj_tail in Hall. apply Hall.
    - cbn in Hlen. lia. }
  destruct Hrec as [Hrecords_rec Hline_rec].
  rewrite sendMessage_unfold. cbn zeta. fold (entered env content s).
  assert (Hentered :
            messages (entered env content s)
            = (messages s ++ optimistic content (now env (clock s)))%list /\
            clock (entered env content s)
            = clock s + length (optimistic content (now env (clock s))) /\
            streamingMessage (entered env content s) = Some "" /\
            error (entered env content s) = None).
  { split; [| split; [| split]];
      unfold entered, addUserMessage, optimistic, bind;
      rewrite resetForSend_run;
      destruct (content =? INIT_CONVERSATION); cbn;
      rewrite ?app_nil_r, ?Nat.add_0_r, ?Nat.add_1_r;
      destruct (abortControllerRef s); reflexivity. }
  destruct Hentered as (Hm & Hclock & Hbuf & Herr).
  unfold request, bind. rewrite Honline. cbn [negb modify emit].
  rewrite Hfetch. cbn [ret modify emit]. rewrite Hok, Hbody.
  cbn [negb reads ending].
  rewrite readLoop_flat. unfold bind.
  rewrite forLines_records, Hsplit, forLines_app. unfold bind.
  match goal with
  | |- context [forLines records "" ?st] =>
      rewrite (@forLines_chunks JSON_parse env records contents "" st);
        [| rewrite Hrecords_rec, Hrecords; exact Hchunks | exact Hbuf]
  end.
  rewrite forLines_cons. unfold bind. open_forLine.
  unfold isRecord in Hline_rec. rewrite Hline_rec.
  match goal with
  | |- context [handleRecord JSON_parse env line ?acc ?st] =>
      destruct (@handleRecord_complete_message line acc st data payload)
        as (Hok' & Hlog & Hnull & Herr');
        [rewrite Hline; exact Hparse | exact Htype | exact Hmessage |];
      destruct (handleRecord JSON_parse env line acc st) as [r st'];
      cbn [fst snd] in Hok', Hlog, Hnull, Herr'; subst r
  end.
  step_forLines. cbn [cleanup with_abortControllerRef with_isStreaming
                      messages streamingMessage error].
  cbn [messages with_streamingMessage with_effect install_controller
       clock error] in Hlog, Herr'.
  rewrite Hlog, Hnull, Herr', Hm, Hclock, Herr, <- app_assoc.
  repeat split.
Qed.

End CompleteMessageStream.

Lemma complete_message_replaces_streamed_text_witness :
  map content
    (messages
       (snd (sendMessage Fixtures.parse
               (Fixtures.envWith Fixtures.online
                  (Fixtures.streamOf
                     [Fixtures.record (Fixtures.chunkText "a") ++ Fixtures.lf;
                      Fixtures.record Fixtures.contentOnlyText ++ Fixtures.lf]
                     Done))
               "hi" (initialSession []))))
  = ["hi"; "x"].
Proof.
  destruct (@complete_message_replaces_streamed_text Fixtures.parse
              (Fixtures.envWith Fixtures.online
                 (Fixtures.streamOf
                    [Fixtures.record (Fixtures.chunkText "a") ++ Fixtures.lf;
                     Fixtures.record Fixtures.contentOnlyText ++ Fixtures.lf]
                    Done))
              "hi" (initialSession []) _ _
              [Fixtures.chunkText "a"] ["a"]
              Fixtures.contentOnlyText Fixtures.contentOnlyEvent
              {| payload_content := Some "x";
                 payload_timestamp := None;
                 payload_quick_reply_options := Undefined;
                 payload_is_preference_question := None;
                 payload_preference_type := None;
                 payload_selection_type := None |}
              eq_refl eq_refl eq_refl eq_refl eq_refl)
    as (_ & Hlog & _).
  - constructor; [| constructor].
    exists (Fixtures.chunkEvent "a"). repeat split.
  - reflexivity.
  - reflexivity.
  - reflexivity.
  - rewrite Hlog. reflexivity.
Defined.

(** ** The checklist and [isComplete] *)

Lemma join_topics_nonempty (chosen : list string) :
  JsString.join ", " chosen <> "" -> Nat.ltb 0 (length chosen) = true.
Proof. destruct chosen; [intros H; contradiction H; reflexivity | reflexivity]. Qed.

(** X25.  The checklist and [isComplete] agree up to empty topics: when
    the checklist ticks all five preferences, [isComplete] holds; and
    when [isComplete] holds, the checklist ticks all five unless the
    topics joined by commas are the empty text (a single empty topic),
    in which case the topics item stays unticked. *)
Theorem ticked_checklist_is_complete (prefs : UserPreferences) :
  (forallb ticked (checklistValues prefs) = true -> isComplete prefs = true) /\
  (isComplete prefs = true ->
   forallb ticked (checklistValues prefs)
   = match topics prefs with
     | Some chosen => negb (JsString.join ", " chosen =? "")
     | None => false
     end).
Proof.
  unfold isComplete, checklistValues. cbn [forallb].
  change ticked with truthy.
  destruct (truthy (option_map toneText (tone prefs)));
    [| cbn; split; intros H; discriminate H].
  destruct (truthy (option_map formatText (format prefs)));
    [| cbn; split; intros H; discriminate H].
  destruct (truthy (language prefs));
    [| cbn; split; intros H; discriminate H].
  destruct (truthy (option_map interactionStyleText (interaction_style prefs)));
    [| cbn; split; intros H; discriminate H].
  cbn [andb].
  destruct (topics prefs) as [chosen |]; [| cbn; split; intros H; discriminate H].
  destruct (Nat.ltb 0 (length chosen)) eqn:Hlen; cbn.
  - split; [intros _; reflexivity |].
    intros _. rewrite andb_true_r. reflexivity.
  - split; intros H; discriminate H.
Qed.

Lemma ticked_checklist_is_complete_witness :
  isComplete {| tone := Some casual; format := Some paragraphs;
                language := Some "English";
                interaction_style := Some concise;
                topics := Some ["science"] |} = true /\
  forallb ticked
    (checklistValues {| tone := Some casual; format := Some paragraphs;
                        language := Some "English";
                        interaction_style := Some concise;
                        topics := Some [""] |})
  = false.
Proof.
  split.
  - apply (ticked_checklist_is_complete
             {| tone := Some casual; format := Some paragraphs;
                language := Some "English";
                interaction_style := Some concise;
                topics := Some ["science"] |}).
    reflexivity.
  - destruct (ticked_checklist_is_complete
                {| tone := Some casual; format := Some paragraphs;
                   language := Some "English";
                   interaction_style := Some concise;
                   topics := Some [""] |}) as [_ H].
    rewrite (H eq_refl). reflexivity.
Defined.
